(** * whisper-api: the multi-instance WhatsApp gateway

    A shallow embedding of the instance manager
    (src/services/whatsappInstanceManager.service.js), the per-instance
    plugin chain (src/core/plugin-manager.core.js), the create endpoint
    (src/controllers/mode.controller.js) and the persistence adapters they
    call, followed by the properties of the specification they satisfy.

    Conventions.
    - A JS [Map] that is iterated is a list in insertion order; a JS object
      or [Map] that is only looked up is a [gmap].  An object read with
      [o[name]] is the [gmap] of its own properties, read with [Js.get],
      which goes on to [Object.prototype].
    - Store tables are lists of rows; the operations of the Prisma adapters
      are functions over them.
    - Code that awaits and throws runs in the monad [M]: a state monad over
      [World] whose result is a value or the thrown error.  A mutation done
      before a throw stays done, as in JS.
    - What the process cannot decide (the answer of an HTTP endpoint, of the
      chat transport, of a plugin handler, a storage rejection) is read from
      an environment record [Env]. *)

From stdpp Require Import gmap strings list fin_maps pretty.
From Stdlib Require Import ZArith Ascii String.

Open Scope string_scope.

(** ** Recipient numbers (sendMessage / sendMediaMessage, lines 558-568 and 701-711) *)

Module Phone.

(** [\d] of a JS regular expression without the unicode flag: '0'..'9'. *)
Definition is_digit (c : ascii) : bool :=
  let n := nat_of_ascii c in (48 <=? n)%nat && (n <=? 57)%nat.

(** [s.replace(/[^\d]/g, '')] *)
Fixpoint digits_only (s : string) : string :=
  match s with
  | EmptyString => EmptyString
  | String c r => if is_digit c then String c (digits_only r) else digits_only r
  end.

(** [s.startsWith(p)] *)
Definition startsWith (s p : string) : bool := String.prefix p s.

(** [s.substring(1)] *)
Definition substring1 (s : string) : string :=
  match s with
  | EmptyString => EmptyString
  | String _ r => r
  end.

(** The block under the comment "Format phone number". *)
Definition formatNumber (phoneNumber : string) : string :=
  let formattedNumber := digits_only phoneNumber in
  if negb (startsWith formattedNumber "62") then
    if startsWith formattedNumber "0" then "62" ++ substring1 formattedNumber
    else "62" ++ formattedNumber
  else formattedNumber.

(** [`${formattedNumber}@s.whatsapp.net`] *)
Definition personal_jid (phoneNumber : string) : string :=
  formatNumber phoneNumber ++ "@s.whatsapp.net".

(** [groupId.includes('@g.us') ? groupId : `${groupId}@g.us`] *)
Fixpoint includes (s p : string) : bool :=
  String.prefix p s ||
  match s with
  | EmptyString => false
  | String _ r => includes r p
  end.

Definition group_jid (groupId : string) : string :=
  if includes groupId "@g.us" then groupId else groupId ++ "@g.us".

Fixpoint all_digits (s : string) : bool :=
  match s with
  | EmptyString => true
  | String c r => is_digit c && all_digits r
  end.

End Phone.

(** ** Paths (path.join of lines 28 and 918) *)

Module Path.

(** [s.split('/')]: the texts between the separators. *)
Fixpoint split (s : string) : list string :=
  match s with
  | EmptyString => [""]
  | String c r =>
      if Ascii.eqb c "/" then "" :: split r
      else match split r with
           | x :: xs => String c x :: xs
           | [] => [String c ""]
           end
  end.

(** POSIX [path.normalize] of an absolute path, on its segments; [stack]
    holds the segments kept so far, the last one first.  An empty segment
    and "." are dropped, ".." drops the segment before it and stays at the
    root. *)
Fixpoint normalize (stack segments : list string) : list string :=
  match segments with
  | [] => reverse stack
  | segment :: rest =>
      if bool_decide (segment = "") || bool_decide (segment = ".") then normalize stack rest
      else if bool_decide (segment = "..") then normalize (tail stack) rest
      else normalize (segment :: stack) rest
  end.

(** [path.join(dir, p)] for an absolute, normalised [dir], as the segments
    of the directory it names (a trailing separator names the same one). *)
Definition join (dir : list string) (p : string) : list string :=
  normalize (reverse dir) (split p).

(** The directory [q] is [p] or lies under it. *)
Definition within (p q : list string) : bool := bool_decide (p `prefix_of` q).

End Path.

(** ** JS values and the safe serialisation (safeSerialize, lines 345-397) *)

Module Js.

(** The JSON trees [JSON.parse] returns. *)
#[warnings="-register-all"]
Inductive json : Type :=
| JNull
| JBool (b : bool)
| JNum (n : Z)
| JStr (s : string)
| JArr (items : list json)
| JObj (props : list (string * json)).

(** The values [safeSerialize] can meet.  Numbers are the integral ones;
    [VNaN] stands for the non-finite ones.  [VObject] is an object whose
    [Object.prototype.toString] tag is "[object Object]" (object literals
    and class instances such as Long), with its own enumerable properties
    in order.  [VExotic] is any other object (Map, Set, RegExp, ...), with
    the text its [toString()] returns.  [VCircular] is a reference back to
    an enclosing object or array.  None of these has a [toJSON] method but
    [VBuffer]; [VToJSON self result] is the object [self] given a [toJSON]
    method that returns [result]: a Date is
    [VToJSON (VExotic text) (VStr iso)], a decoded protobuf message is
    [VToJSON (VObject fields) (VObject plain)].  The methods [toJSON] and
    [toString] of a value are taken to return. *)
#[warnings="-register-all"]
Inductive jsval : Type :=
| VUndefined
| VNull
| VBool (b : bool)
| VNum (n : Z)
| VNaN
| VBigInt (n : Z)
| VStr (s : string)
| VUint8Array (bytes : list Z)
| VBuffer (bytes : list Z)
| VFunction (name : string)
| VArray (items : list jsval)
| VObject (props : list (string * jsval))
| VExotic (str : string)
| VCircular
| VToJSON (self result : jsval).

(** The JS value a JSON tree stands for: what [JSON.parse] builds, the
    properties of an object in the order of the tree. *)
Fixpoint of_json (j : json) : jsval :=
  match j with
  | JNull => VNull
  | JBool b => VBool b
  | JNum n => VNum n
  | JStr s => VStr s
  | JArr items => VArray (of_json <$> items)
  | JObj props => VObject ((fun p => (p.1, of_json p.2)) <$> props)
  end.

(** ToBoolean: what [if (v)] and [!v] test. *)
Definition truthy (v : jsval) : bool :=
  match v with
  | VUndefined | VNull | VNaN => false
  | VBool b => b
  | VNum n | VBigInt n => negb (bool_decide (n = 0%Z))
  | VStr s => negb (bool_decide (s = ""))
  | _ => true
  end.

(** The names every object inherits from [Object.prototype]. *)
Definition Object_prototype : list string :=
  ["constructor"; "__defineGetter__"; "__defineSetter__"; "hasOwnProperty";
   "__lookupGetter__"; "__lookupSetter__"; "isPrototypeOf"; "propertyIsEnumerable";
   "toString"; "valueOf"; "__proto__"; "toLocaleString"].

(** [o[name]] on an object built by a literal, a spread or [JSON.parse],
    given by its own properties: the own property, else the member of
    [Object.prototype] of that name (a function, and for [__proto__] the
    prototype itself, an object without enumerable properties), else
    [undefined]. *)
Definition get (o : gmap string json) (name : string) : jsval :=
  match o !! name with
  | Some v => of_json v
  | None =>
      if bool_decide (name ∈ Object_prototype) then
        if bool_decide (name = "__proto__") then VObject [] else VFunction name
      else VUndefined
  end.

(** [o[name] = v] on such an object, for a boolean, a number or a string
    [v]: the setter of [__proto__] that [Object.prototype] holds ignores
    such a value, unless the object has an own property of that name; any
    other name becomes or stays an own property. *)
Definition set (o : gmap string json) (name : string) (v : json) : gmap string json :=
  if bool_decide (name = "__proto__") && bool_decide (o !! name = None) then o
  else <[name := v]> o.

(** What [JSON.stringify] and [JSON.parse] throw here. *)
Inductive exn : Type :=
| CircularStructure   (* TypeError: Converting circular structure to JSON *)
| BigIntValue         (* TypeError: Do not know how to serialize a BigInt *)
| ParseUndefined.     (* SyntaxError: JSON.parse(undefined) *)

(** Step 2 of SerializeJSONProperty: what the [toJSON] method of the
    value returns ([Buffer.prototype.toJSON] for a Buffer), or the value
    itself when it has none. *)
Definition toJSON (v : jsval) : jsval :=
  match v with
  | VBuffer bytes => VObject [("type", VStr "Buffer"); ("data", VArray (VNum <$> bytes))]
  | VToJSON _ result => result
  | _ => v
  end.

(** The replacer passed to [JSON.stringify], branch by branch.  A [Buffer]
    is an instance of [Uint8Array], so the first test catches it. *)
Definition replacer (value : jsval) : jsval :=
  match value with
  (* value instanceof Uint8Array *)
  | VUint8Array bytes | VBuffer bytes =>
      VObject [("__type", VStr "Uint8Array"); ("data", VArray (VNum <$> bytes))]
  (* typeof value === 'function' *)
  | VFunction name =>
      VObject [("__type", VStr "Function");
               ("name", VStr (if bool_decide (name = "") then "anonymous" else name))]
  (* value && typeof value === 'object', plain object or array *)
  | VArray _ | VObject _ | VCircular => value
  (* other object types *)
  | VExotic str =>
      VObject [("__type", VStr "ComplexObject"); ("toString", VStr str)]
  | _ => value
  end.

(** SerializeJSONArray and SerializeJSONObject, one element at a time, left
    to right: an element that serialises to [undefined] is written [null]
    in an array and left out of an object; the first throw ends it. *)
Definition element (x : exn + option json) (rest : exn + list json) : exn + list json :=
  match x with
  | inl e => inl e
  | inr o =>
      match rest with
      | inl e => inl e
      | inr js => inr (default JNull o :: js)
      end
  end.

Definition member (k : string) (x : exn + option json) (rest : exn + list (string * json))
  : exn + list (string * json) :=
  match x with
  | inl e => inl e
  | inr o =>
      match rest with
      | inl e => inl e
      | inr ms => inr (match o with Some j => (k, j) :: ms | None => ms end)
      end
  end.

Definition array_of (r : exn + list json) : exn + option json :=
  match r with inl e => inl e | inr js => inr (Some (JArr js)) end.

Definition object_of (r : exn + list (string * json)) : exn + option json :=
  match r with inl e => inl e | inr ms => inr (Some (JObj ms)) end.

(** Serialisation of a value that needs neither [toJSON] nor the replacer:
    primitives, and the objects the replacer builds (their properties are
    strings and arrays of numbers, which both steps leave alone).
    [None] is JS [undefined]: the property is left out.  The last four
    cases are never reached from [SerializeJSONProperty]; they follow
    [JSON.stringify] without a replacer. *)
Fixpoint serialize_data (v : jsval) : exn + option json :=
  match v with
  | VUndefined | VFunction _ => inr None
  | VNull | VNaN => inr (Some JNull)
  | VBool b => inr (Some (JBool b))
  | VNum n => inr (Some (JNum n))
  | VBigInt _ => inl BigIntValue
  | VStr s => inr (Some (JStr s))
  | VCircular => inl CircularStructure
  | VArray items =>
      array_of
        ((fix elements (l : list jsval) : exn + list json :=
            match l with
            | [] => inr []
            | x :: r => element (serialize_data x) (elements r)
            end) items)
  | VObject props =>
      object_of
        ((fix members (l : list (string * jsval)) : exn + list (string * json) :=
            match l with
            | [] => inr []
            | (k, x) :: r => member k (serialize_data x) (members r)
            end) props)
  | VBuffer bytes =>
      inr (Some (JObj [("type", JStr "Buffer"); ("data", JArr (JNum <$> bytes))]))
  | VUint8Array bytes => inr (Some (JObj (imap (fun i b => (pretty i, JNum b)) bytes)))
  | VExotic _ => inr (Some (JObj []))
  | VToJSON _ result => serialize_data result
  end.

(** SerializeJSONProperty with the replacer of [safeSerialize], on a value
    whose [toJSON] has been called already ([called]) or not: [toJSON] is
    called once, on the value itself, and what it returns goes on to the
    replacer, as does a value without the method; then the value the
    replacer returned is serialised, its elements and properties going
    through all the steps.  On an array or a plain object the replacer
    returns the value itself. *)
Fixpoint serialize (called : bool) (v : jsval) : exn + option json :=
  match v with
  | VToJSON self result => if called then serialize true self else serialize true result
  | VArray items =>
      array_of
        ((fix elements (l : list jsval) : exn + list json :=
            match l with
            | [] => inr []
            | x :: r => element (serialize false x) (elements r)
            end) items)
  | VObject props =>
      object_of
        ((fix members (l : list (string * jsval)) : exn + list (string * json) :=
            match l with
            | [] => inr []
            | (k, x) :: r => member k (serialize false x) (members r)
            end) props)
  | _ => serialize_data (replacer (if called then v else toJSON v))
  end.

Definition SerializeJSONProperty (v : jsval) : exn + option json := serialize false v.

(** [JSON.parse(JSON.stringify(obj, replacer))]: parsing the text gives the
    tree back; [JSON.stringify] returning [undefined] makes [JSON.parse]
    throw. *)
Definition parse_stringify (obj : jsval) : exn + json :=
  match SerializeJSONProperty obj with
  | inl e => inl e
  | inr None => inl ParseUndefined
  | inr (Some j) => inr j
  end.

(** [typeof obj] *)
Fixpoint typeof (v : jsval) : string :=
  match v with
  | VUndefined => "undefined"
  | VBool _ => "boolean"
  | VNum _ | VNaN => "number"
  | VBigInt _ => "bigint"
  | VStr _ => "string"
  | VFunction _ => "function"
  | VToJSON self _ => typeof self
  | _ => "object"
  end.

Section SafeSerialize.

(** The fallback object of the catch block.  The engine's text of an
    error ([error.message]) and of a value ([obj.toString()]) are left to
    the environment. *)
Variable error_message : exn -> string.
Variable js_toString : jsval -> string.

(** [obj?.toString?.() || 'Unable to convert to string'] *)
Definition fallback_toString (obj : jsval) : string :=
  match obj with
  | VUndefined | VNull => "Unable to convert to string"
  | _ => if bool_decide (js_toString obj = "") then "Unable to convert to string"
         else js_toString obj
  end.

Definition fallback (obj : jsval) (e : exn) : json :=
  JObj [("__serialization_error", JBool true);
        ("error", JStr (error_message e));
        ("type", JStr (typeof obj));
        ("toString", JStr (fallback_toString obj))].

End SafeSerialize.

(** Property lookup on a JSON object. *)
Fixpoint assoc (k : string) (l : list (string * json)) : option json :=
  match l with
  | [] => None
  | (k', j) :: r => if bool_decide (k' = k) then Some j else assoc k r
  end.

Definition field (k : string) (j : json) : option json :=
  match j with
  | JObj props => assoc k props
  | _ => None
  end.

End Js.

(** ** Rows of the persistent store and the data handed to its adapters *)

Module Store.

(** Instance status values written by the code (and 'pending' of the data
    model). *)
Inductive Status : Type :=
| st_pending | st_connecting | st_qr_ready | st_active | st_reconnecting | st_inactive | st_error.

#[global] Instance Status_eq_dec : EqDecision Status.
Proof. solve_decision. Defined.

Record InstanceRow : Type := {
  row_id : nat;
  row_phone : string;
  row_name : string;
  row_alias : option string;
  row_status : Status;
  row_pluginConfig : gmap string Js.json     (* the own properties of the object *)
}.

(** The argument of [instanceService.create]. *)
Record InstanceData : Type := {
  data_phone : string;
  data_name : string;
  data_alias : option string
}.

Record Webhook : Type := {
  wh_id : nat;
  wh_instanceId : nat;
  wh_type : string;
  wh_event : string;
  wh_url : string;
  wh_isEnabled : bool
}.

Inductive Direction : Type := incoming | outgoing.

Inductive MessageStatus : Type := msg_pending | msg_sent | msg_received.

(** The [message] JSON column, as the three send paths and the inbound
    path fill it. *)
Inductive MessageBody : Type :=
| BodyIncoming (content : string) (pushName : option string) (messageId : string)
    (timestamp : Z) (raw : Js.json)
| BodyText (content : string) (messageId : string)
| BodyGroup (content : string) (messageId : string)
| BodyMedia (content : string) (messageId : string) (mediaType mediaUrl : string)
    (filename : option string).

(** The argument of [messageService.create]. *)
Record MessageData : Type := {
  msg_instanceId : nat;
  msg_direction : Direction;
  msg_from : string;
  msg_to : string;
  msg_type : string;
  msg_message : MessageBody;
  msg_status : MessageStatus;
  msg_sentAt : Z
}.

(** The data of a webhook event: the sub-status and the other fields of a
    'connection.update', or the message of a 'message.received' or
    'message.sent'. *)
Inductive EventData : Type :=
| ConnectionData (status : string) (instance : InstanceRow) (timestamp : Z)
    (fields : list (string * Js.json))
| ReceivedData (message : Js.jsval) (instance : InstanceRow)
| SentData (message : MessageData) (instance : InstanceRow) (recipient : string)
    (fields : list (string * Js.json)).

Record Payload : Type := {
  pl_event : string;
  pl_data : EventData;
  pl_timestamp : Z;
  pl_instanceId : nat
}.

Record Response : Type := {
  resp_status : Z;
  resp_statusText : string;
  resp_headers : list (string * string);
  resp_data : string
}.

Inductive HistoryStatus : Type := h_pending | h_success | h_failed | h_timeout.

#[global] Instance HistoryStatus_eq_dec : EqDecision HistoryStatus.
Proof. solve_decision. Defined.

(** [historyData] of triggerWebhooks, which is the argument of
    [webhookHistoryService.create], and the row the store keeps of it;
    [None] is a key that is absent or null.  Times are milliseconds since
    the epoch.  triggerWebhooks never sets [triggeredAt]: the store fills
    it. *)
Record HistoryData : Type := {
  hist_instanceId : nat;
  hist_webhookId : nat;
  hist_event : string;
  hist_payload : Payload;
  hist_status : HistoryStatus;
  hist_retryCount : nat;
  hist_httpStatusCode : option Z;
  hist_responseTime : option Z;
  hist_response : option Response;
  hist_errorMessage : option string;
  hist_completedAt : option Z;
  hist_triggeredAt : option Z
}.

Inductive LogLevel : Type := lvl_info | lvl_error.

Record LogData : Type := {
  log_instanceId : nat;
  log_level : LogLevel;
  log_message : string
}.

Definition phone_is (p : string) (r : InstanceRow) : bool := bool_decide (row_phone r = p).
Definition id_is (i : nat) (r : InstanceRow) : bool := bool_decide (row_id r = i).

(** [prisma.instance.findUnique({ where: { phone } })] *)
Definition findByPhone (rows : list InstanceRow) (p : string) : option InstanceRow :=
  List.find (phone_is p) rows.

(** [prisma.instance.findUnique({ where: { id } })] *)
Definition findById (rows : list InstanceRow) (i : nat) : option InstanceRow :=
  List.find (id_is i) rows.

Definition with_status (s : Status) (r : InstanceRow) : InstanceRow :=
  {| row_id := row_id r; row_phone := row_phone r; row_name := row_name r;
     row_alias := row_alias r; row_status := s; row_pluginConfig := row_pluginConfig r |}.

(** The rows after [prisma.instance.update({ where: { id }, data: { status } })]. *)
Definition set_status (i : nat) (s : Status) (rows : list InstanceRow) : list InstanceRow :=
  (fun r => if id_is i r then with_status s r else r) <$> rows.

(** The row [instanceService.create] writes: status defaults to 'inactive',
    pluginConfig to the empty object. *)
Definition new_row (i : nat) (d : InstanceData) : InstanceRow :=
  {| row_id := i; row_phone := data_phone d; row_name := data_name d;
     row_alias := data_alias d; row_status := st_inactive; row_pluginConfig := ∅ |}.

(** [webhookService.getEnabledWebhooks(instanceId, event)] *)
Definition getEnabledWebhooks (hooks : list Webhook) (instanceId : nat) (event : string)
  : list Webhook :=
  List.filter (fun h => bool_decide (wh_instanceId h = instanceId)
                        && bool_decide (wh_event h = event) && wh_isEnabled h) hooks.

End Store.

(** ** The upstream envelope and the plugin chain (plugin-manager.core.js) *)

Module Chain.
Import Store.

(** [messageTimestamp]: a number, a Long-like object, or something else,
    of which the code takes [JSON.stringify(timestamp)] inside a template
    literal: the message of the error that throws (a BigInt, a cycle), or
    the text ("undefined" for a missing timestamp). *)
Inductive Timestamp : Type :=
| TsNumber (n : Z)
| TsLong (low high : Z) (toNumber : option Z)
| TsOther (stringified : string + string).

(** What the inbound pipeline reads of an upstream message, and the whole
    envelope as the JS value handed to [safeSerialize] and to the webhooks. *)
Record WAMessage : Type := {
  key_remoteJid : string;
  key_fromMe : bool;
  key_id : string;
  pushName : option string;
  messageTimestamp : Timestamp;
  message_keys : list string;          (* Object.keys(message.message || {}) *)
  conversation : option string;        (* message.message?.conversation *)
  extendedText : option string;        (* message.message?.extendedTextMessage?.text *)
  imageCaption : option string;        (* message.message?.imageMessage?.caption *)
  envelope : Js.jsval
}.

(** The [message] a plugin receives: an upstream message, or the synthetic
    envelope handleGroupUpdate builds. *)
Inductive PluginMessage : Type :=
| Upstream (m : WAMessage)
| GroupUpdate (id : string) (participants : list string) (action : string).

(** [plugin.config]; a key may be missing. *)
Record PluginConfig : Type := {
  cfg_enabled : option bool;
  cfg_description : option string
}.

(** [plugin.config || { enabled: true }] *)
Definition default_config (c : option PluginConfig) : PluginConfig :=
  match c with
  | Some c => c
  | None => {| cfg_enabled := Some true; cfg_description := None |}
  end.

(** [{ enabled: isEnabled, sock, message, ...defaultConfig }]: the spread
    comes last, so the plugin's own [enabled] wins when it has one.  [sock]
    is the socket of the calling instance and is not repeated here. *)
Record Props : Type := {
  props_enabled : Js.jsval;
  props_message : PluginMessage;
  props_description : option string
}.

Record PluginManager : Type := {
  plugins : list string;                       (* Map name -> handler, insertion order *)
  pluginConfigs : gmap string PluginConfig;
  instancePluginConfig : gmap string Js.json;  (* the own properties of the object *)
  pm_phone : option string                     (* this.instanceData?.phone *)
}.

(** The constructor: the override is the row's pluginConfig (the object
    itself, or the one parsed from its text), or {} . *)
Definition new_PluginManager (instanceData : option InstanceRow) : PluginManager :=
  {| plugins := [];
     pluginConfigs := ∅;
     instancePluginConfig := from_option row_pluginConfig ∅ instanceData;
     pm_phone := row_phone <$> instanceData |}.

(** [const instanceEnabled = this.instancePluginConfig[pluginName]; const
    isEnabled = instanceEnabled !== undefined ? instanceEnabled : false]:
    the value, which is handed to the plugin. *)
Definition instanceEnabled (pm : PluginManager) (pluginName : string) : Js.jsval :=
  match Js.get (instancePluginConfig pm) pluginName with
  | Js.VUndefined => Js.VBool false
  | instanceEnabled => instanceEnabled
  end.

(** [if (isEnabled)] *)
Definition isEnabled (pm : PluginManager) (pluginName : string) : bool :=
  Js.truthy (instanceEnabled pm pluginName).

Definition props_for (pm : PluginManager) (pluginName : string) (message : PluginMessage)
  : Props :=
  let defaultConfig := pluginConfigs pm !! pluginName in
  {| props_enabled :=
       match defaultConfig ≫= cfg_enabled with
       | Some e => Js.VBool e
       | None => instanceEnabled pm pluginName
       end;
     props_message := message;
     props_description := defaultConfig ≫= cfg_description |}.

(** The handlers [executePlugins] calls, in the order of the loop. *)
Definition invoked (pm : PluginManager) : list string :=
  List.filter (isEnabled pm) (plugins pm).

(** [this.plugins.set(name, plugin)] on an insertion-ordered Map. *)
Definition map_set_key (name : string) (keys : list string) : list string :=
  if bool_decide (name ∈ keys) then keys else (keys ++ [name])%list.

(** [enableInstancePlugin] / [disableInstancePlugin]:
    [this.instancePluginConfig[pluginName] = b]; [None] is the throw
    'Plugin ... not found'. *)
Definition setInstancePlugin (pm : PluginManager) (pluginName : string) (b : bool)
  : option PluginManager :=
  if bool_decide (pluginName ∈ plugins pm) then
    Some {| plugins := plugins pm; pluginConfigs := pluginConfigs pm;
            instancePluginConfig := Js.set (instancePluginConfig pm) pluginName (Js.JBool b);
            pm_phone := pm_phone pm |}
  else None.

(** [setInstancePluginConfig]: [{ ...this.instancePluginConfig, ...pluginConfig }],
    on the own properties of the object given, whatever their values. *)
Definition setInstancePluginConfig (pm : PluginManager) (pluginConfig : gmap string Js.json)
  : PluginManager :=
  {| plugins := plugins pm; pluginConfigs := pluginConfigs pm;
     instancePluginConfig := pluginConfig ∪ instancePluginConfig pm;
     pm_phone := pm_phone pm |}.

(** [getInstancePluginStatus], as the list of the assignments
    [status[pluginName] = ...] in order. *)
Definition getInstancePluginStatus (pm : PluginManager) : list (string * Js.jsval) :=
  (fun n => (n, instanceEnabled pm n)) <$> plugins pm.

End Chain.

(** ** The world: manager, instance objects, store, disk, timers, clock *)

Module Sys.
Import Store Chain.

(** In-memory [connectionStatus]. *)
Inductive ConnectionStatus : Type :=
| cs_disconnected | cs_qr_ready | cs_reconnecting | cs_logged_out
| cs_connected | cs_connecting | cs_error.

#[global] Instance ConnectionStatus_eq_dec : EqDecision ConnectionStatus.
Proof. solve_decision. Defined.

(** The socket makeWASocket returns; [user.id] is bound after an open. *)
Record Sock : Type := { user_id : option string }.

(** A [WhatsAppInstance] object.  [authDir] is auth/<phone> of the row it
    was built from. *)
Record WhatsAppInstance : Type := {
  instanceData : InstanceRow;
  sock : option Sock;
  isConnected : bool;
  connectionStatus : ConnectionStatus;
  qrCode : option string;
  authDir : string;
  pluginManager : PluginManager;
  reconnectAttempts : nat;
  maxReconnectAttempts : nat;
  isManualRestart : bool
}.

(** The constructor. *)
Definition new_WhatsAppInstance (instanceData : InstanceRow) : WhatsAppInstance :=
  {| instanceData := instanceData;
     sock := None;
     isConnected := false;
     connectionStatus := cs_disconnected;
     qrCode := None;
     authDir := row_phone instanceData;
     pluginManager := new_PluginManager (Some instanceData);
     reconnectAttempts := 0;
     maxReconnectAttempts := 5;
     isManualRestart := false |}.

(** What the content of an outbound transport call is. *)
Inductive OutContent : Type :=
| OutText (text : string)
| OutImage (url : string) (caption : option string)
| OutVideo (url : string) (caption : option string)
| OutAudio (url : string)
| OutDocument (url : string) (fileName : string) (caption : option string).

(** What leaves the process, and the error and warning lines of the logger. *)
Inductive Effect : Type :=
| HttpPost (url : string) (payload : Payload)
| PluginCall (name : string) (props : Props)
| SockSendMessage (jid : string) (content : OutContent)
| SockGroupMetadata (jid : string)
| SockLogout
| SockWsClose
| LogError (line : string)
| LogWarn (line : string).

Definition ref := nat.

Record World : Type := {
  instances : gmap string ref;          (* WhatsAppInstanceManager.instances: phone -> object *)
  initialized : bool;
  heap : gmap ref WhatsAppInstance;     (* the instance objects *)
  tbl_instance : list InstanceRow;
  tbl_message : list MessageData;
  tbl_webhook : list Webhook;
  tbl_history : list HistoryData;
  tbl_log : list LogData;
  next_id : nat;                        (* the next fresh row id *)
  auth_dirs : gset string;              (* the phones whose directory auth/<phone> is on disk *)
  timers : list ref;                    (* pending setTimeout(() => this.initialize(), 5000) *)
  now : Z;                              (* Date.now() *)
  out : list Effect                     (* oldest first *)
}.

Definition set_instances (f : gmap string ref -> gmap string ref) (w : World) : World :=
  {| instances := f (instances w); initialized := initialized w; heap := heap w;
     tbl_instance := tbl_instance w; tbl_message := tbl_message w;
     tbl_webhook := tbl_webhook w; tbl_history := tbl_history w; tbl_log := tbl_log w;
     next_id := next_id w; auth_dirs := auth_dirs w; timers := timers w; now := now w;
     out := out w |}.

Definition set_initialized (b : bool) (w : World) : World :=
  {| instances := instances w; initialized := b; heap := heap w;
     tbl_instance := tbl_instance w; tbl_message := tbl_message w;
     tbl_webhook := tbl_webhook w; tbl_history := tbl_history w; tbl_log := tbl_log w;
     next_id := next_id w; auth_dirs := auth_dirs w; timers := timers w; now := now w;
     out := out w |}.

Definition set_heap (f : gmap ref WhatsAppInstance -> gmap ref WhatsAppInstance) (w : World)
  : World :=
  {| instances := instances w; initialized := initialized w; heap := f (heap w);
     tbl_instance := tbl_instance w; tbl_message := tbl_message w;
     tbl_webhook := tbl_webhook w; tbl_history := tbl_history w; tbl_log := tbl_log w;
     next_id := next_id w; auth_dirs := auth_dirs w; timers := timers w; now := now w;
     out := out w |}.

Definition set_tbl_instance (f : list InstanceRow -> list InstanceRow) (w : World) : World :=
  {| instances := instances w; initialized := initialized w; heap := heap w;
     tbl_instance := f (tbl_instance w); tbl_message := tbl_message w;
     tbl_webhook := tbl_webhook w; tbl_history := tbl_history w; tbl_log := tbl_log w;
     next_id := next_id w; auth_dirs := auth_dirs w; timers := timers w; now := now w;
     out := out w |}.

Definition set_tbl_message (f : list MessageData -> list MessageData) (w : World) : World :=
  {| instances := instances w; initialized := initialized w; heap := heap w;
     tbl_instance := tbl_instance w; tbl_message := f (tbl_message w);
     tbl_webhook := tbl_webhook w; tbl_history := tbl_history w; tbl_log := tbl_log w;
     next_id := next_id w; auth_dirs := auth_dirs w; timers := timers w; now := now w;
     out := out w |}.

Definition set_tbl_webhook (f : list Webhook -> list Webhook) (w : World) : World :=
  {| instances := instances w; initialized := initialized w; heap := heap w;
     tbl_instance := tbl_instance w; tbl_message := tbl_message w;
     tbl_webhook := f (tbl_webhook w); tbl_history := tbl_history w; tbl_log := tbl_log w;
     next_id := next_id w; auth_dirs := auth_dirs w; timers := timers w; now := now w;
     out := out w |}.

Definition set_tbl_history (f : list HistoryData -> list HistoryData) (w : World) : World :=
  {| instances := instances w; initialized := initialized w; heap := heap w;
     tbl_instance := tbl_instance w; tbl_message := tbl_message w;
     tbl_webhook := tbl_webhook w; tbl_history := f (tbl_history w); tbl_log := tbl_log w;
     next_id := next_id w; auth_dirs := auth_dirs w; timers := timers w; now := now w;
     out := out w |}.

Definition set_tbl_log (f : list LogData -> list LogData) (w : World) : World :=
  {| instances := instances w; initialized := initialized w; heap := heap w;
     tbl_instance := tbl_instance w; tbl_message := tbl_message w;
     tbl_webhook := tbl_webhook w; tbl_history := tbl_history w; tbl_log := f (tbl_log w);
     next_id := next_id w; auth_dirs := auth_dirs w; timers := timers w; now := now w;
     out := out w |}.

Definition set_next_id (f : nat -> nat) (w : World) : World :=
  {| instances := instances w; initialized := initialized w; heap := heap w;
     tbl_instance := tbl_instance w; tbl_message := tbl_message w;
     tbl_webhook := tbl_webhook w; tbl_history := tbl_history w; tbl_log := tbl_log w;
     next_id := f (next_id w); auth_dirs := auth_dirs w; timers := timers w; now := now w;
     out := out w |}.

Definition set_auth_dirs (f : gset string -> gset string) (w : World) : World :=
  {| instances := instances w; initialized := initialized w; heap := heap w;
     tbl_instance := tbl_instance w; tbl_message := tbl_message w;
     tbl_webhook := tbl_webhook w; tbl_history := tbl_history w; tbl_log := tbl_log w;
     next_id := next_id w; auth_dirs := f (auth_dirs w); timers := timers w; now := now w;
     out := out w |}.

Definition set_timers (f : list ref -> list ref) (w : World) : World :=
  {| instances := instances w; initialized := initialized w; heap := heap w;
     tbl_instance := tbl_instance w; tbl_message := tbl_message w;
     tbl_webhook := tbl_webhook w; tbl_history := tbl_history w; tbl_log := tbl_log w;
     next_id := next_id w; auth_dirs := auth_dirs w; timers := f (timers w); now := now w;
     out := out w |}.

Definition set_now (f : Z -> Z) (w : World) : World :=
  {| instances := instances w; initialized := initialized w; heap := heap w;
     tbl_instance := tbl_instance w; tbl_message := tbl_message w;
     tbl_webhook := tbl_webhook w; tbl_history := tbl_history w; tbl_log := tbl_log w;
     next_id := next_id w; auth_dirs := auth_dirs w; timers := timers w; now := f (now w);
     out := out w |}.

Definition set_out (f : list Effect -> list Effect) (w : World) : World :=
  {| instances := instances w; initialized := initialized w; heap := heap w;
     tbl_instance := tbl_instance w; tbl_message := tbl_message w;
     tbl_webhook := tbl_webhook w; tbl_history := tbl_history w; tbl_log := tbl_log w;
     next_id := next_id w; auth_dirs := auth_dirs w; timers := timers w; now := now w;
     out := f (out w) |}.

(** *** The monad of awaiting, throwing code *)

Definition M (A : Type) : Type := World -> (string + A) * World.

Definition ret {A} (a : A) : M A := fun w => (inr a, w).

Definition bind {A B} (m : M A) (k : A -> M B) : M B :=
  fun w => match m w with
           | (inl e, w') => (inl e, w')
           | (inr a, w') => k a w'
           end.

Definition throw {A} (e : string) : M A := fun w => (inl e, w).

(** [try { m } catch (error) { h(error.message) }] *)
Definition try_catch {A} (m : M A) (h : string -> M A) : M A :=
  fun w => match m w with
           | (inl e, w') => h e w'
           | r => r
           end.

Definition gets {A} (f : World -> A) : M A := fun w => (inr (f w), w).
Definition modify (f : World -> World) : M unit := fun w => (inr tt, f w).

#[global] Instance M_ret : MRet M := @ret.
#[global] Instance M_bind : MBind M := fun A B k m => bind m k.

(** [for (const x of l) { body(x) }] *)
Fixpoint for_each {A} (l : list A) (body : A -> M unit) : M unit :=
  match l with
  | [] => mret tt
  | x :: r => body x;; for_each r body
  end.

Definition when (b : bool) (m : M unit) : M unit := if b then m else ret tt.

Definition emit (e : Effect) : M unit := modify (set_out (fun o => (o ++ [e])%list)).

(** *** The environment *)

(** How the subscriber at a URL answers a POST: with a response after some
    milliseconds, or with a network error (refused, reset, aborted,
    unresolved) with its [code] and [message]. *)
Inductive Endpoint : Type :=
| Responds (after : N) (response : Response)
| Fails (after : N) (code : string) (message : string).

(** What calling a plugin handler and chaining [.catch] on what it returns
    does: the promise fulfils; it rejects with an error that has this
    [message] (the text "undefined" for a value without one); it rejects
    with [null] or [undefined], so that reading [error.message] in the
    handler of [.catch] throws this TypeError; or the call itself throws
    (a handler that is not an async function and throws, an export that is
    not a function, a handler that returns no promise). *)
Inductive Outcome : Type :=
| Fulfils
| Rejects (message : string)
| RejectsNullish (typeError : string)
| Throws (error : string).

(** What a plugin file gives: [require] throws; or it returns [null] or
    [undefined], so that reading [plugin.config] throws; or it returns an
    export, with its [config] if it has one. *)
Inductive PluginFile : Type :=
| RequireThrows (error : string)
| ConfigThrows (typeError : string)
| Exports (config : option PluginConfig).

Record Env : Type := {
  (* __dirname of the service module, as the segments of the absolute path *)
  dirname : list string;
  endpoint : string -> Payload -> Endpoint;
  (* the store refusing a row: the message of the error it throws *)
  reject_history : HistoryData -> option string;
  reject_message : MessageData -> option string;
  (* the milliseconds an insert of a history row takes *)
  history_latency : HistoryData -> N;
  (* how late the timer of the timeout of a POST fires, in milliseconds *)
  timeout_lag : string -> Payload -> N;
  (* the call of a plugin handler *)
  plugin_outcome : string -> Props -> Outcome;
  (* the *.plugin.js files, in directory order *)
  plugin_files : list (string * PluginFile);
  (* sock.sendMessage: the error thrown, or result.key.id *)
  transport_send : string -> OutContent -> string + string;
  (* useMultiFileAuthState, fetchLatestBaileysVersion or makeWASocket throwing *)
  transport_start : string -> option string;
  (* sock.user?.id of a socket opened for a phone *)
  transport_user : string -> option string;
  transport_logout : option string;          (* sock.logout() throwing *)
  transport_groupMetadata : string -> option string;  (* sock.groupMetadata(jid) throwing *)
  qr_image : string -> string;               (* qrcode.toDataURL *)
  watermark : string;                        (* the signature built from package.json *)
  (* the engine's text of an error and of a value, for safeSerialize *)
  error_message : Js.exn -> string;
  js_toString : Js.jsval -> string
}.

(** *** axios.post with [timeout: 5000] *)

Inductive AxiosResult : Type :=
| Resolved (response : Response)
| Rejected (code : option string) (message : string) (response : option Response).

(** The default [validateStatus]. *)
Definition validateStatus (status : Z) : bool := (200 <=? status)%Z && (status <? 300)%Z.

(** [error.code] of a response rejected for its status. *)
Definition bad_status_code (status : Z) : option string :=
  if (400 <=? status)%Z && (status <? 500)%Z then Some "ERR_BAD_REQUEST"
  else if (500 <=? status)%Z && (status <? 600)%Z then Some "ERR_BAD_RESPONSE"
  else None.

Definition timeout_error (timeout : N) : AxiosResult :=
  Rejected (Some "ECONNABORTED") ("timeout of " ++ pretty timeout ++ "ms exceeded") None.

(** The promise of [axios.post] and the milliseconds until it settles: a
    2xx response resolves, any other status rejects with the response
    attached, no answer before the timeout rejects with ECONNABORTED once
    the timer has fired, [lag] milliseconds after the timeout. *)
Definition axios_post (timeout lag : N) (e : Endpoint) : AxiosResult * N :=
  match e with
  | Responds after response =>
      if (after <? timeout)%N then
        (if validateStatus (resp_status response) then Resolved response
         else Rejected (bad_status_code (resp_status response))
                ("Request failed with status code " ++ pretty (resp_status response))
                (Some response),
         after)
      else (timeout_error timeout, (timeout + lag)%N)
  | Fails after code message =>
      if (after <? timeout)%N then (Rejected (Some code) message None, after)
      else (timeout_error timeout, (timeout + lag)%N)
  end.

(** *** Instance objects *)

(** [this], for a method running on the object [r]. *)
Definition this (r : ref) : M WhatsAppInstance :=
  fun w => match heap w !! r with
           | Some inst => (inr inst, w)
           | None => (inl "TypeError: no such object", w)
           end.

Definition assign (r : ref) (f : WhatsAppInstance -> WhatsAppInstance) : M unit :=
  modify (set_heap (fun h => alter f r h)).

Definition set_sock (s : option Sock) (i : WhatsAppInstance) : WhatsAppInstance :=
  {| instanceData := instanceData i; sock := s; isConnected := isConnected i;
     connectionStatus := connectionStatus i; qrCode := qrCode i; authDir := authDir i;
     pluginManager := pluginManager i; reconnectAttempts := reconnectAttempts i;
     maxReconnectAttempts := maxReconnectAttempts i; isManualRestart := isManualRestart i |}.

Definition set_isConnected (b : bool) (i : WhatsAppInstance) : WhatsAppInstance :=
  {| instanceData := instanceData i; sock := sock i; isConnected := b;
     connectionStatus := connectionStatus i; qrCode := qrCode i; authDir := authDir i;
     pluginManager := pluginManager i; reconnectAttempts := reconnectAttempts i;
     maxReconnectAttempts := maxReconnectAttempts i; isManualRestart := isManualRestart i |}.

Definition set_connectionStatus (s : ConnectionStatus) (i : WhatsAppInstance)
  : WhatsAppInstance :=
  {| instanceData := instanceData i; sock := sock i; isConnected := isConnected i;
     connectionStatus := s; qrCode := qrCode i; authDir := authDir i;
     pluginManager := pluginManager i; reconnectAttempts := reconnectAttempts i;
     maxReconnectAttempts := maxReconnectAttempts i; isManualRestart := isManualRestart i |}.

Definition set_qrCode (q : option string) (i : WhatsAppInstance) : WhatsAppInstance :=
  {| instanceData := instanceData i; sock := sock i; isConnected := isConnected i;
     connectionStatus := connectionStatus i; qrCode := q; authDir := authDir i;
     pluginManager := pluginManager i; reconnectAttempts := reconnectAttempts i;
     maxReconnectAttempts := maxReconnectAttempts i; isManualRestart := isManualRestart i |}.

Definition set_pluginManager (pm : PluginManager) (i : WhatsAppInstance) : WhatsAppInstance :=
  {| instanceData := instanceData i; sock := sock i; isConnected := isConnected i;
     connectionStatus := connectionStatus i; qrCode := qrCode i; authDir := authDir i;
     pluginManager := pm; reconnectAttempts := reconnectAttempts i;
     maxReconnectAttempts := maxReconnectAttempts i; isManualRestart := isManualRestart i |}.

Definition set_reconnectAttempts (n : nat) (i : WhatsAppInstance) : WhatsAppInstance :=
  {| instanceData := instanceData i; sock := sock i; isConnected := isConnected i;
     connectionStatus := connectionStatus i; qrCode := qrCode i; authDir := authDir i;
     pluginManager := pluginManager i; reconnectAttempts := n;
     maxReconnectAttempts := maxReconnectAttempts i; isManualRestart := isManualRestart i |}.

Definition set_isManualRestart (b : bool) (i : WhatsAppInstance) : WhatsAppInstance :=
  {| instanceData := instanceData i; sock := sock i; isConnected := isConnected i;
     connectionStatus := connectionStatus i; qrCode := qrCode i; authDir := authDir i;
     pluginManager := pluginManager i; reconnectAttempts := reconnectAttempts i;
     maxReconnectAttempts := maxReconnectAttempts i; isManualRestart := b |}.

(** *** The adapters of the store *)

Module instanceService.

(** [update({ where: { id }, data: { status } })] throws when no row has
    the id. *)
Definition updateStatus (id : nat) (status : Status) : M unit :=
  rows ← gets tbl_instance;
  match findById rows id with
  | Some _ => modify (set_tbl_instance (set_status id status))
  | None => throw "Record to update not found."
  end.

Definition findByPhone (phone : string) : M (option InstanceRow) :=
  gets (fun w => Store.findByPhone (tbl_instance w) phone).

(** [findMany({ orderBy: { createdAt: 'desc' } })]: the table is kept in
    creation order. *)
Definition findAll : M (list InstanceRow) := gets (fun w => rev (tbl_instance w)).

(** Modelled from the spec: the Prisma schema is not among the sources; by
    invariant I1 [phone] is unique, so a second row with a phone throws (as
    the test 'Handle duplicate phone number' expects). *)
Definition create (data : InstanceData) : M InstanceRow :=
  rows ← gets tbl_instance;
  match Store.findByPhone rows (data_phone data) with
  | Some _ => throw "Unique constraint failed on the fields: (phone)"
  | None =>
      id ← gets next_id;
      let row := new_row id data in
      modify (set_next_id S);;
      modify (set_tbl_instance (fun t => (t ++ [row])%list));;
      mret row
  end.

(** Modelled from the spec: by invariant I2 deleting an instance cascades
    to its messages, webhooks, history and log rows (the test 'Deleting
    instance cascades to webhooks and messages' expects the first two). *)
Definition delete (id : nat) : M unit :=
  rows ← gets tbl_instance;
  match findById rows id with
  | Some _ =>
      modify (set_tbl_instance (List.filter (fun r => negb (id_is id r))));;
      modify (set_tbl_message (List.filter (fun m => negb (bool_decide (msg_instanceId m = id)))));;
      modify (set_tbl_webhook (List.filter (fun h => negb (bool_decide (wh_instanceId h = id)))));;
      modify (set_tbl_history (List.filter (fun h => negb (bool_decide (hist_instanceId h = id)))));;
      modify (set_tbl_log (List.filter (fun l => negb (bool_decide (log_instanceId l = id)))))
  | None => throw "Record to delete does not exist."
  end.

End instanceService.

Module instanceLogService.
Definition create (data : LogData) : M unit :=
  modify (set_tbl_log (fun t => (t ++ [data])%list)).
End instanceLogService.

Module messageService.
(** Returns the stored message. *)
Definition create (E : Env) (data : MessageData) : M MessageData :=
  match reject_message E data with
  | Some e => throw e
  | None => modify (set_tbl_message (fun t => (t ++ [data])%list));; mret data
  end.
End messageService.

Module webhookService.
Definition getEnabledWebhooks (instanceId : nat) (event : string) : M (list Webhook) :=
  gets (fun w => Store.getEnabledWebhooks (tbl_webhook w) instanceId event).
End webhookService.

Module webhookHistoryService.

Definition with_triggeredAt (t : Z) (h : HistoryData) : HistoryData :=
  {| hist_instanceId := hist_instanceId h; hist_webhookId := hist_webhookId h;
     hist_event := hist_event h; hist_payload := hist_payload h;
     hist_status := hist_status h; hist_retryCount := hist_retryCount h;
     hist_httpStatusCode := hist_httpStatusCode h; hist_responseTime := hist_responseTime h;
     hist_response := hist_response h; hist_errorMessage := hist_errorMessage h;
     hist_completedAt := hist_completedAt h; hist_triggeredAt := Some t |}.

(** Modelled from the spec: the Prisma schema is not among the sources;
    [triggered_at] is a column of the history record (section 3) that
    [create] never passes and that the queries of the adapter order and
    filter by, so the store fills it with the time of the insert. *)
Definition create (E : Env) (data : HistoryData) : M unit :=
  modify (set_now (fun t => (t + Z.of_N (history_latency E data))%Z));;
  match reject_history E data with
  | Some e => throw e
  | None =>
      t ← gets now;
      modify (set_tbl_history (fun rows => (rows ++ [with_triggeredAt t data])%list))
  end.

End webhookHistoryService.

End Sys.

(** ** whatsappInstanceManager.service.js *)

Module Service.
Import Store Chain Sys.

(** [DisconnectReason.loggedOut] of the transport library. *)
Definition loggedOut : Z := 401.

Inductive Connection : Type := conn_close | conn_open | conn_connecting.

(** The argument of the 'connection.update' handler: [connection],
    [lastDisconnect?.error?.output?.statusCode],
    [lastDisconnect?.error?.message] and [qr]. *)
Record ConnectionUpdate : Type := {
  connection : option Connection;
  statusCode : option Z;
  errorMessage : option string;
  qr : option string
}.

(** [a || d] on strings: undefined and the empty string are falsy. *)
Definition or_else (a : option string) (d : string) : string :=
  match a with
  | Some s => if bool_decide (s = "") then d else s
  | None => d
  end.

Definition opt_num (o : option Z) : Js.json := from_option Js.JNum Js.JNull o.
Definition opt_str (o : option string) : Js.json := from_option Js.JStr Js.JNull o.

(** *** triggerWebhooks (lines 458-550) *)

Definition pending_history (instanceId : nat) (webhook : Webhook) (event : string)
    (payload : Payload) : HistoryData :=
  {| hist_instanceId := instanceId; hist_webhookId := wh_id webhook; hist_event := event;
     hist_payload := payload; hist_status := h_pending; hist_retryCount := 0;
     hist_httpStatusCode := None; hist_responseTime := None; hist_response := None;
     hist_errorMessage := None; hist_completedAt := None; hist_triggeredAt := None |}.

(** The two updates of [historyData]: after the awaited post resolved, and
    in the catch block. *)
Definition settle (h : HistoryData) (result : AxiosResult) (responseTime completedAt : Z)
  : HistoryData :=
  match result with
  | Resolved response =>
      {| hist_instanceId := hist_instanceId h; hist_webhookId := hist_webhookId h;
         hist_event := hist_event h; hist_payload := hist_payload h;
         hist_status := h_success; hist_retryCount := hist_retryCount h;
         hist_httpStatusCode := Some (resp_status response);
         hist_responseTime := Some responseTime;
         hist_response := Some response;
         hist_errorMessage := hist_errorMessage h;
         hist_completedAt := Some completedAt;
         hist_triggeredAt := hist_triggeredAt h |}
  | Rejected code message response =>
      let status := if bool_decide (code = Some "ECONNABORTED") then h_timeout else h_failed in
      let response := if bool_decide (code = Some "ECONNABORTED") then None else response in
      {| hist_instanceId := hist_instanceId h; hist_webhookId := hist_webhookId h;
         hist_event := hist_event h; hist_payload := hist_payload h;
         hist_status := status; hist_retryCount := hist_retryCount h;
         hist_httpStatusCode := resp_status <$> response;
         hist_responseTime := Some responseTime;
         hist_response := response;
         hist_errorMessage := Some message;
         hist_completedAt := Some completedAt;
         hist_triggeredAt := hist_triggeredAt h |}
  end.

(** The body of the loop over the webhooks. *)
Definition deliver (E : Env) (instanceId : nat) (event : string) (data : EventData)
    (webhook : Webhook) : M unit :=
  startTime ← gets now;
  let payload := {| pl_event := event; pl_data := data; pl_timestamp := startTime;
                    pl_instanceId := instanceId |} in
  let historyData := pending_history instanceId webhook event payload in
  emit (HttpPost (wh_url webhook) payload);;
  let settled := axios_post 5000 (timeout_lag E (wh_url webhook) payload)
                   (endpoint E (wh_url webhook) payload) in
  modify (set_now (fun t => (t + Z.of_N (snd settled))%Z));;
  finished ← gets now;
  let responseTime := (finished - startTime)%Z in
  match fst settled with
  | Resolved _ => mret tt
  | Rejected _ message _ =>
      emit (LogError ("Failed to trigger webhook " ++ pretty (wh_id webhook) ++ " for "
                      ++ event ++ ": " ++ message ++ " (" ++ pretty responseTime ++ "ms)"))
  end;;
  try_catch
    (webhookHistoryService.create E (settle historyData (fst settled) responseTime finished))
    (fun historyError =>
       emit (LogError ("Failed to save webhook history for " ++ pretty (wh_id webhook)
                       ++ ": " ++ historyError))).

Definition triggerWebhooks (E : Env) (r : ref) (event : string) (data : EventData) : M unit :=
  inst ← this r;
  try_catch
    (webhooks ← webhookService.getEnabledWebhooks (row_id (instanceData inst)) event;
     for_each webhooks (deliver E (row_id (instanceData inst)) event data))
    (fun error =>
       emit (LogError ("Error triggering webhooks for " ++ row_phone (instanceData inst)
                       ++ ": " ++ error))).

(** *** The plugin chain of an instance *)

(** The body of the loop of [loadPlugins] (lines 30-53): the export is
    registered under the name before its [config] is read, so a file whose
    export is [null] is logged as failed and stays registered; a file that
    [require] fails on is logged and skipped. *)
Definition load_failed (phone : option string) (name error : string) : Effect :=
  LogError ("Failed to load plugin " ++ name
            ++ from_option (fun p => " for instance " ++ p) " (global)" phone
            ++ ": " ++ error).

Definition load_file (phone : option string) (pm : PluginManager)
    (file : string * PluginFile) : PluginManager * list Effect :=
  match file.2 with
  | RequireThrows error => (pm, [load_failed phone file.1 error])
  | ConfigThrows error =>
      ({| plugins := map_set_key file.1 (plugins pm);
          pluginConfigs := pluginConfigs pm;
          instancePluginConfig := instancePluginConfig pm;
          pm_phone := pm_phone pm |}, [load_failed phone file.1 error])
  | Exports config =>
      ({| plugins := map_set_key file.1 (plugins pm);
          pluginConfigs := <[file.1 := default_config config]> (pluginConfigs pm);
          instancePluginConfig := instancePluginConfig pm;
          pm_phone := pm_phone pm |}, [])
  end.

Definition loadPlugins (E : Env) (r : ref) : M unit :=
  for_each (plugin_files E) (fun file =>
    inst ← this r;
    let loaded := load_file (pm_phone (pluginManager inst)) (pluginManager inst) file in
    assign r (set_pluginManager loaded.1);;
    for_each loaded.2 emit).

(** The loop of [executePlugins] (lines 70-92) over the enabled handlers:
    the calls made, in order, and the error of the call that threw, which
    ends the loop. *)
Fixpoint call_plugins (E : Env) (calls : list (string * Props))
  : list (string * Props) * option string :=
  match calls with
  | [] => ([], None)
  | c :: rest =>
      match plugin_outcome E c.1 c.2 with
      | Throws error => ([c], Some error)
      | _ => let then_ := call_plugins E rest in (c :: then_.1, then_.2)
      end
  end.

(** The rejection of [Promise.all(promises)]: the TypeError of the handler
    of [.catch] on a promise rejected with [null] or [undefined] (the
    first in the order of the calls, the texts differing in that word
    only). *)
Definition all_rejects (E : Env) (calls : list (string * Props)) : option string :=
  head (omap (fun c => match plugin_outcome E c.1 c.2 with
                       | RejectsNullish typeError => Some typeError
                       | _ => None
                       end) calls).

(** [executePlugins]: every enabled handler is called in the order of the
    Map; a call that throws ends the loop and [executePlugins] with its
    error.  A promise made that rejects with an error is logged by its
    [.catch]; the lines are written here before the error of the loop
    reaches the caller, as they are for promises that settle at once.
    [Promise.all] rejects when a handler of [.catch] threw.  What a handler
    does to the transport is outside the model. *)
Definition executePlugins (E : Env) (r : ref) (message : PluginMessage) : M unit :=
  inst ← this r;
  let pm := pluginManager inst in
  let loop := call_plugins E ((fun n => (n, props_for pm n message)) <$> invoked pm) in
  for_each loop.1 (fun c => emit (PluginCall c.1 c.2));;
  for_each loop.1 (fun c =>
    match plugin_outcome E c.1 c.2 with
    | Rejects error =>
        emit (LogError ("Plugin " ++ c.1 ++ " error"
                        ++ from_option (fun p => " (Instance: " ++ p ++ ")") "" (pm_phone pm)
                        ++ ": " ++ error))
    | _ => mret tt
    end);;
  match loop.2 with
  | Some error => throw error
  | None =>
      match all_rejects E loop.1 with
      | Some typeError => throw typeError
      | None => mret tt
      end
  end.

(** *** The inbound pipeline (lines 302-456) *)

Definition handleGroupUpdate (E : Env) (r : ref) (id : string) (participants : list string)
    (action : string) : M unit :=
  inst ← this r;
  try_catch
    (executePlugins E r (GroupUpdate id participants action))
    (fun error =>
       emit (LogError ("Error processing group participant update for "
                       ++ row_phone (instanceData inst) ++ ": " ++ error))).

Definition extractTimestamp (timestamp : Timestamp) : M Z :=
  match timestamp with
  | TsNumber n => mret n
  | TsLong low high (Some n) => mret n
  | TsLong low high None => mret (high * 4294967296 + low `mod` 4294967296)%Z
  | TsOther (inl error) => throw error
  | TsOther (inr text) =>
      emit (LogWarn ("Unable to parse timestamp: " ++ text ++ ", using current time"));;
      t ← gets now;
      mret (t `div` 1000)%Z
  end.

(** [safeSerialize] (lines 345-397): the catch block writes a warning and
    returns the fallback object. *)
Definition safeSerialize (E : Env) (obj : Js.jsval) : M Js.json :=
  match Js.parse_stringify obj with
  | inr j => mret j
  | inl error =>
      emit (LogWarn ("Failed to serialize object, using fallback: " ++ error_message E error));;
      mret (Js.fallback (error_message E) (js_toString E) obj error)
  end.

Definition storeMessage (E : Env) (r : ref) (message : WAMessage) : M unit :=
  inst ← this r;
  try_catch
    (safeRawMessage ← safeSerialize E (envelope message);
     to ← match sock inst with
          | Some s => mret (or_else (user_id s) (row_phone (instanceData inst)))
          | None => throw "Cannot read properties of null (reading 'user')"
          end;
     timestamp ← extractTimestamp (messageTimestamp message);
     sentAt ← extractTimestamp (messageTimestamp message);
     let messageData :=
       {| msg_instanceId := row_id (instanceData inst);
          msg_direction := incoming;
          msg_from := key_remoteJid message;
          msg_to := to;
          msg_type := or_else (head (message_keys message)) "unknown";
          msg_message :=
            BodyIncoming
              (or_else (conversation message)
                 (or_else (extendedText message)
                    (or_else (imageCaption message) "Media message")))
              (pushName message) (key_id message) timestamp safeRawMessage;
          msg_status := msg_received;
          msg_sentAt := (sentAt * 1000)%Z |} in
     messageService.create E messageData;;
     mret tt)
    (fun error =>
       emit (LogError ("Error storing message for " ++ row_phone (instanceData inst)
                       ++ ": " ++ error))).

(** The body of the loop of handleMessagesUpsert. *)
Definition processMessage (E : Env) (r : ref) (message : WAMessage) : M unit :=
  if key_fromMe message then mret tt
  else
    inst ← this r;
    try_catch
      (storeMessage E r message;;
       executePlugins E r (Upstream message);;
       triggerWebhooks E r "message.received"
         (ReceivedData (envelope message) (instanceData inst)))
      (fun error =>
         emit (LogError ("Error processing message for " ++ row_phone (instanceData inst)
                         ++ ": " ++ error))).

Definition handleMessagesUpsert (E : Env) (r : ref) (messages : list WAMessage)
    (type : string) : M unit :=
  if negb (bool_decide (type = "notify")) then mret tt
  else for_each messages (processMessage E r).

(** *** Lifecycle of an instance *)

(** [initialize] (lines 36-125). *)
Definition initialize (E : Env) (r : ref) : M unit :=
  inst ← this r;
  let id := row_id (instanceData inst) in
  try_catch
    (instanceService.updateStatus id st_connecting;;
     modify (set_auth_dirs (fun d => {[authDir inst]} ∪ d));;
     loadPlugins E r;;
     match transport_start E (row_phone (instanceData inst)) with
     | Some error => throw error
     | None => mret tt
     end;;
     assign r (set_sock (Some {| user_id := transport_user E (row_phone (instanceData inst)) |}));;
     instanceLogService.create
       {| log_instanceId := id; log_level := lvl_info;
          log_message := "WhatsApp instance initialized." |})
    (fun error =>
       emit (LogError ("Error initializing WhatsApp instance "
                       ++ row_phone (instanceData inst) ++ ": " ++ error));;
       instanceLogService.create
         {| log_instanceId := id; log_level := lvl_error;
            log_message := "Error initializing WhatsApp instance: " ++ error |};;
       assign r (set_connectionStatus cs_error);;
       instanceService.updateStatus id st_error).

(** [close] (lines 800-814): for a restart, without logging out. *)
Definition close (r : ref) : M unit :=
  inst ← this r;
  match sock inst with
  | Some _ => emit SockWsClose
  | None => mret tt
  end;;
  assign r (set_isConnected false);;
  assign r (set_connectionStatus cs_disconnected).

(** [disconnect] (lines 816-829). *)
Definition disconnect (E : Env) (r : ref) : M unit :=
  inst ← this r;
  match sock inst with
  | Some _ =>
      emit SockLogout;;
      match transport_logout E with
      | Some error =>
          emit (LogError ("Error logging out instance " ++ row_phone (instanceData inst)
                          ++ ": " ++ error))
      | None => mret tt
      end
  | None => mret tt
  end;;
  assign r (set_isConnected false);;
  assign r (set_connectionStatus cs_disconnected);;
  instanceService.updateStatus (row_id (instanceData inst)) st_inactive.

(** The path [path.join(__dirname, `../../auth/${phone}`)] of lines 28 and
    918. *)
Definition authPath (E : Env) (phone : string) : list string :=
  Path.join (dirname E) ("../../auth/" ++ phone).

(** [fs.rmSync(authDir, { recursive: true, force: true })] (line 920) on the
    credential directories: those at or under the path go. *)
Definition rmSync (E : Env) (phone : string) (d : gset string) : gset string :=
  filter (fun q => Path.within (authPath E phone) (authPath E q) = false) d.

(** [WhatsAppInstanceManager.deleteInstance] (lines 901-934). *)
Definition deleteInstance (E : Env) (phone : string) (keepDatabaseRecord : bool) : M unit :=
  try_catch
    (instance ← gets (fun w => instances w !! phone);
     match instance with
     | Some r => disconnect E r;; modify (set_instances (delete phone))
     | None => mret tt
     end;;
     (if negb keepDatabaseRecord then
        dbInstance ← instanceService.findByPhone phone;
        match dbInstance with
        | Some row => instanceService.delete (row_id row)
        | None => mret tt
        end
      else mret tt);;
     modify (set_auth_dirs (rmSync E phone)))
    (fun error =>
       emit (LogError ("Error " ++ (if keepDatabaseRecord then "cleaning up" else "deleting")
                       ++ " WhatsApp instance " ++ phone ++ ": " ++ error));;
       throw error).

(** The branch [connection === 'close'] of the 'connection.update' handler
    (lines 152-224). *)
Definition onClose (E : Env) (r : ref) (u : ConnectionUpdate) : M unit :=
  let shouldReconnect := negb (bool_decide (statusCode u = Some loggedOut)) in
  let disconnectReason := statusCode u in
  let isStreamError := bool_decide (disconnectReason = Some 515%Z) in
  inst ← this r;
  let wasManualRestart := isManualRestart inst && negb isStreamError in
  assign r (set_isManualRestart false);;
  let id := row_id (instanceData inst) in
  if shouldReconnect && (reconnectAttempts inst <? maxReconnectAttempts inst)%nat
     && negb wasManualRestart then
    let attempt := S (reconnectAttempts inst) in
    assign r (set_reconnectAttempts attempt);;
    assign r (set_connectionStatus cs_reconnecting);;
    assign r (set_isConnected false);;
    instanceService.updateStatus id st_reconnecting;;
    t ← gets now;
    triggerWebhooks E r "connection.update"
      (ConnectionData "reconnecting" (instanceData inst) t
         [("reconnectAttempt", Js.JNum (Z.of_nat attempt));
          ("maxReconnectAttempts", Js.JNum (Z.of_nat (maxReconnectAttempts inst)));
          ("message", Js.JStr ("Connection lost. Reconnecting... (attempt " ++ pretty attempt
                               ++ "/" ++ pretty (maxReconnectAttempts inst) ++ ")"));
          ("disconnectReason", opt_num disconnectReason);
          ("errorMessage", opt_str (errorMessage u))]);;
    modify (set_timers (fun l => (l ++ [r])%list))
  else
    (if wasManualRestart then
       assign r (set_connectionStatus cs_disconnected);;
       assign r (set_isConnected false);;
       instanceService.updateStatus id st_inactive
     else
       try_catch
         (deleteInstance E (row_phone (instanceData inst)) true)
         (fun cleanupError =>
            emit (LogError ("Error during logout cleanup for " ++ row_phone (instanceData inst)
                            ++ ": " ++ cleanupError));;
            instanceService.updateStatus id st_inactive);;
       assign r (set_connectionStatus cs_logged_out);;
       assign r (set_isConnected false));;
    t ← gets now;
    triggerWebhooks E r "connection.update"
      (ConnectionData (if wasManualRestart then "manual_restart" else "logged_out")
         (instanceData inst) t
         [("message", Js.JStr (if wasManualRestart
                               then "Connection closed due to manual restart"
                               else "Logged out or max reconnect attempts reached - auth folder cleaned, restart instance for new QR"));
          ("disconnectReason", opt_num disconnectReason);
          ("errorMessage", opt_str (errorMessage u));
          ("wasManualRestart", Js.JBool wasManualRestart);
          ("authFolderCleaned", Js.JBool (negb wasManualRestart))]).

(** The branch [if (qr)] (lines 131-150). *)
Definition onQr (E : Env) (r : ref) (code : string) : M unit :=
  inst ← this r;
  assign r (set_qrCode (Some code));;
  assign r (set_connectionStatus cs_qr_ready);;
  instanceService.updateStatus (row_id (instanceData inst)) st_qr_ready;;
  t ← gets now;
  triggerWebhooks E r "connection.update"
    (ConnectionData "qr_ready" (instanceData inst) t
       [("qrCode", Js.JStr code);
        ("qrCodeImage", Js.JStr (qr_image E code));
        ("message", Js.JStr "QR Code generated. Scan to connect.")]).

(** The branch [connection === 'open'] (lines 225-240). *)
Definition onOpen (E : Env) (r : ref) : M unit :=
  inst ← this r;
  assign r (set_connectionStatus cs_connected);;
  assign r (set_isConnected true);;
  assign r (set_qrCode None);;
  assign r (set_reconnectAttempts 0);;
  instanceService.updateStatus (row_id (instanceData inst)) st_active;;
  t ← gets now;
  triggerWebhooks E r "connection.update"
    (ConnectionData "connected" (instanceData inst) t
       [("message", Js.JStr "WhatsApp connection established successfully");
        ("previousReconnectAttempts", Js.JNum 0)]).

(** The branch [connection === 'connecting'] (lines 241-253). *)
Definition onConnecting (E : Env) (r : ref) : M unit :=
  inst ← this r;
  assign r (set_connectionStatus cs_connecting);;
  instanceService.updateStatus (row_id (instanceData inst)) st_connecting;;
  t ← gets now;
  triggerWebhooks E r "connection.update"
    (ConnectionData "connecting" (instanceData inst) t
       [("message", Js.JStr "Attempting to connect to WhatsApp...")]).

Definition connection_name (c : option Connection) : string :=
  match c with
  | Some conn_close => "close"
  | Some conn_open => "open"
  | Some conn_connecting => "connecting"
  | None => "undefined"
  end.

(** The 'connection.update' handler set up by setupEventHandlers
    (lines 128-260). *)
Definition onConnectionUpdate (E : Env) (r : ref) (u : ConnectionUpdate) : M unit :=
  match qr u with
  | Some code => if bool_decide (code = "") then mret tt else onQr E r code
  | None => mret tt
  end;;
  match connection u with
  | Some conn_close => onClose E r u
  | Some conn_open => onOpen E r
  | Some conn_connecting => onConnecting E r
  | None => mret tt
  end;;
  inst ← this r;
  instanceLogService.create
    {| log_instanceId := row_id (instanceData inst); log_level := lvl_info;
       log_message := "Connection status changed: " ++ connection_name (connection u) |}.

(** The callback of [setTimeout(() => this.initialize(), 5000)]: the oldest
    pending timer fires. *)
Definition fire_timer (E : Env) : M unit :=
  pending ← gets timers;
  match pending with
  | [] => mret tt
  | r :: rest => modify (set_timers (fun _ => rest));; initialize E r
  end.

(** *** The outbound pipeline (lines 552-798) *)

(** [this.sock.sendMessage(jid, content)] *)
Definition sock_sendMessage (E : Env) (inst : WhatsAppInstance) (jid : string)
    (content : OutContent) : M string :=
  match sock inst with
  | None => throw "Cannot read properties of null (reading 'sendMessage')"
  | Some _ =>
      emit (SockSendMessage jid content);;
      match transport_send E jid content with
      | inl error => throw error
      | inr id => mret id
      end
  end.

Definition not_connected (inst : WhatsAppInstance) : string :=
  "WhatsApp instance " ++ row_phone (instanceData inst) ++ " not connected".

(** [sendMessage]: returns [result.key.id]. *)
Definition sendMessage (E : Env) (r : ref) (phoneNumber messageText : string) : M string :=
  inst ← this r;
  try_catch
    (if negb (isConnected inst) then throw (not_connected inst)
     else
       let formattedNumber := Phone.formatNumber phoneNumber in
       let jid := formattedNumber ++ "@s.whatsapp.net" in
       let finalMessage := messageText ++ watermark E in
       messageId ← sock_sendMessage E inst jid (OutText finalMessage);
       t ← gets now;
       storedMessage ← messageService.create E
         {| msg_instanceId := row_id (instanceData inst); msg_direction := outgoing;
            msg_from := row_phone (instanceData inst); msg_to := formattedNumber;
            msg_type := "text"; msg_message := BodyText messageText messageId;
            msg_status := msg_sent; msg_sentAt := t |};
       triggerWebhooks E r "message.sent"
         (SentData storedMessage (instanceData inst) formattedNumber []);;
       instanceLogService.create
         {| log_instanceId := row_id (instanceData inst); log_level := lvl_info;
            log_message := "Message sent: " ++ messageText |};;
       mret messageId)
    (fun error =>
       emit (LogError ("Error sending message from " ++ row_phone (instanceData inst)
                       ++ ": " ++ error));;
       instanceLogService.create
         {| log_instanceId := row_id (instanceData inst); log_level := lvl_error;
            log_message := "Error sending message: " ++ error |};;
       throw error).

Definition sendGroupMessage (E : Env) (r : ref) (groupId messageText : string) : M string :=
  inst ← this r;
  try_catch
    (if negb (isConnected inst) then throw (not_connected inst)
     else
       let jid := Phone.group_jid groupId in
       match sock inst with
       | None =>
           emit (LogWarn ("Could not fetch group metadata for " ++ jid
                          ++ ": Cannot read properties of null (reading 'groupMetadata')"))
       | Some _ =>
           emit (SockGroupMetadata jid);;
           match transport_groupMetadata E jid with
           | Some metaError =>
               emit (LogWarn ("Could not fetch group metadata for " ++ jid ++ ": " ++ metaError))
           | None => mret tt
           end
       end;;
       let finalMessage := messageText ++ watermark E in
       messageId ← sock_sendMessage E inst jid (OutText finalMessage);
       t ← gets now;
       storedMessage ← messageService.create E
         {| msg_instanceId := row_id (instanceData inst); msg_direction := outgoing;
            msg_from := row_phone (instanceData inst); msg_to := groupId;
            msg_type := "text"; msg_message := BodyGroup messageText messageId;
            msg_status := msg_sent; msg_sentAt := t |};
       triggerWebhooks E r "message.sent"
         (SentData storedMessage (instanceData inst) groupId [("isGroup", Js.JBool true)]);;
       instanceLogService.create
         {| log_instanceId := row_id (instanceData inst); log_level := lvl_info;
            log_message := "Group message sent to " ++ groupId ++ ": " ++ messageText |};;
       mret messageId)
    (fun error =>
       emit (LogError ("Error sending group message from " ++ row_phone (instanceData inst)
                       ++ ": " ++ error));;
       instanceLogService.create
         {| log_instanceId := row_id (instanceData inst); log_level := lvl_error;
            log_message := "Error sending group message: " ++ error |};;
       throw error).

(** [mediaData] *)
Record MediaData : Type := {
  media_type : string;
  media_url : string;
  media_caption : option string;
  media_filename : option string
}.

(** [type.toLowerCase()], on the letters A-Z. *)
Definition lower (c : ascii) : ascii :=
  let n := nat_of_ascii c in
  if (65 <=? n)%nat && (n <=? 90)%nat then ascii_of_nat (n + 32) else c.

Fixpoint toLowerCase (s : string) : string :=
  match s with
  | EmptyString => EmptyString
  | String c r => String (lower c) (toLowerCase r)
  end.

(** [caption ? `${caption}${watermark}` : undefined] *)
Definition signed_caption (E : Env) (caption : option string) : option string :=
  match caption with
  | Some c => if bool_decide (c = "") then None else Some (c ++ watermark E)
  | None => None
  end.

(** The [switch] over the media type; [None] is the default case, which
    throws. *)
Definition messageContent (E : Env) (m : MediaData) : option OutContent :=
  let type := toLowerCase (media_type m) in
  if bool_decide (type = "image") then
    Some (OutImage (media_url m) (signed_caption E (media_caption m)))
  else if bool_decide (type = "video") then
    Some (OutVideo (media_url m) (signed_caption E (media_caption m)))
  else if bool_decide (type = "audio") then Some (OutAudio (media_url m))
  else if bool_decide (type = "document") then
    Some (OutDocument (media_url m) (or_else (media_filename m) "document")
            (signed_caption E (media_caption m)))
  else None.

Definition sendMediaMessage (E : Env) (r : ref) (phoneNumber : string) (mediaData : MediaData)
  : M string :=
  inst ← this r;
  try_catch
    (if negb (isConnected inst) then throw (not_connected inst)
     else
       let formattedNumber := Phone.formatNumber phoneNumber in
       let jid := formattedNumber ++ "@s.whatsapp.net" in
       match messageContent E mediaData with
       | None =>
           throw ("Unsupported media type: " ++ media_type mediaData
                  ++ ". Supported types: image, video, audio, document")
       | Some content =>
           messageId ← sock_sendMessage E inst jid content;
           t ← gets now;
           storedMessage ← messageService.create E
             {| msg_instanceId := row_id (instanceData inst); msg_direction := outgoing;
                msg_from := row_phone (instanceData inst); msg_to := formattedNumber;
                msg_type := toLowerCase (media_type mediaData);
                msg_message :=
                  BodyMedia (or_else (media_caption mediaData) (media_type mediaData ++ " media"))
                    messageId (toLowerCase (media_type mediaData)) (media_url mediaData)
                    (media_filename mediaData);
                msg_status := msg_sent; msg_sentAt := t |};
           triggerWebhooks E r "message.sent"
             (SentData storedMessage (instanceData inst) formattedNumber
                [("mediaType", Js.JStr (toLowerCase (media_type mediaData)))]);;
           instanceLogService.create
             {| log_instanceId := row_id (instanceData inst); log_level := lvl_info;
                log_message :=
                  media_type mediaData ++ " media sent"
                  ++ match media_caption mediaData with
                     | Some c => if bool_decide (c = "") then "" else " with caption: " ++ c
                     | None => ""
                     end |};;
           mret messageId
       end)
    (fun error =>
       emit (LogError ("Error sending media message from " ++ row_phone (instanceData inst)
                       ++ ": " ++ error));;
       instanceLogService.create
         {| log_instanceId := row_id (instanceData inst); log_level := lvl_error;
            log_message := "Error sending media message: " ++ error |};;
       throw error).

(** *** WhatsAppInstanceManager (lines 848-1022) *)

(** [new WhatsAppInstance(row)] followed by [this.instances.set(phone, instance)]. *)
Definition register (row : InstanceRow) : M ref :=
  r ← gets (fun w => fresh (dom (heap w)));
  modify (set_heap (fun h => <[r := new_WhatsAppInstance row]> h));;
  modify (set_instances (fun m => <[row_phone row := r]> m));;
  mret r.

Module Manager.

Definition initialize (E : Env) : M unit :=
  try_catch
    (existingInstances ← instanceService.findAll;
     for_each existingInstances (fun instanceData =>
       r ← register instanceData;
       if bool_decide (row_status instanceData = st_active)
          || bool_decide (row_status instanceData = st_connecting)
       then Service.initialize E r else mret tt);;
     modify (set_initialized true))
    (fun error =>
       emit (LogError ("Error initializing WhatsApp Instance Manager: " ++ error));;
       throw error).

Definition createInstance (E : Env) (instanceData : InstanceData) : M InstanceRow :=
  try_catch
    (dbInstance ← instanceService.create instanceData;
     r ← register dbInstance;
     Service.initialize E r;;
     mret dbInstance)
    (fun error =>
       emit (LogError ("Error creating WhatsApp instance: " ++ error));;
       throw error).

Definition getInstance (phone : string) : M (option ref) :=
  gets (fun w => instances w !! phone).

Definition not_found (phone : string) : string :=
  "WhatsApp instance " ++ phone ++ " not found".

Definition sendMessage (E : Env) (phone recipientNumber message : string) : M string :=
  instance ← getInstance phone;
  match instance with
  | None => throw (not_found phone)
  | Some r => Service.sendMessage E r recipientNumber message
  end.

Definition sendGroupMessage (E : Env) (phone groupId message : string) : M string :=
  instance ← getInstance phone;
  match instance with
  | None => throw (not_found phone)
  | Some r => Service.sendGroupMessage E r groupId message
  end.

Definition sendMediaMessage (E : Env) (phone recipientNumber : string) (mediaData : MediaData)
  : M string :=
  instance ← getInstance phone;
  match instance with
  | None => throw (not_found phone)
  | Some r => Service.sendMediaMessage E r recipientNumber mediaData
  end.

(** [restartInstance] up to the wait: the flag is set and the transport is
    closed without a logout. *)
Definition restart_close (phone : string) : M ref :=
  instance ← getInstance phone;
  match instance with
  | None => throw (not_found phone)
  | Some r =>
      assign r (set_isManualRestart true);;
      close r;;
      mret r
  end.

(** [restartInstance], when no transport event arrives during the wait of
    one second. *)
Definition restartInstance (E : Env) (phone : string) : M unit :=
  r ← restart_close phone;
  Service.initialize E r.

End Manager.

End Service.

(** ** The create endpoint (mode.controller.js, lines 292-339) *)

Module Controller.
Import Store Chain Sys.

Record CreateBody : Type := {
  body_phone : option string;
  body_name : option string;
  body_alias : option string
}.

(** The HTTP answer: the status and the [error] field, or the created row. *)
Inductive Reply : Type :=
| Created (instance : InstanceRow)                  (* 201 *)
| BadRequest (error : string) (message : string)    (* 400 *)
| ServerError (error : string) (message : string).  (* 500 *)

(** [!x] on an optional string. *)
Definition missing (x : option string) : bool :=
  match x with
  | Some s => bool_decide (s = "")
  | None => true
  end.

(** [alias || null] *)
Definition alias_or_null (x : option string) : option string :=
  match x with
  | Some s => if bool_decide (s = "") then None else Some s
  | None => None
  end.

Definition createInstance (E : Env) (body : CreateBody) : M Reply :=
  try_catch
    (match body_phone body, body_name body with
     | Some phone, Some name =>
         if missing (Some phone) || missing (Some name) then
           mret (BadRequest "Missing required fields" "Phone and name are required")
         else
           existing ← instanceService.findByPhone phone;
           match existing with
           | Some _ =>
               mret (BadRequest "Instance already exists"
                       ("WhatsApp instance for " ++ phone ++ " already exists"))
           | None =>
               let instanceData :=
                 {| data_phone := Phone.digits_only phone; data_name := name;
                    data_alias := alias_or_null (body_alias body) |} in
               instance ← Service.Manager.createInstance E instanceData;
               mret (Created instance)
           end
     | _, _ => mret (BadRequest "Missing required fields" "Phone and name are required")
     end)
    (fun error => mret (ServerError "Failed to create instance" error)).

End Controller.

(** ** What is observed of a run *)

Module Obs.
Import Store Chain Sys.

(** The world a computation leaves, and what it returns or throws. *)
Definition after {A} (m : M A) (w : World) : World := (m w).2.
Definition result {A} (m : M A) (w : World) : string + A := (m w).1.

(** A computation is stable for a relation between the world before and
    the world after when every run is in the relation. *)
Definition stable {A} (R : World -> World -> Prop) (m : M A) : Prop :=
  forall w, R w (after m w).

(** [w'] is [w] with more effects, each satisfying [P]. *)
Definition extends (P : Effect -> Prop) (w w' : World) : Prop :=
  exists l, out w' = (out w ++ l)%list /\ Forall P l.



(** A line of the logger. *)
Definition is_log (e : Effect) : Prop :=
  match e with
  | LogError _ | LogWarn _ => True
  | _ => False
  end.

(** A computation that never throws. *)
Definition total {A} (m : M A) : Prop := forall w, exists a, result m w = inr a.

(** The URLs posted to, the handlers called and the error lines, in order. *)
Definition http_posts (l : list Effect) : list string :=
  omap (fun e => match e with HttpPost url _ => Some url | _ => None end) l.

Definition plugin_calls (l : list Effect) : list (string * Props) :=
  omap (fun e => match e with PluginCall n p => Some (n, p) | _ => None end) l.

Definition log_errors (l : list Effect) : list string :=
  omap (fun e => match e with LogError line => Some line | _ => None end) l.

(** *** One delivery attempt, as a function of the clock before it *)

Module Attempt.
Import Store Chain Sys Service.

Definition payload (id : nat) (event : string) (data : EventData) (start : Z) : Payload :=
  {| pl_event := event; pl_data := data; pl_timestamp := start; pl_instanceId := id |}.

(** The settled promise and the milliseconds it took. *)
Definition settled (E : Env) (id : nat) (event : string) (data : EventData)
    (webhook : Webhook) (start : Z) : AxiosResult * N :=
  axios_post 5000 (timeout_lag E (wh_url webhook) (payload id event data start))
    (endpoint E (wh_url webhook) (payload id event data start)).

(** The clock when the promise has settled. *)
Definition completed (E : Env) (id : nat) (event : string) (data : EventData)
    (webhook : Webhook) (start : Z) : Z :=
  (start + Z.of_N (settled E id event data webhook start).2)%Z.

(** The [historyData] handed to the store. *)
Definition handed (E : Env) (id : nat) (event : string) (data : EventData)
    (webhook : Webhook) (start : Z) : HistoryData :=
  settle (pending_history id webhook event (payload id event data start))
    (settled E id event data webhook start).1
    (completed E id event data webhook start - start)
    (completed E id event data webhook start).

(** The clock when the store has answered. *)
Definition finish (E : Env) (id : nat) (event : string) (data : EventData)
    (webhook : Webhook) (start : Z) : Z :=
  (completed E id event data webhook start
   + Z.of_N (history_latency E (handed E id event data webhook start)))%Z.

(** The history row of the attempt, as the store keeps it. *)
Definition row (E : Env) (id : nat) (event : string) (data : EventData)
    (webhook : Webhook) (start : Z) : HistoryData :=
  webhookHistoryService.with_triggeredAt (finish E id event data webhook start)
    (handed E id event data webhook start).

(** The store takes the row. *)
Definition accepted (E : Env) (h : HistoryData) : bool :=
  match reject_history E h with
  | None => true
  | Some _ => false
  end.

(** What the attempts on a list of subscriptions, one after the other,
    hand to the store, and the rows it keeps of them. *)
Fixpoint all_handed (E : Env) (id : nat) (event : string) (data : EventData)
    (hooks : list Webhook) (start : Z) : list HistoryData :=
  match hooks with
  | [] => []
  | h :: rest =>
      handed E id event data h start
      :: all_handed E id event data rest (finish E id event data h start)
  end.

Fixpoint rows (E : Env) (id : nat) (event : string) (data : EventData)
    (hooks : list Webhook) (start : Z) : list HistoryData :=
  match hooks with
  | [] => []
  | h :: rest =>
      ((if accepted E (handed E id event data h start)
        then [row E id event data h start] else [])
       ++ rows E id event data rest (finish E id event data h start))%list
  end.

(** The error line of a history row the store refused. *)
Definition history_error_line (webhookId : nat) (error : string) : string :=
  "Failed to save webhook history for " ++ pretty webhookId ++ ": " ++ error.

(** A row of a finished attempt: no longer pending, with the time the
    post settled, the response time being counted from the moment the
    payload was stamped, and the time of the insert, which comes after. *)
Definition finished_row (id : nat) (event : string) (h : HistoryData) : Prop :=
  hist_status h <> h_pending
  /\ hist_instanceId h = id /\ hist_event h = event /\ hist_retryCount h = 0
  /\ exists completedAt triggeredAt,
      hist_completedAt h = Some completedAt
      /\ hist_triggeredAt h = Some triggeredAt
      /\ hist_responseTime h = Some (completedAt - pl_timestamp (hist_payload h))%Z
      /\ (completedAt <= triggeredAt)%Z.

End Attempt.

(** Everything but the clock, the effects and the history table is the
    same. *)
Definition same_but_history (w w' : World) : Prop :=
  instances w' = instances w /\ initialized w' = initialized w /\ heap w' = heap w
  /\ tbl_instance w' = tbl_instance w /\ tbl_message w' = tbl_message w
  /\ tbl_webhook w' = tbl_webhook w /\ tbl_log w' = tbl_log w
  /\ next_id w' = next_id w /\ auth_dirs w' = auth_dirs w /\ timers w' = timers w.

End Obs.

(** The elements of an array and the members of an object, serialised. *)
Fixpoint elements (l : list Js.jsval) : Js.exn + list Js.json :=
  match l with
  | [] => inr []
  | x :: r => Js.element (Js.SerializeJSONProperty x) (elements r)
  end.

Fixpoint members (l : list (string * Js.jsval)) : Js.exn + list (string * Js.json) :=
  match l with
  | [] => inr []
  | (k, x) :: r => Js.member k (Js.SerializeJSONProperty x) (members r)
  end.

(** ** A concrete system, for examples *)

Module Fixture.
Import Store Chain Sys Service.

Definition phone1 : string := "628123456789".

Definition row1 : InstanceRow :=
  {| row_id := 1; row_phone := phone1; row_name := "I1"; row_alias := None;
     row_status := st_active; row_pluginConfig := {["welcome-group" := Js.JBool true]} |}.

Definition hookA : Webhook :=
  {| wh_id := 1; wh_instanceId := 1; wh_type := "http"; wh_event := "message.received";
     wh_url := "http://a.test/hook"; wh_isEnabled := true |}.

Definition hookB : Webhook :=
  {| wh_id := 2; wh_instanceId := 1; wh_type := "http"; wh_event := "message.received";
     wh_url := "http://b.test/hook"; wh_isEnabled := true |}.

Definition hookC : Webhook :=
  {| wh_id := 3; wh_instanceId := 1; wh_type := "http"; wh_event := "connection.update";
     wh_url := "http://c.test/hook"; wh_isEnabled := true |}.

Definition ok200 : Response :=
  {| resp_status := 200; resp_statusText := "OK"; resp_headers := []; resp_data := "ok" |}.

Definition err500 : Response :=
  {| resp_status := 500; resp_statusText := "Internal Server Error"; resp_headers := [];
     resp_data := "no" |}.

(** A subscription whose connection is aborted. *)
Definition hookD : Webhook :=
  {| wh_id := 4; wh_instanceId := 1; wh_type := "http"; wh_event := "message.sent";
     wh_url := "http://d.test/hook"; wh_isEnabled := false |}.

(** A answers 200 after 40 ms, B answers after 6 s, C answers 500 at once,
    the connection to D is aborted after 3 ms, any other host refuses the
    connection. *)
Definition endpoints (url : string) (_ : Payload) : Endpoint :=
  if bool_decide (url = "http://a.test/hook") then Responds 40 ok200
  else if bool_decide (url = "http://b.test/hook") then Responds 6000 ok200
  else if bool_decide (url = "http://c.test/hook") then Responds 0 err500
  else if bool_decide (url = "http://d.test/hook") then Fails 3 "ECONNABORTED" "read ECONNABORTED"
  else Fails 3 "ECONNREFUSED" "connect ECONNREFUSED".

Definition welcome : PluginConfig :=
  {| cfg_enabled := Some true; cfg_description := Some "Welcomes new members" |}.

Definition env0 : Env :=
  {| dirname := ["srv"; "whisper-api"; "src"; "services"];
     endpoint := endpoints;
     reject_history := fun _ => None;
     reject_message := fun _ => None;
     history_latency := fun _ => 0%N;
     timeout_lag := fun _ _ => 0%N;
     plugin_outcome := fun _ _ => Fulfils;
     plugin_files := [("welcome-group", Exports (Some welcome)); ("anti-mention", Exports None)];
     transport_send := fun _ _ => inr "MSGID1";
     transport_start := fun _ => None;
     transport_user := fun _ => None;
     transport_logout := None;
     transport_groupMetadata := fun _ => None;
     qr_image := fun q => "data:image/png;base64," ++ q;
     watermark := " -- sent via whisper";
     error_message := fun _ => "cannot serialise";
     js_toString := fun _ => "[object Object]" |}.

(** The same, with a store that refuses every history row, every message,
    and plugins that all reject. *)
Definition env_failing : Env :=
  {| dirname := dirname env0;
     endpoint := endpoints;
     reject_history := fun _ => Some "storage unavailable";
     reject_message := fun _ => Some "storage unavailable";
     history_latency := history_latency env0;
     timeout_lag := timeout_lag env0;
     plugin_outcome := fun _ _ => Rejects "boom";
     plugin_files := plugin_files env0;
     transport_send := transport_send env0;
     transport_start := transport_start env0;
     transport_user := transport_user env0;
     transport_logout := None;
     transport_groupMetadata := transport_groupMetadata env0;
     qr_image := qr_image env0;
     watermark := watermark env0;
     error_message := error_message env0;
     js_toString := js_toString env0 |}.

(** The same as [env0], with a store that takes 3 ms to insert a history
    row and a timer that fires 2 ms late. *)
Definition env_slow : Env :=
  {| dirname := dirname env0;
     endpoint := endpoints;
     reject_history := reject_history env0;
     reject_message := reject_message env0;
     history_latency := fun _ => 3%N;
     timeout_lag := fun _ _ => 2%N;
     plugin_outcome := plugin_outcome env0;
     plugin_files := plugin_files env0;
     transport_send := transport_send env0;
     transport_start := transport_start env0;
     transport_user := transport_user env0;
     transport_logout := None;
     transport_groupMetadata := transport_groupMetadata env0;
     qr_image := qr_image env0;
     watermark := watermark env0;
     error_message := error_message env0;
     js_toString := js_toString env0 |}.

(** The same as [env0], with handlers that behave as [outcome] says. *)
Definition env_plugins (outcome : string -> Props -> Outcome) : Env :=
  {| dirname := dirname env0;
     endpoint := endpoints;
     reject_history := reject_history env0;
     reject_message := reject_message env0;
     history_latency := history_latency env0;
     timeout_lag := timeout_lag env0;
     plugin_outcome := outcome;
     plugin_files := plugin_files env0;
     transport_send := transport_send env0;
     transport_start := transport_start env0;
     transport_user := transport_user env0;
     transport_logout := None;
     transport_groupMetadata := transport_groupMetadata env0;
     qr_image := qr_image env0;
     watermark := watermark env0;
     error_message := error_message env0;
     js_toString := js_toString env0 |}.

(** A handler "welcome-group" that is not an async function and throws. *)
Definition env_throwing : Env :=
  env_plugins (fun name _ =>
    if bool_decide (name = "welcome-group") then Throws "boom" else Fulfils).

(** A handler "welcome-group" whose promise rejects with [null]. *)
Definition env_nullish : Env :=
  env_plugins (fun name _ =>
    if bool_decide (name = "welcome-group")
    then RejectsNullish "Cannot read properties of null (reading 'message')"
    else Fulfils).

Definition pm1 : PluginManager :=
  {| plugins := ["welcome-group"; "anti-mention"];
     pluginConfigs := {["welcome-group" := welcome;
                        "anti-mention" := default_config None]};
     instancePluginConfig := {["welcome-group" := Js.JBool true]};
     pm_phone := Some phone1 |}.

(** The same, with both plugins switched on for the instance. *)
Definition pm_both : PluginManager :=
  {| plugins := plugins pm1;
     pluginConfigs := pluginConfigs pm1;
     instancePluginConfig := {["welcome-group" := Js.JBool true;
                               "anti-mention" := Js.JBool true]};
     pm_phone := Some phone1 |}.

Definition sock1 : Sock := {| user_id := Some "628123456789:1@s.whatsapp.net" |}.

(** A connected instance. *)
Definition inst1 : WhatsAppInstance :=
  {| instanceData := row1; sock := Some sock1; isConnected := true;
     connectionStatus := cs_connected; qrCode := None; authDir := phone1;
     pluginManager := pm1; reconnectAttempts := 0; maxReconnectAttempts := 5;
     isManualRestart := false |}.

(** The same, with both plugins switched on. *)
Definition inst_both : WhatsAppInstance :=
  {| instanceData := row1; sock := Some sock1; isConnected := true;
     connectionStatus := cs_connected; qrCode := None; authDir := phone1;
     pluginManager := pm_both; reconnectAttempts := 0; maxReconnectAttempts := 5;
     isManualRestart := false |}.

Definition world_with (inst : WhatsAppInstance) : World :=
  {| instances := {[phone1 := 0]};
     initialized := true;
     heap := {[0 := inst]};
     tbl_instance := [row1];
     tbl_message := [];
     tbl_webhook := [hookA; hookB; hookC];
     tbl_history := [];
     tbl_log := [];
     next_id := 10;
     auth_dirs := {[phone1]};
     timers := [];
     now := 1000;
     out := [] |}.

Definition world0 : World := world_with inst1.

(** The instance waiting for its fifth reconnection, and the same after a
    restart was requested. *)
Definition inst_at_max : WhatsAppInstance :=
  set_reconnectAttempts 5 (set_isConnected false (set_connectionStatus cs_reconnecting inst1)).

Definition inst_restarting : WhatsAppInstance := set_isManualRestart true inst_at_max.

Definition close_with (code : option Z) : ConnectionUpdate :=
  {| connection := Some conn_close; statusCode := code;
     errorMessage := Some "Connection Closed"; qr := None |}.

Definition open_update : ConnectionUpdate :=
  {| connection := Some conn_open; statusCode := None; errorMessage := None; qr := None |}.

(** The manager holds the instance of [phone1], and its row has been
    deleted from the store behind its back. *)
Definition world_unpersisted : World := set_tbl_instance (fun _ => []) world0.

Definition create_body (phone : string) : Controller.CreateBody :=
  {| Controller.body_phone := Some phone; Controller.body_name := Some "I2";
     Controller.body_alias := None |}.

Definition message1 : WAMessage :=
  {| key_remoteJid := "628111222333@s.whatsapp.net"; key_fromMe := false; key_id := "ABC";
     pushName := Some "Ann"; messageTimestamp := TsNumber 1700000000;
     message_keys := ["conversation"]; conversation := Some "hello";
     extendedText := None; imageCaption := None;
     envelope := Js.VObject [("key", Js.VObject [("id", Js.VStr "ABC")]);
                             ("mediaKey", Js.VUint8Array [1; 2; 3]%Z)] |}.

(** A message without a timestamp. *)
Definition message_undated : WAMessage :=
  {| key_remoteJid := "628111222333@s.whatsapp.net"; key_fromMe := false; key_id := "ABC";
     pushName := None; messageTimestamp := TsOther (inr "undefined");
     message_keys := []; conversation := None; extendedText := None;
     imageCaption := None; envelope := Js.VNull |}.




End Fixture.

(** *** The state of one instance in a world *)

Module Session.
Import Store Chain Sys Service.

(** The object [r] is the one the manager holds for its phone, and the row
    it was built from is in the store. *)
Definition managed (r : ref) (inst : WhatsAppInstance) (w : World) : Prop :=
  heap w !! r = Some inst
  /\ instances w !! row_phone (instanceData inst) = Some r
  /\ is_Some (Store.findById (tbl_instance w) (row_id (instanceData inst))).

Definition status_of (w : World) (r : ref) : option ConnectionStatus :=
  connectionStatus <$> heap w !! r.

Definition attempts_of (w : World) (r : ref) : option nat :=
  reconnectAttempts <$> heap w !! r.

Definition flag_of (w : World) (r : ref) : option bool :=
  isManualRestart <$> heap w !! r.

Definition persisted_status (w : World) (id : nat) : option Status :=
  row_status <$> Store.findById (tbl_instance w) id.

(** The world with the manual-restart flag of [r] cleared. *)
Definition clear_flag (r : ref) (w : World) : World :=
  set_heap (alter (set_isManualRestart false) r) w.

(** A close event: an update whose connection is 'close' and that carries
    no QR code. *)
Definition close_event (u : ConnectionUpdate) : Prop :=
  connection u = Some conn_close /\ qr u = None.

(** The instance objects and the subscriptions are the same. *)
Definition same_subscriptions (w w' : World) : Prop :=
  heap w' = heap w /\ tbl_webhook w' = tbl_webhook w.

(** The messages are the same. *)
Definition same_messages (w w' : World) : Prop := tbl_message w' = tbl_message w.

(** Neither a plugin call nor a post. *)
Definition quiet (e : Effect) : Prop :=
  match e with
  | PluginCall _ _ | HttpPost _ _ => False
  | _ => True
  end.

Definition no_plugin_call (e : Effect) : Prop :=
  match e with
  | PluginCall _ _ => False
  | _ => True
  end.

Definition no_post (e : Effect) : Prop :=
  match e with
  | HttpPost _ _ => False
  | _ => True
  end.

(** The calls [executePlugins] makes for a message, and the error it
    throws, if any. *)
Definition chain (pm : PluginManager) (message : PluginMessage) : list (string * Props) :=
  (fun n => (n, props_for pm n message)) <$> invoked pm.

Definition chain_calls (E : Env) (pm : PluginManager) (message : PluginMessage)
  : list (string * Props) :=
  (call_plugins E (chain pm message)).1.

Definition chain_error (E : Env) (pm : PluginManager) (message : PluginMessage)
  : option string :=
  match (call_plugins E (chain pm message)).2 with
  | Some error => Some error
  | None => all_rejects E (call_plugins E (chain pm message)).1
  end.

(** None of the calls throws. *)
Definition no_throw (E : Env) (calls : list (string * Props)) : Prop :=
  forall c error, c ∈ calls -> plugin_outcome E c.1 c.2 <> Throws error.

(** Each of the calls returns a promise that fulfils, or rejects with an
    error. *)
Definition settles (E : Env) (calls : list (string * Props)) : Prop :=
  forall c, c ∈ calls ->
    plugin_outcome E c.1 c.2 = Fulfils
    \/ exists message, plugin_outcome E c.1 c.2 = Rejects message.

(** The error line of a plugin whose promise rejected. *)
Definition plugin_error_line (pm : PluginManager) (name error : string) : string :=
  "Plugin " ++ name ++ " error"
  ++ from_option (fun p => " (Instance: " ++ p ++ ")") "" (pm_phone pm) ++ ": " ++ error.

(** The error line of a message the store refused. *)
Definition store_error_line (inst : WhatsAppInstance) (error : string) : string :=
  "Error storing message for " ++ row_phone (instanceData inst) ++ ": " ++ error.

(** The error line of a message whose processing was given up. *)
Definition processing_error_line (inst : WhatsAppInstance) (error : string) : string :=
  "Error processing message for " ++ row_phone (instanceData inst) ++ ": " ++ error.

(** Once clear, the flag of [r] stays clear. *)
Definition flag_stays_clear (r : ref) (w w' : World) : Prop :=
  flag_of w r = Some false -> flag_of w' r = Some false.

(** What of an instance object only the close and open branches and the
    manager write. *)
Definition same_session (i i' : WhatsAppInstance) : Prop :=
  instanceData i' = instanceData i /\ authDir i' = authDir i
  /\ reconnectAttempts i' = reconnectAttempts i
  /\ maxReconnectAttempts i' = maxReconnectAttempts i
  /\ isManualRestart i' = isManualRestart i.

(** The managed instance [r] of the row [row] has made [k] reconnection
    attempts in a row, no restart is requested and no timer is pending. *)
Definition waiting (k : nat) (r : ref) (row : InstanceRow) (w : World) : Prop :=
  exists inst,
    managed r inst w /\ instanceData inst = row /\ authDir inst = row_phone row
    /\ reconnectAttempts inst = k /\ maxReconnectAttempts inst = 5
    /\ isManualRestart inst = false /\ timers w = [].

(** A close that is not a logout. *)
Definition lost_connection (u : ConnectionUpdate) : Prop :=
  close_event u /\ statusCode u <> Some loggedOut.

(** What happens to an instance, one thing after the other: the transport
    emits an update, or the oldest reconnection timer fires. *)
Inductive Step : Type :=
| Emits (u : ConnectionUpdate)
| TimerFires.

Definition step (E : Env) (r : ref) (s : Step) : M unit :=
  match s with
  | Emits u => onConnectionUpdate E r u
  | TimerFires => fire_timer E
  end.

Definition run (E : Env) (r : ref) (steps : list Step) : M unit :=
  for_each steps (step E r).

(** A connection attempt that opens and is then closed, the reconnection
    timer firing afterwards. *)
Definition open_close_cycle (u : ConnectionUpdate) : list Step :=
  [Emits Fixture.open_update; Emits u; TimerFires].

(** A connection attempt that is closed before it opens, the reconnection
    timer firing afterwards. *)
Definition failed_attempt (u : ConnectionUpdate) : list Step := [Emits u; TimerFires].

End Session.

(* ===================================================================== *)
(** * The rest of the service, its endpoints and its configuration *)
(* ===================================================================== *)

(** ** What a run hands to the transport and writes as warnings *)

Module Trace.
Import Store Chain Sys.

(** The warning lines and the transport sends among some effects, in order. *)
Definition log_warns (l : list Effect) : list string :=
  omap (fun e => match e with LogWarn line => Some line | _ => None end) l.

Definition transport_sends (l : list Effect) : list (string * OutContent) :=
  omap (fun e => match e with SockSendMessage jid c => Some (jid, c) | _ => None end) l.

(** The warning of [extractTimestamp] on a timestamp it cannot read, and
    the warnings of [safeSerialize] on a value. *)
Definition timestamp_warning (text : string) : string :=
  "Unable to parse timestamp: " ++ text ++ ", using current time".

Definition serialize_warnings (E : Env) (obj : Js.jsval) : list string :=
  match Js.parse_stringify obj with
  | inl e => ["Failed to serialize object, using fallback: " ++ error_message E e]
  | inr _ => []
  end.

(** What the webhook dispatcher emits: posts and error lines. *)
Definition post_or_error (e : Effect) : Prop :=
  match e with
  | HttpPost _ _ | LogError _ => True
  | _ => False
  end.

End Trace.

(** ** The rest of the plugin manager (plugin-manager.core.js) *)

Module Plugins.
Import Store Chain Sys Service.

(** [{ ...this.pluginConfigs.get(pluginName), enabled: b }] *)
Definition with_enabled (b : bool) (c : option PluginConfig) : PluginConfig :=
  {| cfg_enabled := Some b; cfg_description := c ≫= cfg_description |}.

(** [enablePlugin] and [disablePlugin] (lines 98-120), the switch of the
    plugin itself: the value returned and the manager afterwards. *)
Definition set_default_enabled (pm : PluginManager) (pluginName : string) (b : bool)
  : bool * PluginManager :=
  if bool_decide (pluginName ∈ plugins pm) then
    (true,
     {| plugins := plugins pm;
        pluginConfigs :=
          <[pluginName := with_enabled b (pluginConfigs pm !! pluginName)]> (pluginConfigs pm);
        instancePluginConfig := instancePluginConfig pm;
        pm_phone := pm_phone pm |})
  else (false, pm).

Definition enablePlugin (pm : PluginManager) (pluginName : string) : bool * PluginManager :=
  set_default_enabled pm pluginName true.

Definition disablePlugin (pm : PluginManager) (pluginName : string) : bool * PluginManager :=
  set_default_enabled pm pluginName false.

(** [getPluginStatus] (lines 122-128): the object name -> [config.enabled]. *)
Definition getPluginStatus (pm : PluginManager) : gmap string (option bool) :=
  cfg_enabled <$> pluginConfigs pm.

(** The manager after the loop of [loadPlugins] over some files, and the
    error lines of the files that failed, in order. *)
Fixpoint load_files (pm : PluginManager) (files : list (string * PluginFile))
  : PluginManager * list Effect :=
  match files with
  | [] => (pm, [])
  | file :: rest =>
      let loaded := load_file (pm_phone pm) pm file in
      let then_ := load_files loaded.1 rest in
      (then_.1, (loaded.2 ++ then_.2)%list)
  end.

(** The error line of a file that failed to load. *)
Definition load_error_line (phone : option string) (file : string * PluginFile)
  : option string :=
  match file.2 with
  | RequireThrows error | ConfigThrows error =>
      Some ("Failed to load plugin " ++ file.1
            ++ from_option (fun p => " for instance " ++ p) " (global)" phone ++ ": " ++ error)
  | Exports _ => None
  end.

(** The file registers its name: [this.plugins.set] was reached. *)
Definition registers (file : string * PluginFile) : bool :=
  match file.2 with
  | RequireThrows _ => false
  | ConfigThrows _ | Exports _ => true
  end.

(** The file sets the configuration of its name. *)
Definition configures (file : string * PluginFile) : option PluginConfig :=
  match file.2 with
  | Exports config => Some (default_config config)
  | _ => None
  end.

(** [this.plugins.clear()] *)
Definition clear_plugins (pm : PluginManager) : PluginManager :=
  {| plugins := []; pluginConfigs := pluginConfigs pm;
     instancePluginConfig := instancePluginConfig pm; pm_phone := pm_phone pm |}.

(** [reloadPlugins] (lines 236-241), on the manager of the instance [r]. *)
Definition reloadPlugins (E : Env) (r : ref) : M unit :=
  assign r (fun i => set_pluginManager (clear_plugins (pluginManager i)) i);;
  loadPlugins E r.

End Plugins.

(** ** Subscriptions: webhookService.js and webhook.controller.js *)

Module Hooks.
Import Store Chain Sys Service.

(** The argument of [webhookService.create]; [isEnabled] may be missing. *)
Record WebhookData : Type := {
  wd_instanceId : nat;
  wd_type : string;
  wd_event : string;
  wd_url : string;
  wd_isEnabled : option bool
}.

Definition hook_is (id : nat) (h : Webhook) : bool := bool_decide (wh_id h = id).

(** [prisma.webhook.findUnique({ where: { id } })] *)
Definition find_hook (hooks : list Webhook) (id : nat) : option Webhook :=
  List.find (hook_is id) hooks.

Definition with_isEnabled (b : bool) (h : Webhook) : Webhook :=
  {| wh_id := wh_id h; wh_instanceId := wh_instanceId h; wh_type := wh_type h;
     wh_event := wh_event h; wh_url := wh_url h; wh_isEnabled := b |}.

(** [data: { isEnabled }]: a missing value leaves the column alone. *)
Definition toggled (isEnabled : option bool) (h : Webhook) : Webhook :=
  with_isEnabled (default (wh_isEnabled h) isEnabled) h.

Module webhookService.

(** [create] (lines 13-26): [isEnabled] defaults to true. *)
Definition create (data : WebhookData) : M Webhook :=
  id ← gets next_id;
  let row := {| wh_id := id; wh_instanceId := wd_instanceId data; wh_type := wd_type data;
                wh_event := wd_event data; wh_url := wd_url data;
                wh_isEnabled := default true (wd_isEnabled data) |} in
  modify (set_next_id S);;
  modify (set_tbl_webhook (fun t => (t ++ [row])%list));;
  mret row.

(** [findByInstance] (lines 33-45), without paging: newest first. *)
Definition findByInstance (instanceId : nat) : M (list Webhook) :=
  gets (fun w => rev (List.filter (fun h => bool_decide (wh_instanceId h = instanceId))
                        (tbl_webhook w))).

(** [findById] (lines 68-75) *)
Definition findById (id : nat) : M (option Webhook) :=
  gets (fun w => find_hook (tbl_webhook w) id).

(** [toggleEnabled] (lines 117-125): the update throws when no row has
    the id. *)
Definition toggleEnabled (id : nat) (isEnabled : option bool) : M Webhook :=
  hooks ← gets tbl_webhook;
  match find_hook hooks id with
  | Some h =>
      modify (set_tbl_webhook (fmap (fun x => if hook_is id x then toggled isEnabled x else x)));;
      mret (toggled isEnabled h)
  | None => throw "Record to update not found."
  end.

(** [delete] (lines 131-135): throws when no row has the id. *)
Definition delete (id : nat) : M unit :=
  hooks ← gets tbl_webhook;
  match find_hook hooks id with
  | Some _ => modify (set_tbl_webhook (List.filter (fun x => negb (hook_is id x))))
  | None => throw "Record to delete does not exist."
  end.

End webhookService.

(** What a handler answers: the HTTP status with the [data] of the body,
    or with its [error] and [message]. *)
Inductive Reply (A : Type) : Type :=
| Answer (status : nat) (data : A)
| Failure (status : nat) (error : string) (message : string).

Arguments Answer {A} status data.
Arguments Failure {A} status error message.

Definition instance_not_found (phone : string) : string :=
  "Instance with phone " ++ phone ++ " not found".

(** [createInstanceWebhook] (webhook.controller.js, lines 55-109). *)
Definition createInstanceWebhook (phone : string) (type event url : option string)
  : M (Reply Webhook) :=
  try_catch
    (match type, event, url with
     | Some type, Some event, Some url =>
         if bool_decide (type = "") || bool_decide (event = "") || bool_decide (url = "") then
           mret (Failure 400 "Missing required fields" "type, event, and url are required")
         else
           instance ← instanceService.findByPhone phone;
           match instance with
           | None => mret (Failure 404 "Instance not found" (instance_not_found phone))
           | Some row =>
               webhook ← webhookService.create
                 {| wd_instanceId := row_id row; wd_type := type; wd_event := event;
                    wd_url := url; wd_isEnabled := None |};
               mret (Answer 201 webhook)
           end
     | _, _, _ => mret (Failure 400 "Missing required fields" "type, event, and url are required")
     end)
    (fun error =>
       emit (LogError ("Error creating instance webhook: " ++ error));;
       if Phone.includes error "not found" then mret (Failure 404 "Instance not found" error)
       else mret (Failure 500 "Failed to create instance webhook" error)).

(** [toggleInstanceWebhook] (lines 139-163). *)
Definition toggleInstanceWebhook (phone : string) (id : nat) (isEnabled : option bool)
  : M (Reply Webhook) :=
  try_catch
    (instance ← instanceService.findByPhone phone;
     match instance with
     | None => throw (instance_not_found phone)
     | Some _ =>
         webhook ← webhookService.toggleEnabled id isEnabled;
         mret (Answer 200 webhook)
     end)
    (fun error =>
       emit (LogError ("Error toggling instance webhook: " ++ error));;
       mret (Failure 500 "Failed to toggle instance webhook" error)).

(** [getInstanceWebhook] (lines 166-196). *)
Definition getInstanceWebhook (phone : string) (id : nat) : M (Reply Webhook) :=
  try_catch
    (instance ← instanceService.findByPhone phone;
     match instance with
     | None => throw (instance_not_found phone)
     | Some _ =>
         webhook ← webhookService.findById id;
         match webhook with
         | None => mret (Failure 404 "Webhook not found"
                           ("Webhook with id " ++ pretty id ++ " not found"))
         | Some h => mret (Answer 200 h)
         end
     end)
    (fun error =>
       emit (LogError ("Error fetching instance webhook: " ++ error));;
       mret (Failure 500 "Failed to get instance webhook" error)).

(** [deleteInstanceWebhook] (lines 199-221). *)
Definition deleteInstanceWebhook (phone : string) (id : nat) : M (Reply unit) :=
  try_catch
    (instance ← instanceService.findByPhone phone;
     match instance with
     | None => throw (instance_not_found phone)
     | Some _ => webhookService.delete id;; mret (Answer 200 tt)
     end)
    (fun error =>
       emit (LogError ("Error deleting instance webhook: " ++ error));;
       mret (Failure 500 "Failed to delete instance webhook" error)).

End Hooks.

(** ** The operating mode (config/mode.config.js) *)

Module Mode.
Import Store Chain Sys Service.

Definition SINGLE : string := "single".
Definition MULTI : string := "multi".
Definition BOTH : string := "both".

(** [getCurrentMode], given [process.env.WHATSAPP_MODE]: the mode and the
    warning it logs.  Lowering is the one of the letters A-Z; the names
    of the modes contain no letter any other character is lowered to. *)
Definition getCurrentMode (env : option string) : string * list string :=
  let mode := or_else (toLowerCase <$> env) BOTH in
  if negb (bool_decide (mode ∈ [SINGLE; MULTI; BOTH])) then
    (BOTH, ["Invalid WHATSAPP_MODE '" ++ mode ++ "', defaulting to '" ++ BOTH ++ "'"])
  else (mode, []).

Definition isSingleModeEnabled (env : option string) : bool :=
  let mode := (getCurrentMode env).1 in
  bool_decide (mode = SINGLE) || bool_decide (mode = BOTH).

Definition isMultiModeEnabled (env : option string) : bool :=
  let mode := (getCurrentMode env).1 in
  bool_decide (mode = MULTI) || bool_decide (mode = BOTH).

Definition getModeDescription (env : option string) : string :=
  let mode := (getCurrentMode env).1 in
  if bool_decide (mode = SINGLE) then "Single Instance (Legacy) Mode"
  else if bool_decide (mode = MULTI) then "Multi-Instance Mode"
  else if bool_decide (mode = BOTH) then "Hybrid Mode (Single + Multi Instance)"
  else "Unknown Mode".

End Mode.

(** ** The routes of the API (the router of /api/v1) *)

Module Routes.
Import Store Chain Sys Service.

Inductive Method : Type := GET | POST | PUT | DELETE.

#[global] Instance Method_eq_dec : EqDecision Method.
Proof. solve_decision. Defined.

(** The handlers the router is given. *)
Inductive Handler : Type :=
| modeController_getModeInfo
| pingController_ping
| statusController_getStatus
| messageController_sendPersonalMessage
| messageController_sendGroupMessage
| logController_getLogs
| instanceController_getAllInstances
| instanceController_getInstance
| instanceController_createInstance
| instanceController_updateInstance
| instanceController_deleteInstance
| instanceController_restartInstance
| instanceController_getQRCode
| instanceController_pingInstance
| instanceController_getInstanceStatus
| instanceController_getInstanceLogs
| instanceController_sendMessage
| instanceController_sendGroupMessage
| instanceController_sendMediaMessage
| webhookController_getInstanceWebhooks
| webhookController_createInstanceWebhook
| webhookController_getInstanceWebhook
| webhookController_updateInstanceWebhook
| webhookController_deleteInstanceWebhook
| webhookController_toggleInstanceWebhook
| webhookHistoryController_getInstanceHistoryByPhone
| webhookHistoryController_getInstanceStatsByPhone
| webhookHistoryController_getInstanceFailuresByPhone
| webhookHistoryController_getWebhookHistory
| instanceController_getInstancePluginStatus
| instanceController_enableInstancePlugin
| instanceController_disableInstancePlugin
| instanceController_updateInstancePluginConfig
| instanceController_syncInstancePluginConfig
| webhookHistoryController_getGlobalHistory
| webhookHistoryController_getGlobalStatistics
| webhookHistoryController_getGlobalRecentFailures
| webhookHistoryController_getByEvent
| webhookHistoryController_getByStatus
| webhookHistoryController_getHistoryById
| webhookHistoryController_cleanup.

#[global] Instance Handler_eq_dec : EqDecision Handler.
Proof. solve_decision. Defined.

(** A segment of a route path: a literal, or a parameter [:name]. *)
Inductive Seg : Type :=
| Lit (s : string)
| Param (name : string).

Record Route : Type := {
  route_method : Method;
  route_path : list Seg;
  route_handler : Handler
}.

Definition route (m : Method) (p : list Seg) (h : Handler) : Route :=
  {| route_method := m; route_path := p; route_handler := h |}.

(** The calls of [router.get], [router.post], ... in the order of the
    file, for the mode read from [process.env.WHATSAPP_MODE]. *)
Definition routes (env : option string) : list Route :=
  ([route GET [Lit "mode"] modeController_getModeInfo]
   ++ (if Mode.isSingleModeEnabled env then
         [route GET [Lit "ping"] pingController_ping;
          route GET [Lit "status"] statusController_getStatus;
          route POST [Lit "message"] messageController_sendPersonalMessage;
          route POST [Lit "message"; Lit "group"] messageController_sendGroupMessage;
          route GET [Lit "logs"] logController_getLogs]
       else [])
   ++ (if Mode.isMultiModeEnabled env then
         [route GET [Lit "instances"] instanceController_getAllInstances;
          route GET [Lit "instances"; Param "phone"] instanceController_getInstance;
          route POST [Lit "instances"] instanceController_createInstance;
          route PUT [Lit "instances"; Param "phone"] instanceController_updateInstance;
          route DELETE [Lit "instances"; Param "phone"] instanceController_deleteInstance;
          route POST [Lit "instances"; Param "phone"; Lit "restart"]
            instanceController_restartInstance;
          route GET [Lit "instances"; Param "phone"; Lit "qr"] instanceController_getQRCode;
          route GET [Lit "instances"; Param "phone"; Lit "ping"] instanceController_pingInstance;
          route GET [Lit "instances"; Param "phone"; Lit "status"]
            instanceController_getInstanceStatus;
          route GET [Lit "instances"; Param "phone"; Lit "logs"]
            instanceController_getInstanceLogs;
          route POST [Lit "instances"; Param "phone"; Lit "send-message"]
            instanceController_sendMessage;
          route POST [Lit "instances"; Param "phone"; Lit "send-group-message"]
            instanceController_sendGroupMessage;
          route POST [Lit "instances"; Param "phone"; Lit "send-media"]
            instanceController_sendMediaMessage;
          route GET [Lit "instances"; Param "phone"; Lit "webhooks"]
            webhookController_getInstanceWebhooks;
          route POST [Lit "instances"; Param "phone"; Lit "webhooks"]
            webhookController_createInstanceWebhook;
          route GET [Lit "instances"; Param "phone"; Lit "webhooks"; Param "id"]
            webhookController_getInstanceWebhook;
          route PUT [Lit "instances"; Param "phone"; Lit "webhooks"; Param "id"]
            webhookController_updateInstanceWebhook;
          route DELETE [Lit "instances"; Param "phone"; Lit "webhooks"; Param "id"]
            webhookController_deleteInstanceWebhook;
          route POST [Lit "instances"; Param "phone"; Lit "webhooks"; Param "id"; Lit "toggle"]
            webhookController_toggleInstanceWebhook;
          route GET [Lit "instances"; Param "phone"; Lit "webhooks"; Lit "history"]
            webhookHistoryController_getInstanceHistoryByPhone;
          route GET [Lit "instances"; Param "phone"; Lit "webhooks"; Lit "history"; Lit "stats"]
            webhookHistoryController_getInstanceStatsByPhone;
          route GET [Lit "instances"; Param "phone"; Lit "webhooks"; Lit "history";
                     Lit "failures"]
            webhookHistoryController_getInstanceFailuresByPhone;
          route GET [Lit "instances"; Param "phone"; Lit "webhooks"; Param "webhookId";
                     Lit "history"]
            webhookHistoryController_getWebhookHistory;
          route GET [Lit "instances"; Param "phone"; Lit "plugins"]
            instanceController_getInstancePluginStatus;
          route POST [Lit "instances"; Param "phone"; Lit "plugins"; Param "pluginName";
                      Lit "enable"]
            instanceController_enableInstancePlugin;
          route POST [Lit "instances"; Param "phone"; Lit "plugins"; Param "pluginName";
                      Lit "disable"]
            instanceController_disableInstancePlugin;
          route PUT [Lit "instances"; Param "phone"; Lit "plugins"]
            instanceController_updateInstancePluginConfig;
          route POST [Lit "instances"; Param "phone"; Lit "plugins"; Lit "sync"]
            instanceController_syncInstancePluginConfig;
          route GET [Lit "webhooks"; Lit "history"] webhookHistoryController_getGlobalHistory;
          route GET [Lit "webhooks"; Lit "history"; Lit "stats"]
            webhookHistoryController_getGlobalStatistics;
          route GET [Lit "webhooks"; Lit "history"; Lit "failures"]
            webhookHistoryController_getGlobalRecentFailures;
          route GET [Lit "webhooks"; Lit "history"; Lit "events"; Param "event"]
            webhookHistoryController_getByEvent;
          route GET [Lit "webhooks"; Lit "history"; Lit "statuses"; Param "status"]
            webhookHistoryController_getByStatus;
          route GET [Lit "webhooks"; Lit "history"; Param "historyId"]
            webhookHistoryController_getHistoryById;
          route POST [Lit "webhooks"; Lit "history"; Lit "cleanup"]
            webhookHistoryController_cleanup]
       else []))%list.

(** The match of a route path against the segments of a request path
    (the text between the slashes, after the first): a literal matches
    its text in any letter case, a parameter any non-empty segment, and
    one slash at the end is allowed.  The result is [req.params]. *)
Fixpoint match_path (pattern : list Seg) (path : list string)
  : option (list (string * string)) :=
  match pattern, path with
  | [], [] => Some []
  | [], [last] => if bool_decide (last = "") then Some [] else None
  | Lit s :: pattern, seg :: path =>
      if bool_decide (toLowerCase seg = toLowerCase s) then match_path pattern path else None
  | Param name :: pattern, seg :: path =>
      if bool_decide (seg = "") then None
      else cons (name, seg) <$> match_path pattern path
  | _, _ => None
  end.

(** The first route of the method whose path matches handles the
    request; no handler passes it on. *)
Fixpoint first_match (rs : list Route) (m : Method) (path : list string)
  : option (Handler * list (string * string)) :=
  match rs with
  | [] => None
  | r :: rs =>
      match (if bool_decide (route_method r = m) then match_path (route_path r) path
             else None) with
      | Some params => Some (route_handler r, params)
      | None => first_match rs m path
      end
  end.

Definition dispatch (env : option string) (m : Method) (path : list string)
  : option (Handler * list (string * string)) :=
  first_match (routes env) m path.

(** A request path that fits a route path: each literal as written, each
    parameter as the text x. *)
Definition sample (pattern : list Seg) : list string :=
  (fun s => match s with Lit s => s | Param _ => "x" end) <$> pattern.

(** The handlers of the single-instance routes. *)
Definition legacy_handlers : list Handler :=
  [pingController_ping; statusController_getStatus; messageController_sendPersonalMessage;
   messageController_sendGroupMessage; logController_getLogs].

End Routes.

(** ** The log file and its endpoint (getAllLogs, logController.getLogs) *)

Module Logs.
Import Hooks.

(** [array.slice(start)]: a negative start counts from the end. *)
Definition slice {A} (l : list A) (start : Z) : list A :=
  let len := Z.of_nat (List.length l) in
  let k := if (start <? 0)%Z then Z.max (len + start) 0 else Z.min start len in
  drop (Z.to_nat k) l.

(** What reading logs/app.log gives: the file is not there, the read
    throws, or the lines of its text. *)
Inductive LogFile : Type :=
| Missing
| Unreadable (error : string)
| Lines (lines : list string).

(** The number of entries [slice(-limit)] keeps of [len]: the last [limit]
    for a positive limit, all but the first [-limit] otherwise. *)
Definition window (limit : Z) (len : nat) : nat :=
  if (0 <? limit)%Z then Z.to_nat limit else (len - Z.to_nat (- limit))%nat.

(** The engine's text of the TypeError of [log.level] on [null]. *)
Definition null_level : string := "Cannot read properties of null (reading 'level')".

Record LogQuery : Type := {
  q_limit : option string;
  q_level : option string
}.

Section Logs.

(** A parsed line of the log. *)
Variable Entry : Type.
(** [line.trim() === ''] *)
Variable blank : string -> bool.
(** [JSON.parse(line)], or the line as the message of an entry of now
    when that throws. *)
Variable parse : string -> Entry.
(** [log.level], which may be undefined; [None] when the entry is [null],
    on which the read throws. *)
Variable level_of : Entry -> option (option string).
(** [parseInt(limit)]; [None] is NaN. *)
Variable parseInt : string -> option Z.

(** The entries of a text, oldest first. *)
Definition entries (lines : list string) : list Entry :=
  parse <$> List.filter (fun line => negb (blank line)) lines.

(** [getAllLogs(limit)]: the entries, and the line logged as an error. *)
Definition getAllLogs (file : LogFile) (limit : Z) : list Entry * list string :=
  match file with
  | Lines lines => (reverse (slice (entries lines) (- limit)), [])
  | Missing => ([], [])
  | Unreadable error => ([], ["Error reading logs: " ++ error])
  end.

(** The [data] of the answer 200. *)
Record LogData : Type := {
  reply_logs : list Entry;
  reply_total : nat;
  reply_limit : Z;
  reply_level : string
}.

(** [Math.min(parseInt(limit) || 100, 1000)], [limit] being 100 when the
    query has none. *)
Definition logLimit (q : LogQuery) : Z :=
  let parsed :=
    match q_limit q with
    | Some limit => parseInt limit
    | None => Some 100%Z
    end in
  Z.min (match parsed with
         | Some n => if (n =? 0)%Z then 100%Z else n
         | None => 100%Z
         end) 1000.

(** [logs.filter(log => log.level === level)]; [None] is the throw on an
    entry that is [null]. *)
Fixpoint filter_level (level : string) (logs : list Entry) : option (list Entry) :=
  match logs with
  | [] => Some []
  | log :: logs =>
      match level_of log with
      | None => None
      | Some l =>
          match filter_level level logs with
          | Some kept => Some (if bool_decide (l = Some level) then log :: kept else kept)
          | None => None
          end
      end
  end.

(** [logController.getLogs] *)
Definition getLogs (file : LogFile) (q : LogQuery) : Reply LogData :=
  let level := default "all" (q_level q) in
  let logs := (getAllLogs file (logLimit q)).1 in
  match (if negb (bool_decide (level = "all")) then filter_level level logs
         else Some logs) with
  | Some filteredLogs =>
      Answer 200 {| reply_logs := filteredLogs; reply_total := List.length filteredLogs;
                    reply_limit := logLimit q; reply_level := level |}
  | None => Failure 500 "Failed to retrieve logs" null_level
  end.

End Logs.

Arguments entries {Entry} blank parse lines.
Arguments getAllLogs {Entry} blank parse file limit.
Arguments filter_level {Entry} level_of level logs.
Arguments getLogs {Entry} blank parse level_of parseInt file q.
Arguments Build_LogData {Entry} _ _ _ _.
Arguments reply_logs {Entry} _.
Arguments reply_total {Entry} _.
Arguments reply_limit {Entry} _.
Arguments reply_level {Entry} _.

End Logs.

(** ** JSON data as JS values *)

Module JsData.
Import Js.

(** A BigInt or a reference back to an enclosing object, in what is
    serialised of the value: what its [toJSON] returns if it has one and
    it has not been called yet ([called]), else the value itself, and the
    elements and properties of that at any depth.  Typed arrays, buffers,
    functions and other objects are replaced as a whole, so what they hold
    is not looked at. *)
Fixpoint unserialisable_from (called : bool) (v : jsval) : bool :=
  match v with
  | VBigInt _ | VCircular => true
  | VArray items => existsb (fun x => unserialisable_from false x) items
  | VObject props => existsb (fun p => unserialisable_from false p.2) props
  | VToJSON self result =>
      if called then unserialisable_from true self else unserialisable_from true result
  | _ => false
  end.

Definition unserialisable (v : jsval) : bool := unserialisable_from false v.

(** What is serialised of the value is [undefined]: the value itself, or
    what its [toJSON] returns. *)
Fixpoint undefined_from (called : bool) (v : jsval) : bool :=
  match v with
  | VUndefined => true
  | VToJSON self result =>
      if called then undefined_from true self else undefined_from true result
  | _ => false
  end.

Definition undefined_root (v : jsval) : bool := undefined_from false v.

(** Whether a serialisation throws. *)
Definition throws {A} (r : exn + A) : bool :=
  match r with inl _ => true | inr _ => false end.

End JsData.

(** ** The send endpoint of an instance (instanceController.sendMessage) *)

Module Messaging.
Import Store Chain Sys Service Hooks.

(** The text of [connectionStatus]. *)
Definition status_text (s : ConnectionStatus) : string :=
  match s with
  | cs_disconnected => "disconnected"
  | cs_qr_ready => "qr_ready"
  | cs_reconnecting => "reconnecting"
  | cs_logged_out => "logged_out"
  | cs_connected => "connected"
  | cs_connecting => "connecting"
  | cs_error => "error"
  end.

(** [!x] on a field of a JSON body. *)
Definition falsy (x : option Js.json) : bool :=
  match x with
  | None | Some Js.JNull => true
  | Some (Js.JBool b) => negb b
  | Some (Js.JNum n) => bool_decide (n = 0%Z)
  | Some (Js.JStr s) => bool_decide (s = "")
  | Some (Js.JArr _) | Some (Js.JObj _) => false
  end.

Record SendBody : Type := {
  send_to : option Js.json;
  send_message : option Js.json
}.

(** The [data] of the answer 200. *)
Record Sent : Type := {
  sent_instancePhone : string;
  sent_to : Js.json;
  sent_message : string;
  sent_messageId : string
}.

(** The engine's text of the TypeError of [phoneNumber.replace(...)] on a
    value that is not a string. *)
Definition not_a_function : string := "phoneNumber.replace is not a function".

(** [sendMessage] of the instance (lines 552-620) when [phoneNumber] is
    not a string: the call of [replace] throws inside the [try]. *)
Definition sendMessage_non_string (r : ref) : M string :=
  inst ← this r;
  try_catch
    (if negb (isConnected inst) then throw (not_connected inst)
     else throw not_a_function)
    (fun error =>
       emit (LogError ("Error sending message from " ++ row_phone (instanceData inst)
                       ++ ": " ++ error));;
       instanceLogService.create
         {| log_instanceId := row_id (instanceData inst); log_level := lvl_error;
            log_message := "Error sending message: " ++ error |};;
       throw error).

(** [instanceManager.sendMessage(phone, to, message)] (lines 968-974) on
    any value of [to]. *)
Definition manager_sendMessage (E : Env) (phone : string) (to : Js.json) (message : string)
  : M string :=
  match to with
  | Js.JStr recipientNumber => Manager.sendMessage E phone recipientNumber message
  | _ =>
      instance ← Manager.getInstance phone;
      match instance with
      | None => throw (Manager.not_found phone)
      | Some r => sendMessage_non_string r
      end
  end.

Definition not_connected_now (phone : string) (inst : WhatsAppInstance) : string :=
  "WhatsApp instance " ++ phone ++ " is not connected. Current status: "
  ++ status_text (connectionStatus inst).

(** [`${to}`] on a field of a JSON body returns: converting an object to
    a string calls its [toString], which is the one of [Object.prototype]
    unless the object has an own property of that name, and no JSON value
    can be called; an array joins the strings of its elements. *)
Fixpoint interpolates (v : Js.json) : bool :=
  match v with
  | Js.JObj props => negb (bool_decide ("toString" ∈ props.*1))
  | Js.JArr items => forallb interpolates items
  | _ => true
  end.

(** The engine's text of the TypeError of such a conversion. *)
Definition cannot_convert : string := "Cannot convert object to primitive value".

(** [instanceController.sendMessage] (lines 481-550).  The first log line
    interpolates [to] before any check.  [trim] is
    [String.prototype.trim]. *)
Definition sendMessage (E : Env) (trim : string -> string) (phone : string) (body : SendBody)
  : M (Reply Sent) :=
  try_catch
    (if negb (from_option interpolates true (send_to body)) then throw cannot_convert
     else if falsy (send_to body) || falsy (send_message body) then
       mret (Failure 400 "Missing required fields" "to and message are required")
     else
       match send_to body, send_message body with
       | Some to, Some (Js.JStr message) =>
           if bool_decide (trim message = "") then
             mret (Failure 400 "Invalid message format" "Message must be a non-empty string")
           else
             instance ← Manager.getInstance phone;
             match instance with
             | None => mret (Failure 404 "Instance not found" (Manager.not_found phone))
             | Some r =>
                 inst ← this r;
                 if negb (isConnected inst) then
                   mret (Failure 503 "Instance not connected" (not_connected_now phone inst))
                 else
                   messageId ← manager_sendMessage E phone to (trim message);
                   mret (Answer 200
                           {| sent_instancePhone := phone; sent_to := to;
                              sent_message := trim message; sent_messageId := messageId |})
             end
       | _, _ => mret (Failure 400 "Invalid message format" "Message must be a non-empty string")
       end)
    (fun error =>
       emit (LogError ("Error sending message from instance " ++ phone ++ ": " ++ error));;
       mret (Failure 500 "Failed to send message" error)).

End Messaging.

(* ===================================================================== *)
(** * Properties *)
(* ===================================================================== *)

Import Store Chain Sys Service Obs Session.

(** ** Running the monad *)

Lemma run_bind {A B} (m : M A) (k : A -> M B) w :
  (m ≫= k) w = match m w with
               | (inl e, w') => (inl e, w')
               | (inr a, w') => k a w'
               end.
Proof. reflexivity. Qed.

Lemma run_bind_inr {A B} (m : M A) (k : A -> M B) w a w' :
  m w = (inr a, w') -> (m ≫= k) w = k a w'.
Proof. intros H. rewrite run_bind, H. reflexivity. Qed.

Lemma run_bind_inl {A B} (m : M A) (k : A -> M B) w e w' :
  m w = (inl e, w') -> (m ≫= k) w = (inl e, w').
Proof. intros H. rewrite run_bind, H. reflexivity. Qed.

Lemma run_try_inr {A} (m : M A) h w a w' :
  m w = (inr a, w') -> try_catch m h w = (inr a, w').
Proof. intros H. unfold try_catch. rewrite H. reflexivity. Qed.

Lemma run_try_inl {A} (m : M A) h w e w' :
  m w = (inl e, w') -> try_catch m h w = h e w'.
Proof. intros H. unfold try_catch. rewrite H. reflexivity. Qed.

(** ** Stability rules *)

Section Stable.
Context (R : World -> World -> Prop).
Hypothesis R_refl : forall w, R w w.
Hypothesis R_trans : forall w1 w2 w3, R w1 w2 -> R w2 w3 -> R w1 w3.

Lemma stable_ret {A} (a : A) : stable R (mret a).
Proof. intros w. apply R_refl. Qed.

Lemma stable_throw {A} e : stable R (@throw A e).
Proof. intros w. apply R_refl. Qed.

Lemma stable_gets {A} (f : World -> A) : stable R (gets f).
Proof. intros w. apply R_refl. Qed.

Lemma stable_this r : stable R (this r).
Proof. intros w. unfold after, this. destruct (heap w !! r); apply R_refl. Qed.

Lemma stable_modify f : (forall w, R w (f w)) -> stable R (modify f).
Proof. intros H w. apply H. Qed.

Lemma stable_bind {A B} (m : M A) (k : A -> M B) :
  stable R m -> (forall a, stable R (k a)) -> stable R (m ≫= k).
Proof.
  intros Hm Hk w. unfold after. rewrite run_bind.
  specialize (Hm w). unfold after in Hm.
  destruct (m w) as [[e|a] w']; simpl in *; [assumption|].
  eapply R_trans; [exact Hm|]. apply Hk.
Qed.

Lemma stable_try_catch {A} (m : M A) h :
  stable R m -> (forall e, stable R (h e)) -> stable R (try_catch m h).
Proof.
  intros Hm Hh w. unfold after, try_catch.
  specialize (Hm w). unfold after in Hm.
  destruct (m w) as [[e|a] w']; simpl in *; [|assumption].
  eapply R_trans; [exact Hm|]. apply Hh.
Qed.

Lemma stable_for_each {A} (l : list A) body :
  (forall x, stable R (body x)) -> stable R (for_each l body).
Proof.
  intros Hb. induction l as [|x l IH]; simpl.
  - apply (stable_ret tt).
  - apply (stable_bind (body x) (fun _ => for_each l body)); [apply Hb|intros _; exact IH].
Qed.

End Stable.

(** One step of a stability proof: the rule of the head construct, with
    the preorder proofs [Hr] and [Ht]. *)
Ltac stable_step Hr Ht :=
  lazymatch goal with
  | |- stable _ (mret _) => apply (stable_ret _ Hr)
  | |- stable _ (ret _) => apply (stable_ret _ Hr)
  | |- stable _ (throw _) => apply (stable_throw _ Hr)
  | |- stable _ (gets _) => apply (stable_gets _ Hr)
  | |- stable _ (this _) => apply (stable_this _ Hr)
  | |- stable _ (mbind _ _) => apply (stable_bind _ Ht); [|intros ?]
  | |- stable _ (bind _ _) => apply (stable_bind _ Ht); [|intros ?]
  | |- stable _ (try_catch _ _) => apply (stable_try_catch _ Ht); [|intros ?]
  | |- stable _ (for_each _ _) => apply (stable_for_each _ Hr Ht); intros ?
  | |- stable _ (modify _) => apply stable_modify; intros ?
  | |- stable _ (match ?x with _ => _ end) => destruct x
  | |- stable _ (let _ := _ in _) => cbv zeta
  end.

Ltac stable_unfold :=
  unfold emit, assign, instanceService.updateStatus, instanceService.findByPhone,
    instanceService.findAll, instanceService.create, instanceService.delete,
    instanceLogService.create, messageService.create,
    webhookService.getEnabledWebhooks, webhookHistoryService.create.

(** ** Effects only accumulate *)

Lemma extends_refl P w : extends P w w.
Proof. exists []. split; [symmetry; apply app_nil_r|constructor]. Qed.

Lemma extends_trans P w1 w2 w3 : extends P w1 w2 -> extends P w2 w3 -> extends P w1 w3.
Proof.
  intros [l1 [H1 F1]] [l2 [H2 F2]]. exists (l1 ++ l2)%list. split.
  - rewrite H2, H1. symmetry. apply app_assoc.
  - apply Forall_app. split; assumption.
Qed.

Lemma extends_emit P e w : P e -> extends P w (set_out (fun o => (o ++ [e])%list) w).
Proof. intros H. exists [e]. split; [reflexivity|]. repeat constructor. exact H. Qed.

Lemma extends_same_out P w w' : out w' = out w -> extends P w w'.
Proof. intros H. exists []. split; [rewrite H; symmetry; apply app_nil_r|constructor]. Qed.

(** Finishes the side goals of a stability proof for [extends P]: a
    modification that leaves [out] alone, or an emitted effect that
    satisfies [P]. *)
Ltac extends_side :=
  first [ apply extends_same_out; reflexivity
        | apply extends_emit; simpl; solve [trivial | reflexivity | auto] ].

Ltac extends_auto P :=
  repeat first [ stable_step (extends_refl P) (extends_trans P)
               | extends_side
               | progress stable_unfold ].

Lemma deliver_extends P E id event data webhook :
  (forall url payload, P (HttpPost url payload)) -> (forall line, P (LogError line)) ->
  stable (extends P) (deliver E id event data webhook).
Proof.
  intros Hp Hl. unfold deliver. extends_auto P.
  all: try (apply extends_emit; auto).
Qed.

Lemma triggerWebhooks_extends P E r event data :
  (forall url payload, P (HttpPost url payload)) -> (forall line, P (LogError line)) ->
  stable (extends P) (triggerWebhooks E r event data).
Proof.
  intros Hp Hl. unfold triggerWebhooks. extends_auto P.
  all: try (apply deliver_extends; assumption).
Qed.

(** ** Recipient numbers *)

Lemma all_digits_digits_only s : Phone.all_digits (Phone.digits_only s) = true.
Proof.
  induction s as [|c s IH]; simpl; [reflexivity|].
  destruct (Phone.is_digit c) eqn:Hc; simpl; [rewrite Hc|]; exact IH.
Qed.

Lemma all_digits_substring1 s : Phone.all_digits s = true -> Phone.all_digits (Phone.substring1 s) = true.
Proof. destruct s as [|c s]; simpl; [trivial|]. intros H. apply andb_true_iff in H. tauto. Qed.

Lemma startsWith_62 s :
  Phone.startsWith s "62" = true -> exists rest, s = "62" ++ rest.
Proof.
  unfold Phone.startsWith. intros H. apply prefix_correct in H.
  destruct s as [|a [|b s]]; try discriminate H.
  exists s. cbn in H. injection H as Ha Hb _. subst a b. reflexivity.
Qed.

Lemma formatNumber_shape phoneNumber :
  exists digits, Phone.formatNumber phoneNumber = "62" ++ digits
                 /\ Phone.all_digits digits = true.
Proof.
  unfold Phone.formatNumber.
  pose proof (all_digits_digits_only phoneNumber) as Hd.
  destruct (Phone.startsWith (Phone.digits_only phoneNumber) "62") eqn:H62; simpl.
  - destruct (startsWith_62 _ H62) as [rest Hrest]. exists rest. split; [exact Hrest|].
    rewrite Hrest in Hd. simpl in Hd. exact Hd.
  - destruct (Phone.startsWith (Phone.digits_only phoneNumber) "0").
    + eexists. split; [reflexivity|]. apply all_digits_substring1, Hd.
    + eexists. split; [reflexivity|]. exact Hd.
Qed.




Lemma run_this r w inst : heap w !! r = Some inst -> this r w = (inr inst, w).
Proof. intros H. unfold this. rewrite H. reflexivity. Qed.






(** ** Safe serialisation *)

Lemma SerializeJSONProperty_array items :
  Js.SerializeJSONProperty (Js.VArray items) = Js.array_of (elements items).
Proof.
  reflexivity.
Qed.

Lemma SerializeJSONProperty_object props :
  Js.SerializeJSONProperty (Js.VObject props) = Js.object_of (members props).
Proof.
  reflexivity.
Qed.



Lemma serialize_data_numbers bytes :
  Js.serialize_data (Js.VArray (Js.VNum <$> bytes)) = inr (Some (Js.JArr (Js.JNum <$> bytes))).
Proof.
  simpl. unfold Js.array_of.
  match goal with |- match ?f _ with _ => _ end = _ =>
    assert (H : f (Js.VNum <$> bytes) = inr (Js.JNum <$> bytes)); [|rewrite H; reflexivity]
  end.
  induction bytes as [|b bytes IH]; [reflexivity|].
  cbn [fmap list_fmap]. rewrite IH. reflexivity.
Qed.

Lemma SerializeJSONProperty_bytes bytes :
  Js.SerializeJSONProperty (Js.VUint8Array bytes)
  = inr (Some (Js.JObj [("__type", Js.JStr "Uint8Array");
                        ("data", Js.JArr (Js.JNum <$> bytes))])).
Proof.
  change (Js.SerializeJSONProperty (Js.VUint8Array bytes))
    with (Js.object_of
            (Js.member "__type" (inr (Some (Js.JStr "Uint8Array")))
               (Js.member "data" (Js.serialize_data (Js.VArray (Js.VNum <$> bytes)))
                  (inr [])))).
  rewrite serialize_data_numbers. reflexivity.
Qed.



Lemma run_safeSerialize E obj w :
  safeSerialize E obj w
  = match Js.parse_stringify obj with
    | inr j => (inr j, w)
    | inl e =>
        (inr (Js.fallback (error_message E) (js_toString E) obj e),
         after (emit (LogWarn ("Failed to serialize object, using fallback: "
                               ++ error_message E e))) w)
    end.
Proof. unfold safeSerialize. destruct (Js.parse_stringify obj); reflexivity. Qed.







(** A cycle or a BigInt anywhere, or an undefined root, gives the fallback. *)
Example safeSerialize_fallback :
  forall w,
    (exists j, result (safeSerialize Fixture.env0
                         (Js.VObject [("a", Js.VNum 1); ("self", Js.VCircular)])) w = inr j
               /\ Js.field "__serialization_error" j = Some (Js.JBool true))
    /\ (exists j, result (safeSerialize Fixture.env0 Js.VUndefined) w = inr j
                  /\ Js.field "type" j = Some (Js.JStr "undefined")).
Proof. intros w. split; eexists; split; reflexivity. Qed.

(** A Buffer reaches the replacer as the plain object its [toJSON] made. *)
Example safeSerialize_buffer :
  safeSerialize Fixture.env0 (Js.VBuffer [104; 105]%Z)
  = mret (Js.JObj [("type", Js.JStr "Buffer");
                   ("data", Js.JArr [Js.JNum 104; Js.JNum 105])]).
Proof. reflexivity. Qed.

(** A decoded protobuf message is stored as the plain object its [toJSON]
    made: the replacer never sees its byte arrays. *)
Example safeSerialize_protobuf :
  safeSerialize Fixture.env0
    (Js.VToJSON (Js.VObject [("mediaKey", Js.VUint8Array [104; 105]%Z)])
       (Js.VObject [("mediaKey", Js.VStr "aGk=")]))
  = mret (Js.JObj [("mediaKey", Js.JStr "aGk=")]).
Proof. reflexivity. Qed.

(** ** Computations that never throw *)

Lemma total_ret {A} (a : A) : total (mret a).
Proof. intros w. exists a. reflexivity. Qed.

Lemma total_gets {A} (f : World -> A) : total (gets f).
Proof. intros w. eexists. reflexivity. Qed.

Lemma total_modify f : total (modify f).
Proof. intros w. exists tt. reflexivity. Qed.

Lemma total_bind {A B} (m : M A) (k : A -> M B) :
  total m -> (forall a, total (k a)) -> total (m ≫= k).
Proof.
  intros Hm Hk w. unfold result. rewrite run_bind.
  destruct (Hm w) as [a Ha]. unfold result in Ha.
  destruct (m w) as [[e|a'] w']; simpl in Ha; [discriminate|].
  apply Hk.
Qed.

Lemma total_try_catch {A} (m : M A) h : (forall e, total (h e)) -> total (try_catch m h).
Proof.
  intros Hh w. unfold result, try_catch.
  destruct (m w) as [[e|a] w'].
  - apply Hh.
  - exists a. reflexivity.
Qed.

Lemma total_for_each {A} (l : list A) body :
  (forall x, total (body x)) -> total (for_each l body).
Proof.
  intros Hb. induction l as [|x l IH]; simpl.
  - apply (total_ret tt).
  - apply (total_bind (body x) (fun _ => for_each l body)); [apply Hb|intros _; exact IH].
Qed.

Ltac total_step :=
  lazymatch goal with
  | |- total (mret _) => apply total_ret
  | |- total (ret _) => apply total_ret
  | |- total (gets _) => apply total_gets
  | |- total (modify _) => apply total_modify
  | |- total (mbind _ _) => apply total_bind; [|intros ?]
  | |- total (bind _ _) => apply total_bind; [|intros ?]
  | |- total (try_catch _ _) => apply total_try_catch; intros ?
  | |- total (for_each _ _) => apply total_for_each; intros ?
  | |- total (match ?x with _ => _ end) => destruct x
  | |- total (let _ := _ in _) => cbv zeta
  end.

Ltac total_auto := repeat first [ total_step | progress stable_unfold ].

Lemma total_run {A} (m : M A) w : total m -> exists a, m w = (inr a, after m w).
Proof.
  intros H. destruct (H w) as [a Ha]. exists a. unfold result, after in *.
  destruct (m w) as [x w']. simpl in *. rewrite Ha. reflexivity.
Qed.

Lemma total_run_unit (m : M unit) w : total m -> m w = (inr tt, after m w).
Proof. intros H. destruct (total_run m w H) as [[] Ha]. exact Ha. Qed.

(** ** The plugin chain *)

Lemma for_each_emit {A} (f : A -> Effect) l w :
  for_each l (fun c => emit (f c)) w = (inr tt, set_out (fun o => (o ++ (f <$> l))%list) w).
Proof.
  revert w. induction l as [|x l IH]; intros w.
  - destruct w. simpl. unfold ret, set_out. simpl. rewrite app_nil_r. reflexivity.
  - cbn [for_each].
    rewrite (run_bind_inr _ _ _ tt (set_out (fun o => (o ++ [f x])%list) w)); [|reflexivity].
    rewrite IH. destruct w. unfold set_out. simpl. rewrite <- app_assoc. reflexivity.
Qed.

Lemma plugin_calls_app l1 l2 : plugin_calls (l1 ++ l2) = (plugin_calls l1 ++ plugin_calls l2)%list.
Proof. apply omap_app. Qed.

Lemma plugin_calls_logs l : Forall is_log l -> plugin_calls l = [].
Proof.
  induction 1 as [|e l He _ IH]; [reflexivity|].
  destruct e; simpl in He; try contradiction; exact IH.
Qed.

Lemma plugin_calls_calls (l : list (string * Props)) :
  plugin_calls ((fun c => PluginCall c.1 c.2) <$> l) = l.
Proof. induction l as [|[n p] l IH]; simpl; [reflexivity|]. f_equal. exact IH. Qed.

Lemma invoked_spec pm n :
  n ∈ invoked pm <-> n ∈ plugins pm /\ isEnabled pm n = true.
Proof. unfold invoked. rewrite !list_elem_of_In. apply filter_In. Qed.

(** The test of the loop on a name that [Object.prototype] does not hold:
    the own property of the override under that name, when it is truthy. *)
Lemma isEnabled_own pm n :
  n ∉ Js.Object_prototype ->
  isEnabled pm n = true
  <-> exists v, instancePluginConfig pm !! n = Some v /\ Js.truthy (Js.of_json v) = true.
Proof.
  intros Hn. unfold isEnabled, instanceEnabled, Js.get.
  destruct (instancePluginConfig pm !! n) as [v|].
  - split.
    + intros H. exists v. split; [reflexivity|].
      destruct (Js.of_json v); try exact H; discriminate H.
    + intros (v' & Hv & Ht). injection Hv as <-.
      destruct (Js.of_json v); try exact Ht; discriminate Ht.
  - rewrite (bool_decide_eq_false_2 _ Hn). split; [discriminate|].
    intros (v & Hv & _). discriminate Hv.
Qed.

(** The test of the loop on a name the override does not hold: it passes
    for the names of [Object.prototype] and for no other. *)
Lemma isEnabled_absent pm n :
  instancePluginConfig pm !! n = None ->
  isEnabled pm n = bool_decide (n ∈ Js.Object_prototype).
Proof.
  intros H. unfold isEnabled, instanceEnabled, Js.get. rewrite H.
  destruct (bool_decide (n ∈ Js.Object_prototype)); [|reflexivity].
  destruct (bool_decide (n = "__proto__")); reflexivity.
Qed.

Lemma isEnabled_own_true pm n :
  instancePluginConfig pm !! n = Some (Js.JBool true) -> isEnabled pm n = true.
Proof. intros H. unfold isEnabled, instanceEnabled, Js.get. rewrite H. reflexivity. Qed.

Lemma isEnabled_own_false pm n :
  instancePluginConfig pm !! n = Some (Js.JBool false) -> isEnabled pm n = false.
Proof. intros H. unfold isEnabled, instanceEnabled, Js.get. rewrite H. reflexivity. Qed.

Lemma invoked_empty pm :
  instancePluginConfig pm = ∅ ->
  invoked pm = List.filter (fun n => bool_decide (n ∈ Js.Object_prototype)) (plugins pm).
Proof.
  intros H. unfold invoked. apply filter_ext. intros n.
  apply isEnabled_absent. rewrite H. apply lookup_empty.
Qed.

Lemma filter_none {A} (f : A -> bool) l : (forall x, x ∈ l -> f x = false) -> List.filter f l = [].
Proof.
  induction l as [|x l IH]; intros H; [reflexivity|]. simpl.
  rewrite (H x) by (apply elem_of_cons; left; reflexivity).
  apply IH. intros y Hy. apply H. apply elem_of_cons. right. exact Hy.
Qed.

(** Without a call that throws, the loop calls every enabled handler. *)
Lemma call_plugins_all E calls : no_throw E calls -> call_plugins E calls = (calls, None).
Proof.
  intros Hn. induction calls as [|c calls IH]; [reflexivity|].
  cbn [call_plugins]. rewrite IH.
  2:{ intros c' error Hc'. apply Hn. apply elem_of_cons. right. exact Hc'. }
  cbn [fst snd].
  destruct (plugin_outcome E c.1 c.2) eqn:Ho; try reflexivity.
  destruct (Hn c error (ltac:(apply elem_of_cons; left; reflexivity)) Ho).
Qed.

(** The calls made are the first of the enabled handlers, in order. *)
Lemma call_plugins_prefix E calls : (call_plugins E calls).1 `prefix_of` calls.
Proof.
  induction calls as [|c calls IH]; [exists []; reflexivity|].
  cbn [call_plugins]. destruct (plugin_outcome E c.1 c.2); cbn [fst];
    try (apply prefix_cons; exact IH).
  exists calls. reflexivity.
Qed.

Lemma all_rejects_settles E calls : settles E calls -> all_rejects E calls = None.
Proof.
  intros Hs. unfold all_rejects.
  assert (H : omap (fun c => match plugin_outcome E c.1 c.2 with
                             | RejectsNullish typeError => Some typeError
                             | _ => None
                             end) calls = []); [|rewrite H; reflexivity].
  induction calls as [|c calls IH]; [reflexivity|]. cbn [omap list_omap].
  assert (IH' : omap (fun c => match plugin_outcome E c.1 c.2 with
                               | RejectsNullish typeError => Some typeError
                               | _ => None
                               end) calls = []).
  { apply IH. intros c' Hc'. apply Hs. apply elem_of_cons. right. exact Hc'. }
  destruct (Hs c (ltac:(apply elem_of_cons; left; reflexivity))) as [->|[m ->]]; exact IH'.
Qed.

Lemma settles_no_throw E calls : settles E calls -> no_throw E calls.
Proof. intros Hs c error Hc H. destruct (Hs c Hc) as [H'|[m H']]; congruence. Qed.

Lemma chain_error_settles E pm message :
  settles E (chain pm message) -> chain_error E pm message = None.
Proof.
  intros Hs. unfold chain_error.
  rewrite (call_plugins_all E _ (settles_no_throw E _ Hs)). cbn [fst snd].
  apply all_rejects_settles, Hs.
Qed.

(** A run of the chain: the handlers called, the error thrown. *)
Lemma executePlugins_run E r message w inst :
  heap w !! r = Some inst ->
  let pm := pluginManager inst in
  result (executePlugins E r message) w
  = from_option inl (inr tt) (chain_error E pm message)
  /\ exists l, out (after (executePlugins E r message) w) = (out w ++ l)%list
               /\ plugin_calls l = chain_calls E pm message
               /\ Forall no_post l.
Proof.
  intros Hr pm. unfold result, after, executePlugins.
  rewrite (run_bind_inr _ _ _ _ _ (run_this _ _ _ Hr)). cbv zeta.
  unfold chain_error, chain_calls, chain. fold pm.
  set (loop := call_plugins E ((fun n => (n, props_for pm n message)) <$> invoked pm)).
  rewrite (run_bind_inr _ _ _ _ _ (for_each_emit (fun c => PluginCall c.1 c.2) loop.1 w)).
  match goal with |- context [for_each loop.1 ?body] => set (logs := for_each loop.1 body) end.
  assert (Ht : total logs) by (subst logs; total_auto).
  assert (Hs : stable (extends is_log) logs)
    by (subst logs; extends_auto is_log).
  rewrite (run_bind_inr _ _ _ _ _ (total_run_unit logs _ Ht)).
  destruct (Hs (set_out (fun o => (o ++ ((fun c => PluginCall c.1 c.2) <$> loop.1))%list) w))
    as [l2 [Hl2 Hlog]].
  assert (Hout : forall {A} (x : string + A) w1,
             out w1 = (out w ++ ((fun c => PluginCall c.1 c.2) <$> loop.1) ++ l2)%list ->
             exists l, out (x, w1).2 = (out w ++ l)%list
                       /\ plugin_calls l = loop.1 /\ Forall no_post l).
  { intros A x w1 Hw1. eexists. split; [exact Hw1|]. split.
    - rewrite plugin_calls_app, plugin_calls_calls, (plugin_calls_logs _ Hlog).
      apply app_nil_r.
    - apply Forall_app. split.
      + apply Forall_fmap, Forall_forall. intros c _. exact I.
      + eapply Forall_impl; [exact Hlog|]. intros [] He; try destruct He; exact I. }
  assert (Hw1 : out (after logs (set_out (fun o => (o ++ ((fun c => PluginCall c.1 c.2)
                                                            <$> loop.1))%list) w))
                = (out w ++ ((fun c => PluginCall c.1 c.2) <$> loop.1) ++ l2)%list).
  { etransitivity; [exact Hl2|]. simpl. rewrite app_assoc. reflexivity. }
  destruct loop.2 as [error|]; cbn [from_option].
  - split; [reflexivity|]. apply Hout. exact Hw1.
  - destruct (all_rejects E loop.1) as [typeError|]; cbn [from_option];
      (split; [reflexivity|]); apply Hout; exact Hw1.
Qed.

(** C7, as the code has it.  The handlers an event reaches are, in the
    order of the Map and up to the first call that throws, the loaded
    plugins whose name reads as a truthy value on the override of the
    instance: for a name that [Object.prototype] does not hold, those whose
    own property is truthy, [true] among other values, since nothing
    checks what is stored.  Such a name absent from the override is
    disabled, so an empty override reaches no plugin so named, whatever
    the default-enabled flags in [pluginConfigs] say; a created instance
    starts with the empty override and loading plugins does not change it.
    The chain returns normally when the promises of the handlers fulfil or
    reject with an error. *)
Theorem C7_plugins_follow_override (E : Env) (r : ref) (message : PluginMessage)
    (w : World) (inst : WhatsAppInstance) :
  heap w !! r = Some inst ->
  let pm := pluginManager inst in
  (exists l, out (after (executePlugins E r message) w) = (out w ++ l)%list
             /\ plugin_calls l = chain_calls E pm message)
  /\ chain_calls E pm message `prefix_of` chain pm message
  /\ (no_throw E (chain pm message) -> chain_calls E pm message = chain pm message)
  /\ result (executePlugins E r message) w
     = from_option inl (inr tt) (chain_error E pm message)
  /\ (settles E (chain pm message) -> result (executePlugins E r message) w = inr tt)
  /\ (forall n, n ∈ invoked pm <-> n ∈ plugins pm /\ isEnabled pm n = true)
  /\ (forall n, n ∉ Js.Object_prototype ->
        isEnabled pm n = true
        <-> exists v, instancePluginConfig pm !! n = Some v
                      /\ Js.truthy (Js.of_json v) = true)
  /\ (forall n, instancePluginConfig pm !! n = Some (Js.JBool true) -> isEnabled pm n = true)
  /\ (forall n, instancePluginConfig pm !! n = Some (Js.JBool false) -> isEnabled pm n = false)
  /\ (forall n, n ∉ Js.Object_prototype -> instancePluginConfig pm !! n = None ->
        n ∉ invoked pm)
  /\ (instancePluginConfig pm = ∅ ->
      invoked pm = List.filter (fun n => bool_decide (n ∈ Js.Object_prototype)) (plugins pm))
  /\ (instancePluginConfig pm = ∅ -> (forall n, n ∈ plugins pm -> n ∉ Js.Object_prototype) ->
      invoked pm = [])
  /\ (forall defaults,
        invoked {| plugins := plugins pm; pluginConfigs := defaults;
                   instancePluginConfig := instancePluginConfig pm; pm_phone := pm_phone pm |}
        = invoked pm)
  /\ (forall id data,
        instancePluginConfig (pluginManager (new_WhatsAppInstance (new_row id data))) = ∅)
  /\ (forall phone pm' file,
        instancePluginConfig (load_file phone pm' file).1 = instancePluginConfig pm').
Proof.
  intros Hr pm.
  destruct (executePlugins_run E r message w inst Hr) as [Hres (l & Hout & Hcalls & _)].
  split; [exists l; split; assumption|].
  split; [apply call_plugins_prefix|].
  split; [intros Hn; unfold chain_calls; rewrite (call_plugins_all E _ Hn); reflexivity|].
  split; [exact Hres|].
  split; [intros Hs; rewrite Hres; fold pm; rewrite (chain_error_settles E pm message Hs);
          reflexivity|].
  split; [apply invoked_spec|].
  split; [intros n; apply isEnabled_own|].
  split; [intros n; apply isEnabled_own_true|].
  split; [intros n; apply isEnabled_own_false|].
  split.
  { intros n Hn Habs Hin. apply invoked_spec in Hin. destruct Hin as [_ Hin].
    rewrite (isEnabled_absent pm n Habs), (bool_decide_eq_false_2 _ Hn) in Hin.
    discriminate Hin. }
  split; [apply invoked_empty|].
  split.
  { intros Hempty Hnames. rewrite (invoked_empty pm Hempty). apply filter_none.
    intros n Hn. apply bool_decide_eq_false_2, Hnames, Hn. }
  split; [reflexivity|].
  split; [reflexivity|].
  intros phone pm' [name [err|err|cfg]]; reflexivity.
Qed.

Lemma C7_witness :
  (exists l, out (after (executePlugins Fixture.env0 0 (Upstream Fixture.message1))
                    Fixture.world0) = (out Fixture.world0 ++ l)%list
             /\ plugin_calls l
                = [("welcome-group",
                    props_for Fixture.pm1 "welcome-group" (Upstream Fixture.message1))])
  /\ result (executePlugins Fixture.env0 0 (Upstream Fixture.message1)) Fixture.world0
     = inr tt.
Proof.
  destruct (C7_plugins_follow_override Fixture.env0 0 (Upstream Fixture.message1)
              Fixture.world0 Fixture.inst1 eq_refl) as (H & _ & _ & _ & Hres & _).
  split; [exact H|]. apply Hres. intros c _. left. reflexivity.
Defined.

(** C7 as the specification words it fails: the override of an instance
    is set to [{"welcome-group": "false"}], a text and not [true]; the
    handler of the plugin runs on the next event. *)
Lemma C7_counterexample :
  let pm := setInstancePluginConfig (new_PluginManager None)
              {["welcome-group" := Js.JStr "false"]} in
  let pm' := (load_file None pm ("welcome-group", Exports (Some Fixture.welcome))).1 in
  let w := Fixture.world_with (set_pluginManager pm' Fixture.inst1) in
  instancePluginConfig pm' !! "welcome-group" <> Some (Js.JBool true)
  /\ invoked pm' = ["welcome-group"]
  /\ fst <$> plugin_calls (out (after (executePlugins Fixture.env0 0
                                         (Upstream Fixture.message1)) w))
     = ["welcome-group"].
Proof. vm_compute. repeat split; discriminate. Qed.

(** A plugin named like a member of [Object.prototype] runs on an empty
    override. *)
Example inherited_name_enabled :
  let pm := (load_file None (new_PluginManager None) ("constructor", Exports None)).1 in
  instancePluginConfig pm = ∅ /\ invoked pm = ["constructor"].
Proof. split; reflexivity. Qed.

(** ** The webhook dispatcher *)

Lemma same_but_history_refl w : same_but_history w w.
Proof. repeat split. Qed.

Lemma same_but_history_trans w1 w2 w3 :
  same_but_history w1 w2 -> same_but_history w2 w3 -> same_but_history w1 w3.
Proof.
  unfold same_but_history. intros H1 H2.
  repeat match goal with H : _ /\ _ |- _ => destruct H end.
  repeat split; congruence.
Qed.

Ltac frame_auto :=
  repeat first [ stable_step same_but_history_refl same_but_history_trans
               | solve [repeat split]
               | progress stable_unfold ].

Lemma deliver_frame E id event data webhook :
  stable same_but_history (deliver E id event data webhook).
Proof. unfold deliver. frame_auto. Qed.

Lemma triggerWebhooks_frame E r event data :
  stable same_but_history (triggerWebhooks E r event data).
Proof. unfold triggerWebhooks. frame_auto. all: apply deliver_frame. Qed.

Lemma deliver_total E id event data webhook : total (deliver E id event data webhook).
Proof. unfold deliver. total_auto. Qed.

Lemma triggerWebhooks_run E r event data w inst :
  heap w !! r = Some inst ->
  triggerWebhooks E r event data w
  = (inr tt, after (for_each (Store.getEnabledWebhooks (tbl_webhook w)
                                (row_id (instanceData inst)) event)
                      (deliver E (row_id (instanceData inst)) event data)) w).
Proof.
  intros Hr. unfold triggerWebhooks.
  rewrite (run_bind_inr _ _ _ _ _ (run_this _ _ _ Hr)).
  unfold webhookService.getEnabledWebhooks.
  erewrite run_try_inr; [reflexivity|].
  erewrite run_bind_inr; [|reflexivity].
  apply total_run_unit. apply total_for_each. intros h. apply deliver_total.
Qed.

(** One attempt: the post, the clock, and the row the store keeps. *)
Lemma deliver_run E id event data webhook w :
  let w' := after (deliver E id event data webhook) w in
  now w' = Attempt.finish E id event data webhook (now w)
  /\ tbl_history w'
     = (tbl_history w
        ++ (if Attempt.accepted E (Attempt.handed E id event data webhook (now w))
            then [Attempt.row E id event data webhook (now w)] else []))%list
  /\ exists l, out w' = (out w ++ l)%list /\ http_posts l = [wh_url webhook]
               /\ forall e,
                   reject_history E (Attempt.handed E id event data webhook (now w)) = Some e ->
                   Attempt.history_error_line (wh_id webhook) e ∈ log_errors l.
Proof.
  unfold after, deliver, Attempt.accepted, Attempt.row, Attempt.finish, Attempt.handed,
    Attempt.completed, Attempt.settled, Attempt.payload, Attempt.history_error_line.
  unfold webhookHistoryService.create, try_catch, mbind, M_bind, mret, M_ret, bind, ret,
    gets, modify, emit, throw.
  cbn -[axios_post settle pretty webhookHistoryService.with_triggeredAt].
  destruct (axios_post 5000 _ _) as [[response|code message response] elapsed] eqn:Hpost;
    cbn -[settle pretty webhookHistoryService.with_triggeredAt];
    match goal with |- context [reject_history E ?h] => destruct (reject_history E h) end;
    cbn -[settle pretty webhookHistoryService.with_triggeredAt];
    (split; [reflexivity|split; [try reflexivity; try (rewrite app_nil_r; reflexivity)|]]);
    eexists; (split; [try rewrite <- !app_assoc; reflexivity|split; [reflexivity|]]);
    intros e He; try discriminate He; injection He as <-;
    apply list_elem_of_omap; eexists;
    (split;
     [apply elem_of_app; right;
      first [ apply list_elem_of_singleton; reflexivity
            | apply elem_of_app; right; apply list_elem_of_singleton; reflexivity ]
     |reflexivity]).
Qed.

Lemma after_bind_unit {B} (m : M unit) (k : M B) w :
  total m -> after (m ≫= fun _ => k) w = after k (after m w).
Proof.
  intros Ht. unfold after at 1. rewrite (run_bind_inr _ _ _ _ _ (total_run_unit m w Ht)).
  reflexivity.
Qed.

Lemma http_posts_app l1 l2 : http_posts (l1 ++ l2) = (http_posts l1 ++ http_posts l2)%list.
Proof. apply omap_app. Qed.

Lemma attempt_handed_webhook E id event data webhook start :
  hist_webhookId (Attempt.handed E id event data webhook start) = wh_id webhook.
Proof.
  unfold Attempt.handed. destruct (Attempt.settled E id event data webhook start).1; reflexivity.
Qed.

Lemma attempt_row_webhook E id event data webhook start :
  hist_webhookId (Attempt.row E id event data webhook start) = wh_id webhook.
Proof. apply attempt_handed_webhook. Qed.

Lemma log_errors_app l1 l2 : log_errors (l1 ++ l2) = (log_errors l1 ++ log_errors l2)%list.
Proof. apply omap_app. Qed.

Lemma for_each_deliver_run E id event data hooks w :
  let w' := after (for_each hooks (deliver E id event data)) w in
  tbl_history w' = (tbl_history w ++ Attempt.rows E id event data hooks (now w))%list
  /\ exists l, out w' = (out w ++ l)%list /\ http_posts l = wh_url <$> hooks
               /\ forall h e,
                   h ∈ Attempt.all_handed E id event data hooks (now w) ->
                   reject_history E h = Some e ->
                   Attempt.history_error_line (hist_webhookId h) e ∈ log_errors l.
Proof.
  revert w. induction hooks as [|h hooks IH]; intros w; cbn zeta.
  - split; [symmetry; apply app_nil_r|]. exists [].
    split; [symmetry; apply app_nil_r|]. split; [reflexivity|].
    intros row e Hin. inversion Hin.
  - cbn [for_each]. rewrite after_bind_unit by apply deliver_total.
    destruct (deliver_run E id event data h w) as (Hnow & Hhist & l1 & Hout & Hposts & Hlog).
    destruct (IH (after (deliver E id event data h) w))
      as (Hhist' & l2 & Hout' & Hposts' & Hlog').
    split.
    + rewrite Hhist', Hhist, Hnow. cbn [Attempt.rows].
      rewrite <- app_assoc. reflexivity.
    + exists (l1 ++ l2)%list. split; [|split].
      * rewrite Hout', Hout. symmetry. apply app_assoc.
      * rewrite http_posts_app, Hposts, Hposts'. reflexivity.
      * intros row e Hin Hrej. cbn [Attempt.all_handed] in Hin.
        rewrite log_errors_app, elem_of_app.
        apply elem_of_cons in Hin as [->|Hin].
        -- left. rewrite attempt_handed_webhook. apply Hlog. exact Hrej.
        -- right. rewrite Hnow in Hlog'. apply (Hlog' row e Hin Hrej).
Qed.

Lemma attempt_row_finished E id event data webhook start :
  Attempt.finished_row id event (Attempt.row E id event data webhook start).
Proof.
  unfold Attempt.finished_row, Attempt.row, Attempt.finish, Attempt.handed, Attempt.completed.
  destruct (Attempt.settled E id event data webhook start) as [[response|code message response] elapsed];
    cbn [fst snd settle pending_history hist_status hist_instanceId hist_event
         hist_retryCount hist_completedAt hist_payload hist_responseTime hist_triggeredAt
         webhookHistoryService.with_triggeredAt Attempt.payload pl_timestamp].
  - split; [discriminate|]. do 3 (split; [reflexivity|]).
    eexists _, _. split; [reflexivity|]. split; [reflexivity|]. split; [reflexivity|lia].
  - split; [destruct (bool_decide _); discriminate|]. do 3 (split; [reflexivity|]).
    eexists _, _. split; [reflexivity|]. split; [reflexivity|]. split; [reflexivity|lia].
Qed.

Lemma attempt_rows_finished E id event data hooks start :
  Forall (Attempt.finished_row id event) (Attempt.rows E id event data hooks start).
Proof.
  revert start. induction hooks as [|h hooks IH]; intros start; cbn [Attempt.rows].
  - constructor.
  - apply Forall_app. split; [|apply IH].
    destruct (Attempt.accepted E _); constructor; [apply attempt_row_finished|constructor].
Qed.

Lemma attempt_handed_webhooks E id event data hooks start :
  hist_webhookId <$> Attempt.all_handed E id event data hooks start = wh_id <$> hooks.
Proof.
  revert start. induction hooks as [|h hooks IH]; intros start; cbn [Attempt.all_handed];
    [reflexivity|].
  cbn [fmap list_fmap]. rewrite attempt_handed_webhook. f_equal. apply IH.
Qed.

(** When the store refuses no row, it keeps one row per subscription. *)
Lemma attempt_rows_webhooks E id event data hooks start :
  (forall h, reject_history E h = None) ->
  hist_webhookId <$> Attempt.rows E id event data hooks start = wh_id <$> hooks.
Proof.
  intros Hacc. revert start.
  induction hooks as [|h hooks IH]; intros start; cbn [Attempt.rows]; [reflexivity|].
  unfold Attempt.accepted. rewrite Hacc. cbn [fmap list_fmap app].
  rewrite attempt_row_webhook. f_equal. apply IH.
Qed.

Lemma filter_all {A} (f : A -> bool) l : (forall x, f x = true) -> List.filter f l = l.
Proof.
  intros H. induction l as [|x l IH]; [reflexivity|]. simpl. rewrite H, IH. reflexivity.
Qed.

(** What a dispatch does.  A dispatch that resolves N enabled
    subscriptions for (instance, event) returns normally, posts once to
    each of them in order and hands the store one history row per
    subscription, whatever the outcome of the deliveries; the rows the
    store accepts are appended to the history (a refused row is logged and
    dropped), so N rows are written when the store refuses none.  Each row
    is stamped by the store after the attempt was completed. *)
Theorem triggerWebhooks_history (E : Env) (r : ref) (event : string) (data : EventData)
    (w : World) (inst : WhatsAppInstance) :
  heap w !! r = Some inst ->
  let id := row_id (instanceData inst) in
  let hooks := Store.getEnabledWebhooks (tbl_webhook w) id event in
  let w' := after (triggerWebhooks E r event data) w in
  result (triggerWebhooks E r event data) w = inr tt
  /\ exists rows,
      tbl_history w' = (tbl_history w ++ rows)%list
      /\ Forall (Attempt.finished_row id event) rows
      /\ (exists l, out w' = (out w ++ l)%list /\ http_posts l = wh_url <$> hooks
                    /\ forall h e,
                        h ∈ Attempt.all_handed E id event data hooks (now w) ->
                        reject_history E h = Some e ->
                        Attempt.history_error_line (hist_webhookId h) e ∈ log_errors l)
      /\ ((forall h, reject_history E h = None) ->
          hist_webhookId <$> rows = wh_id <$> hooks
          /\ List.length (tbl_history w') = (List.length (tbl_history w) + List.length hooks)%nat).
Proof.
  intros Hr id hooks w'.
  pose proof (triggerWebhooks_run E r event data w inst Hr) as Hrun.
  split; [unfold result; rewrite Hrun; reflexivity|].
  assert (Hw' : w' = after (for_each hooks (deliver E id event data)) w)
    by (unfold w', after at 1; rewrite Hrun; reflexivity).
  destruct (for_each_deliver_run E id event data hooks w) as (Hhist & Hout).
  exists (Attempt.rows E id event data hooks (now w)).
  split; [rewrite Hw'; exact Hhist|].
  split; [apply attempt_rows_finished|].
  split; [rewrite Hw'; exact Hout|].
  intros Hacc. split; [apply attempt_rows_webhooks, Hacc|].
  rewrite Hw', Hhist, length_app. f_equal.
  rewrite <- (length_fmap hist_webhookId), (attempt_rows_webhooks _ _ _ _ _ _ Hacc), length_fmap.
  reflexivity.
Qed.

(** C4 fails on the code.  The store takes 3 ms to insert a history row
    and the timer of the timeout fires 2 ms late; a dispatch at time 1000
    resolves the two subscriptions A (which answers 200 after 40 ms) and B
    (which does not answer within 5 s).  Two rows are written, one per
    subscription, and each is completed before it is triggered: the code
    takes [completedAt] before it hands the row to the store and never
    sets [triggeredAt], which the store fills at the insert. *)
Theorem C4_rows_completed_before_triggered :
  let w' := after (triggerWebhooks Fixture.env_slow 0 "message.received"
                     (ReceivedData (envelope Fixture.message1) Fixture.row1))
              Fixture.world0 in
  wh_id <$> Store.getEnabledWebhooks (tbl_webhook Fixture.world0) 1 "message.received"
  = [1%nat; 2%nat]
  /\ (fun h => (hist_webhookId h, hist_status h, hist_completedAt h, hist_triggeredAt h))
     <$> tbl_history w'
     = [(1%nat, h_success, Some 1040%Z, Some 1043%Z);
        (2%nat, h_timeout, Some 6045%Z, Some 6048%Z)].
Proof. vm_compute. split; reflexivity. Qed.

(** Scenario 3 of the specification: A answers 200 after 40 ms, B sleeps
    6 s. *)
Example two_subscriptions :
  (fun h => (hist_webhookId h, hist_status h, hist_httpStatusCode h, hist_responseTime h))
  <$> tbl_history (after (triggerWebhooks Fixture.env0 0 "message.received"
                            (ReceivedData (envelope Fixture.message1) Fixture.row1))
                     Fixture.world0)
  = [(1%nat, h_success, Some 200%Z, Some 40%Z); (2%nat, h_timeout, None, Some 5000%Z)].
Proof. vm_compute. reflexivity. Qed.

(** With a store that refuses the history rows, the subscriptions are
    posted to and no row is written. *)
Example refused_history :
  let w' := after (triggerWebhooks Fixture.env_failing 0 "message.received"
                     (ReceivedData (envelope Fixture.message1) Fixture.row1))
              Fixture.world0 in
  http_posts (out w') = ["http://a.test/hook"; "http://b.test/hook"]
  /\ tbl_history w' = [].
Proof. vm_compute. split; reflexivity. Qed.

(** C5, as the code has it.  The history row of a delivery attempt is
    the row [Attempt.row], classified by the outcome of the post: a 2xx
    response gives status success with the HTTP status; any other response
    gives failed with the HTTP status; no answer within the 5 s of the
    timeout gives timeout, no HTTP status, and the error message of the
    timeout; a network error gives failed, no HTTP status, and the message
    of the error, unless its code is ECONNABORTED, the code of the timeout
    and of an aborted connection: it gives timeout, no HTTP status, and
    the message of the error. *)
Theorem C5_attempt_classified (E : Env) (id : nat) (event : string) (data : EventData)
    (webhook : Webhook) (w : World) :
  let row := Attempt.row E id event data webhook (now w) in
  let answer := endpoint E (wh_url webhook) (Attempt.payload id event data (now w)) in
  tbl_history (after (deliver E id event data webhook) w)
  = (tbl_history w
     ++ (if Attempt.accepted E (Attempt.handed E id event data webhook (now w))
         then [row] else []))%list
  /\ (forall after response,
        answer = Responds after response -> (after < 5000)%N ->
        (200 <= resp_status response < 300)%Z ->
        hist_status row = h_success
        /\ hist_httpStatusCode row = Some (resp_status response))
  /\ (forall after response,
        answer = Responds after response -> (after < 5000)%N ->
        ~ (200 <= resp_status response < 300)%Z ->
        hist_status row = h_failed
        /\ hist_httpStatusCode row = Some (resp_status response)
        /\ hist_errorMessage row
           = Some ("Request failed with status code " ++ pretty (resp_status response)))
  /\ (forall after,
        (5000 <= after)%N ->
        (exists response, answer = Responds after response)
        \/ (exists code message, answer = Fails after code message) ->
        hist_status row = h_timeout
        /\ hist_httpStatusCode row = None
        /\ hist_errorMessage row = Some "timeout of 5000ms exceeded")
  /\ (forall after code message,
        answer = Fails after code message -> (after < 5000)%N ->
        hist_status row = (if bool_decide (code = "ECONNABORTED") then h_timeout else h_failed)
        /\ hist_httpStatusCode row = None
        /\ hist_errorMessage row = Some message).
Proof.
  cbv zeta.
  split; [apply (deliver_run E id event data webhook w)|].
  unfold Attempt.row, Attempt.handed, Attempt.settled, axios_post.
  split; [|split; [|split]].
  - intros after response -> Hlt H2xx.
    apply N.ltb_lt in Hlt. rewrite Hlt.
    assert (Hv : validateStatus (resp_status response) = true)
      by (unfold validateStatus; apply andb_true_iff; split;
          [apply Z.leb_le|apply Z.ltb_lt]; lia).
    rewrite Hv. split; reflexivity.
  - intros after response -> Hlt H2xx.
    apply N.ltb_lt in Hlt. rewrite Hlt.
    assert (Hv : validateStatus (resp_status response) = false).
    { unfold validateStatus. apply andb_false_iff.
      destruct (Z.leb_spec 200 (resp_status response)); [right|left; reflexivity].
      apply Z.ltb_ge. lia. }
    rewrite Hv.
    cbn [fst settle hist_status hist_httpStatusCode hist_errorMessage
         webhookHistoryService.with_triggeredAt].
    assert (Hc : bool_decide (bad_status_code (resp_status response) = Some "ECONNABORTED")
                 = false).
    { apply bool_decide_eq_false. unfold bad_status_code.
      repeat match goal with |- context [if ?b then _ else _] => destruct b end;
        discriminate. }
    rewrite Hc. repeat split; reflexivity.
  - intros after Hge Hans. apply N.ltb_ge in Hge.
    destruct Hans as [[response ->]|[code [message ->]]]; rewrite Hge;
      repeat split; reflexivity.
  - intros after code message -> Hlt.
    apply N.ltb_lt in Hlt. rewrite Hlt.
    cbn [fst settle hist_status hist_httpStatusCode hist_errorMessage
         webhookHistoryService.with_triggeredAt].
    destruct (decide (code = "ECONNABORTED")) as [->|Hcode].
    + repeat split; reflexivity.
    + rewrite (bool_decide_eq_false_2 (code = "ECONNABORTED") Hcode).
      assert (Hc : bool_decide (Some code = Some "ECONNABORTED") = false)
        by (apply bool_decide_eq_false; congruence).
      rewrite Hc. repeat split; reflexivity.
Qed.

Lemma C5_witness :
  hist_status (Attempt.row Fixture.env0 1 "message.received"
                 (ReceivedData (envelope Fixture.message1) Fixture.row1) Fixture.hookB 1000)
  = h_timeout
  /\ hist_status (Attempt.row Fixture.env0 1 "connection.update"
                    (ReceivedData (envelope Fixture.message1) Fixture.row1) Fixture.hookC 1000)
     = h_failed.
Proof.
  split.
  - destruct (C5_attempt_classified Fixture.env0 1 "message.received"
                (ReceivedData (envelope Fixture.message1) Fixture.row1) Fixture.hookB
                Fixture.world0) as (_ & _ & _ & H & _).
    apply (H 6000%N); [discriminate|]. left. exists Fixture.ok200. reflexivity.
  - destruct (C5_attempt_classified Fixture.env0 1 "connection.update"
                (ReceivedData (envelope Fixture.message1) Fixture.row1) Fixture.hookC
                Fixture.world0) as (_ & _ & H & _).
    apply (H 0%N Fixture.err500); [reflexivity|reflexivity|].
    intros [_ H3]. discriminate H3.
Defined.

(** C5 as the specification words it fails: the connection to D is
    aborted after 3 ms, a transport error that is not a timeout; its row
    has the status timeout and not failed, and its message does not name
    a timeout. *)
Lemma C5_counterexample :
  let w' := after (deliver Fixture.env0 1 "message.sent"
                     (ReceivedData (envelope Fixture.message1) Fixture.row1) Fixture.hookD)
              Fixture.world0 in
  Fixture.endpoints (wh_url Fixture.hookD)
    (Attempt.payload 1 "message.sent" (ReceivedData (envelope Fixture.message1) Fixture.row1)
       (now Fixture.world0))
  = Fails 3 "ECONNABORTED" "read ECONNABORTED"
  /\ (fun h => (hist_status h, hist_httpStatusCode h, hist_errorMessage h, hist_responseTime h))
     <$> tbl_history w'
     = [(h_timeout, None, Some "read ECONNABORTED", Some 3%Z)]
  /\ h_timeout <> h_failed.
Proof. vm_compute. repeat split; discriminate. Qed.

(** ** The store of instance rows *)

Lemma findById_set_status rows id s id' :
  Store.findById (set_status id s rows) id'
  = (fun row => if bool_decide (id = id') then with_status s row else row)
    <$> Store.findById rows id'.
Proof.
  unfold Store.findById, set_status.
  induction rows as [|row rows IH]; [reflexivity|].
  cbn [fmap list_fmap List.find].
  set (row' := if id_is id row then with_status s row else row).
  assert (Hrid : id_is id' row' = id_is id' row)
    by (subst row'; unfold id_is; destruct (bool_decide (row_id row = id)); reflexivity).
  rewrite Hrid. destruct (id_is id' row) eqn:Hid'; [|exact IH].
  cbn. subst row'. unfold id_is in *. apply bool_decide_eq_true in Hid'.
  destruct (bool_decide (row_id row = id)) eqn:E1, (bool_decide (id = id')) eqn:E2;
    try reflexivity;
    [apply bool_decide_eq_true in E1; apply bool_decide_eq_false in E2
    |apply bool_decide_eq_false in E1; apply bool_decide_eq_true in E2];
    congruence.
Qed.

Lemma persisted_after_set_status rows id s :
  is_Some (Store.findById rows id) ->
  row_status <$> Store.findById (set_status id s rows) id = Some s.
Proof.
  intros [row Hrow]. rewrite findById_set_status, Hrow.
  rewrite bool_decide_eq_true_2 by reflexivity. reflexivity.
Qed.

Lemma is_Some_findById_set_status rows id s id' :
  is_Some (Store.findById rows id') -> is_Some (Store.findById (set_status id s rows) id').
Proof. intros [row Hrow]. rewrite findById_set_status, Hrow. eexists. reflexivity. Qed.

Lemma updateStatus_run id s w :
  is_Some (Store.findById (tbl_instance w) id) ->
  instanceService.updateStatus id s w = (inr tt, set_tbl_instance (set_status id s) w).
Proof.
  intros [row Hrow]. unfold instanceService.updateStatus.
  erewrite run_bind_inr; [|reflexivity]. rewrite Hrow. reflexivity.
Qed.

Lemma triggerWebhooks_ok E r event data w inst :
  heap w !! r = Some inst ->
  exists w', triggerWebhooks E r event data w = (inr tt, w') /\ same_but_history w w'.
Proof.
  intros Hr. eexists. split; [apply (triggerWebhooks_run _ _ _ _ _ _ Hr)|].
  pose proof (triggerWebhooks_frame E r event data w) as H.
  unfold after in H at 1. rewrite (triggerWebhooks_run _ _ _ _ _ _ Hr) in H. exact H.
Qed.

(** One definitional step of a run, and a step by a lemma. *)
Ltac run_def := erewrite run_bind_inr; [|reflexivity].

Ltac run_updateStatus :=
  erewrite run_bind_inr;
  [|apply updateStatus_run; cbn [tbl_instance set_heap set_tbl_instance set_out set_timers
                                  set_auth_dirs set_instances];
    try assumption; try (apply is_Some_findById_set_status; assumption)].

Ltac lookup_heap :=
  cbn [heap set_heap set_tbl_instance set_out set_timers set_auth_dirs set_instances
       set_tbl_log];
  rewrite ?lookup_alter_eq;
  match goal with H : heap _ !! _ = Some _ |- _ => rewrite H end; reflexivity.

(** The three branches of the close handler. *)

Lemma onClose_reconnects E r u w inst :
  heap w !! r = Some inst ->
  is_Some (Store.findById (tbl_instance w) (row_id (instanceData inst))) ->
  statusCode u <> Some loggedOut ->
  (reconnectAttempts inst < maxReconnectAttempts inst)%nat ->
  (isManualRestart inst = false \/ statusCode u = Some 515%Z) ->
  exists w',
    onClose E r u w = (inr tt, w')
    /\ heap w' = alter (fun i => set_isConnected false (set_connectionStatus cs_reconnecting
                         (set_reconnectAttempts (S (reconnectAttempts inst))
                            (set_isManualRestart false i)))) r (heap w)
    /\ timers w' = (timers w ++ [r])%list
    /\ tbl_instance w' = set_status (row_id (instanceData inst)) st_reconnecting (tbl_instance w)
    /\ instances w' = instances w
    /\ auth_dirs w' = auth_dirs w.
Proof.
  intros Hr Hrow Hcode Hlt Hflag. unfold onClose. cbv zeta.
  rewrite (run_bind_inr _ _ _ _ _ (run_this _ _ _ Hr)).
  assert (Hcond : negb (bool_decide (statusCode u = Some loggedOut))
                  && (reconnectAttempts inst <? maxReconnectAttempts inst)%nat
                  && negb (isManualRestart inst && negb (bool_decide (statusCode u = Some 515%Z)))
                  = true).
  { rewrite bool_decide_eq_false_2 by exact Hcode.
    apply Nat.ltb_lt in Hlt. rewrite Hlt. simpl.
    destruct Hflag as [->| ->]; [reflexivity|].
    rewrite bool_decide_eq_true_2 by reflexivity. rewrite andb_false_r. reflexivity. }
  run_def. rewrite Hcond.
  do 3 run_def. run_updateStatus. run_def.
  match goal with |- context [(triggerWebhooks E r ?ev ?d ≫= _) ?w1] =>
    destruct (triggerWebhooks_ok E r ev d w1 (set_isConnected false (set_connectionStatus cs_reconnecting
                         (set_reconnectAttempts (S (reconnectAttempts inst))
                            (set_isManualRestart false inst)))))
      as (w2 & Hrun & Hframe); [lookup_heap|]
  end.
  rewrite (run_bind_inr _ _ _ _ _ Hrun).
  eexists. split; [reflexivity|].
  destruct Hframe as (Hi & _ & Hh & Ht & _ & _ & _ & _ & Ha & Htm).
  cbn [heap timers tbl_instance instances auth_dirs set_timers].
  rewrite Hh, Htm, Ht, Hi, Ha.
  cbn [heap timers tbl_instance instances auth_dirs set_heap set_tbl_instance].
  rewrite !alter_alter_eq. repeat split; reflexivity.
Qed.

Ltac run_trigger E r :=
  match goal with
  | |- context [(triggerWebhooks E r ?ev ?d ≫= _) ?w1] =>
      let w2 := fresh "w" in
      let Hrun := fresh "Hrun" in
      let Hframe := fresh "Hframe" in
      edestruct (triggerWebhooks_ok E r ev d w1) as (w2 & Hrun & Hframe); [lookup_heap|];
      rewrite (run_bind_inr _ _ _ _ _ Hrun)
  | |- context [triggerWebhooks E r ?ev ?d ?w1] =>
      let w2 := fresh "w" in
      let Hrun := fresh "Hrun" in
      let Hframe := fresh "Hframe" in
      edestruct (triggerWebhooks_ok E r ev d w1) as (w2 & Hrun & Hframe); [lookup_heap|];
      rewrite Hrun
  end.

Lemma onClose_manual_restart E r u w inst :
  heap w !! r = Some inst ->
  is_Some (Store.findById (tbl_instance w) (row_id (instanceData inst))) ->
  isManualRestart inst = true -> statusCode u <> Some 515%Z ->
  exists w',
    onClose E r u w = (inr tt, w')
    /\ heap w' = alter (fun i => set_isConnected false (set_connectionStatus cs_disconnected
                         (set_isManualRestart false i))) r (heap w)
    /\ timers w' = timers w
    /\ tbl_instance w' = set_status (row_id (instanceData inst)) st_inactive (tbl_instance w)
    /\ instances w' = instances w
    /\ auth_dirs w' = auth_dirs w.
Proof.
  intros Hr Hrow Hflag Hcode. unfold onClose. cbv zeta.
  rewrite (run_bind_inr _ _ _ _ _ (run_this _ _ _ Hr)).
  rewrite Hflag. rewrite (bool_decide_eq_false_2 (statusCode u = Some 515%Z)) by exact Hcode.
  rewrite andb_false_r. cbn [negb andb].
  run_def. erewrite run_bind_inr.
  2:{ do 2 run_def. apply updateStatus_run. exact Hrow. }
  run_def. run_trigger E r.
  eexists. split; [reflexivity|].
  destruct Hframe as (Hi & _ & Hh & Ht & _ & _ & _ & _ & Ha & Htm).
  rewrite Hh, Htm, Ht, Hi, Ha.
  cbn [heap timers tbl_instance instances auth_dirs set_heap set_tbl_instance].
  rewrite !alter_alter_eq. repeat split; reflexivity.
Qed.

Lemma disconnect_run E r w inst :
  heap w !! r = Some inst ->
  is_Some (Store.findById (tbl_instance w) (row_id (instanceData inst))) ->
  exists w',
    disconnect E r w = (inr tt, w')
    /\ heap w' = alter (fun i => set_connectionStatus cs_disconnected (set_isConnected false i))
                   r (heap w)
    /\ tbl_instance w' = set_status (row_id (instanceData inst)) st_inactive (tbl_instance w)
    /\ instances w' = instances w /\ auth_dirs w' = auth_dirs w /\ timers w' = timers w
    /\ now w' = now w.
Proof.
  intros Hr Hrow. unfold disconnect.
  rewrite (run_bind_inr _ _ _ _ _ (run_this _ _ _ Hr)).
  destruct (sock inst) as [s|]; [destruct (transport_logout E) as [e|]|].
  all: repeat run_def; erewrite updateStatus_run by exact Hrow;
    eexists; (split; [reflexivity|]);
    cbn [heap timers tbl_instance instances auth_dirs now set_heap set_tbl_instance set_out];
    rewrite !alter_alter_eq; repeat split; reflexivity.
Qed.

(** The directory of the phone itself is among those [rmSync] removes. *)
Lemma rmSync_removes E phone d : phone ∉ rmSync E phone d.
Proof.
  unfold rmSync. intros [Hin _]%elem_of_filter.
  unfold Path.within in Hin. rewrite bool_decide_eq_true_2 in Hin by reflexivity.
  discriminate Hin.
Qed.

Lemma deleteInstance_keep_run E phone w r inst :
  instances w !! phone = Some r ->
  heap w !! r = Some inst ->
  is_Some (Store.findById (tbl_instance w) (row_id (instanceData inst))) ->
  exists w',
    deleteInstance E phone true w = (inr tt, w')
    /\ heap w' = alter (fun i => set_connectionStatus cs_disconnected (set_isConnected false i))
                   r (heap w)
    /\ tbl_instance w' = set_status (row_id (instanceData inst)) st_inactive (tbl_instance w)
    /\ instances w' = delete phone (instances w)
    /\ auth_dirs w' = rmSync E phone (auth_dirs w)
    /\ timers w' = timers w.
Proof.
  intros Hi Hr Hrow. unfold deleteInstance.
  destruct (disconnect_run E r w inst Hr Hrow) as (w1 & Hrun & Hh & Ht & Hin & Ha & Htm & _).
  erewrite run_try_inr.
  2:{ run_def. rewrite Hi. erewrite run_bind_inr.
      2:{ rewrite (run_bind_inr _ _ _ _ _ Hrun). reflexivity. }
      cbn [negb]. run_def. reflexivity. }
  eexists. split; [reflexivity|].
  cbn [heap timers tbl_instance instances auth_dirs set_auth_dirs set_instances].
  rewrite Hh, Ht, Hin, Ha, Htm. repeat split; reflexivity.
Qed.

Lemma onClose_logs_out E r u w inst :
  managed r inst w ->
  (statusCode u = Some loggedOut
   \/ (maxReconnectAttempts inst <= reconnectAttempts inst)%nat) ->
  (isManualRestart inst = false \/ statusCode u = Some 515%Z) ->
  exists w',
    onClose E r u w = (inr tt, w')
    /\ heap w' = alter (fun i => set_isConnected false (set_connectionStatus cs_logged_out
                         (set_connectionStatus cs_disconnected (set_isConnected false
                            (set_isManualRestart false i))))) r (heap w)
    /\ timers w' = timers w
    /\ tbl_instance w' = set_status (row_id (instanceData inst)) st_inactive (tbl_instance w)
    /\ instances w' = delete (row_phone (instanceData inst)) (instances w)
    /\ auth_dirs w' = rmSync E (row_phone (instanceData inst)) (auth_dirs w).
Proof.
  intros (Hr & Hi & Hrow) Hend Hflag. unfold onClose. cbv zeta.
  rewrite (run_bind_inr _ _ _ _ _ (run_this _ _ _ Hr)).
  assert (Hman : isManualRestart inst && negb (bool_decide (statusCode u = Some 515%Z)) = false).
  { destruct Hflag as [->| ->]; [reflexivity|].
    rewrite bool_decide_eq_true_2 by reflexivity. apply andb_false_r. }
  assert (Hcond : negb (bool_decide (statusCode u = Some loggedOut))
                  && (reconnectAttempts inst <? maxReconnectAttempts inst)%nat = false).
  { destruct Hend as [->|Hge].
    - rewrite bool_decide_eq_true_2 by reflexivity. reflexivity.
    - apply Nat.ltb_ge in Hge. rewrite Hge. apply andb_false_r. }
  rewrite Hman, Hcond. cbn [negb andb].
  run_def.
  edestruct (deleteInstance_keep_run E (row_phone (instanceData inst))
               (set_heap (fun h => alter (set_isManualRestart false) r h) w) r)
    as (w1 & Hrun & Hh & Ht & Hin & Ha & Htm).
  { exact Hi. }
  { lookup_heap. }
  { exact Hrow. }
  erewrite run_bind_inr.
  2:{ erewrite run_bind_inr; [|apply run_try_inr; exact Hrun]. run_def. reflexivity. }
  run_def.
  match goal with |- context [triggerWebhooks E r ?ev ?d ?w1] =>
    edestruct (triggerWebhooks_ok E r ev d w1) as (w2 & Hrun2 & Hframe)
  end.
  { cbn [heap set_heap]. rewrite Hh. cbn [heap set_heap].
    rewrite !lookup_alter_eq, Hr. reflexivity. }
  rewrite Hrun2. eexists. split; [reflexivity|].
  destruct Hframe as (Hi2 & _ & Hh2 & Ht2 & _ & _ & _ & _ & Ha2 & Htm2).
  rewrite Hh2, Htm2, Ht2, Hi2, Ha2.
  cbn [heap timers tbl_instance instances auth_dirs set_heap].
  rewrite Hh, Ht, Hin, Ha, Htm.
  cbn [heap timers tbl_instance instances auth_dirs set_heap].
  rewrite !alter_alter_eq. repeat split; reflexivity.
Qed.

(** The handler on a close event: the close branch, then the log line. *)
Lemma onConnectionUpdate_close_eq E r u w :
  close_event u ->
  onConnectionUpdate E r u w
  = (onClose E r u ≫= fun _ =>
       inst ← this r;
       instanceLogService.create
         {| log_instanceId := row_id (instanceData inst); log_level := lvl_info;
            log_message := "Connection status changed: " ++ connection_name (connection u) |}) w.
Proof.
  intros [Hc Hq]. unfold onConnectionUpdate. rewrite Hq, Hc. run_def. reflexivity.
Qed.

Lemma onConnectionUpdate_close E r u w w1 :
  close_event u ->
  onClose E r u w = (inr tt, w1) -> is_Some (heap w1 !! r) ->
  exists w',
    onConnectionUpdate E r u w = (inr tt, w')
    /\ heap w' = heap w1 /\ timers w' = timers w1 /\ tbl_instance w' = tbl_instance w1
    /\ instances w' = instances w1 /\ auth_dirs w' = auth_dirs w1.
Proof.
  intros Hu Hrun [inst1 Hr1]. rewrite (onConnectionUpdate_close_eq _ _ _ _ Hu).
  rewrite (run_bind_inr _ _ _ _ _ Hrun).
  rewrite (run_bind_inr _ _ _ _ _ (run_this _ _ _ Hr1)).
  eexists. split; [reflexivity|]. repeat split; reflexivity.
Qed.

(** The flag is cleared by any close, and a stream reset is handled as if
    it had not been set. *)

Lemma flag_stays_clear_refl r w : flag_stays_clear r w w.
Proof. intros H. exact H. Qed.

Lemma flag_stays_clear_trans r w1 w2 w3 :
  flag_stays_clear r w1 w2 -> flag_stays_clear r w2 w3 -> flag_stays_clear r w1 w3.
Proof. unfold flag_stays_clear. auto. Qed.

Lemma flag_stays_clear_heap r w w' : heap w' = heap w -> flag_stays_clear r w w'.
Proof. intros H. unfold flag_stays_clear, flag_of. rewrite H. auto. Qed.

Lemma flag_stays_clear_alter r r' f w :
  (forall i, isManualRestart (f i) = isManualRestart i) ->
  flag_stays_clear r w (set_heap (fun h => alter f r' h) w).
Proof.
  intros Hf. unfold flag_stays_clear, flag_of. cbn [heap set_heap].
  rewrite lookup_alter. case_decide; [subst r'|auto].
  destruct (heap w !! r) as [i|]; cbn; [rewrite Hf|]; auto.
Qed.

Ltac flag_side :=
  first [ apply flag_stays_clear_heap; reflexivity
        | apply flag_stays_clear_alter; intros ?; reflexivity ].

Ltac flag_auto r :=
  repeat first [ stable_step (flag_stays_clear_refl r) (flag_stays_clear_trans r)
               | flag_side
               | progress stable_unfold ].

Lemma triggerWebhooks_flag E r r' event data :
  stable (flag_stays_clear r) (triggerWebhooks E r' event data).
Proof.
  intros w. apply flag_stays_clear_heap.
  destruct (triggerWebhooks_frame E r' event data w) as (_ & _ & H & _). exact H.
Qed.

Lemma deleteInstance_flag E r phone keep :
  stable (flag_stays_clear r) (deleteInstance E phone keep).
Proof. unfold deleteInstance, disconnect. flag_auto r. Qed.

Lemma onClose_clears_flag E r u w inst :
  heap w !! r = Some inst -> flag_of (after (onClose E r u) w) r = Some false.
Proof.
  intros Hr. unfold after, onClose. cbv zeta.
  rewrite (run_bind_inr _ _ _ _ _ (run_this _ _ _ Hr)). run_def.
  match goal with |- flag_of (?m ?w1).2 r = _ =>
    assert (Hst : stable (flag_stays_clear r) m); [|apply (Hst w1)]
  end.
  - flag_auto r.
    all: try apply triggerWebhooks_flag.
    all: try apply deleteInstance_flag.
  - unfold flag_of. cbn [heap set_heap]. rewrite lookup_alter_eq, Hr. reflexivity.
Qed.

Lemma after_bind_stable {A B} (R : World -> World -> Prop) (m : M A) (k : A -> M B) w :
  (forall w, R w w) -> (forall a, stable R (k a)) -> R (after m w) (after (m ≫= k) w).
Proof.
  intros Hrefl Hk. unfold after. rewrite run_bind.
  destruct (m w) as [[e|a] w1]; [apply Hrefl|apply Hk].
Qed.

Lemma close_event_clears_flag E r u w inst :
  heap w !! r = Some inst -> close_event u ->
  flag_of (after (onConnectionUpdate E r u) w) r = Some false.
Proof.
  intros Hr Hu. unfold after. rewrite (onConnectionUpdate_close_eq _ _ _ _ Hu).
  match goal with |- flag_of ((?m ≫= ?k) w).2 r = _ =>
    apply (after_bind_stable (flag_stays_clear r) m k w (flag_stays_clear_refl r))
  end.
  - intros _. flag_auto r.
  - apply (onClose_clears_flag E r u w inst Hr).
Qed.

Lemma clear_flag_twice r w :
  set_heap (fun h => alter (set_isManualRestart false) r h) (clear_flag r w) = clear_flag r w.
Proof.
  unfold clear_flag, set_heap. cbn. f_equal. rewrite alter_alter_eq. apply alter_ext.
  intros i _. reflexivity.
Qed.

Lemma onClose_stream_reset E r u w inst :
  heap w !! r = Some inst -> statusCode u = Some 515%Z ->
  onClose E r u w = onClose E r u (clear_flag r w).
Proof.
  intros Hr Hcode. unfold onClose. cbv zeta.
  rewrite (run_bind_inr _ _ _ _ _ (run_this _ _ _ Hr)).
  assert (Hr' : heap (clear_flag r w) !! r = Some (set_isManualRestart false inst))
    by (unfold clear_flag; cbn [heap set_heap]; rewrite lookup_alter_eq, Hr; reflexivity).
  rewrite (run_bind_inr _ _ _ _ _ (run_this _ _ _ Hr')).
  rewrite Hcode. rewrite (bool_decide_eq_true_2 (Some 515%Z = Some 515%Z)) by reflexivity.
  rewrite !andb_false_r.
  cbn [negb andb instanceData reconnectAttempts maxReconnectAttempts set_isManualRestart].
  run_def. symmetry. run_def. rewrite clear_flag_twice. reflexivity.
Qed.

Lemma close_event_stream_reset E r u w inst :
  heap w !! r = Some inst -> close_event u -> statusCode u = Some 515%Z ->
  onConnectionUpdate E r u w = onConnectionUpdate E r u (clear_flag r w).
Proof.
  intros Hr Hu Hcode. rewrite !(onConnectionUpdate_close_eq _ _ _ _ Hu).
  rewrite !run_bind. rewrite (onClose_stream_reset E r u w inst Hr Hcode). reflexivity.
Qed.

Lemma close_at_max E r u w inst :
  managed r inst w ->
  lost_connection u ->
  (maxReconnectAttempts inst <= reconnectAttempts inst)%nat ->
  (isManualRestart inst = false \/ statusCode u = Some 515%Z) ->
  exists w',
    onConnectionUpdate E r u w = (inr tt, w')
    /\ status_of w' r = Some cs_logged_out
    /\ attempts_of w' r = Some (reconnectAttempts inst)
    /\ timers w' = timers w
    /\ instances w' !! row_phone (instanceData inst) = None
    /\ (row_phone (instanceData inst) ∉ auth_dirs w')
    /\ persisted_status w' (row_id (instanceData inst)) = Some st_inactive.
Proof.
  intros Hm [Hu Hcode] Hmax Hflag.
  destruct (onClose_logs_out E r u w inst Hm (or_intror Hmax) Hflag)
    as (w1 & Hrun & Hh & Htm & Ht & Hi & Ha).
  destruct Hm as (Hr & _ & Hrow).
  assert (Hr1 : heap w1 !! r
                = Some (set_isConnected false (set_connectionStatus cs_logged_out
                          (set_connectionStatus cs_disconnected (set_isConnected false
                             (set_isManualRestart false inst))))))
    by (rewrite Hh, lookup_alter_eq, Hr; reflexivity).
  destruct (onConnectionUpdate_close E r u w w1 Hu Hrun (ex_intro _ _ Hr1))
    as (w2 & Hrun2 & Hh2 & Htm2 & Ht2 & Hi2 & Ha2).
  exists w2. split; [exact Hrun2|].
  unfold status_of, attempts_of, persisted_status.
  rewrite Hh2, Htm2, Ht2, Hi2, Ha2, Hr1, Htm, Ht, Hi, Ha.
  split; [reflexivity|]. split; [reflexivity|]. split; [reflexivity|].
  split; [apply lookup_delete_eq|].
  split; [apply rmSync_removes|].
  apply persisted_after_set_status; exact Hrow.
Qed.

(** C1, as the code has it.  A close that is not a logout, arriving at a
    managed instance whose reconnect counter has reached the maximum (5 for
    every instance), when no manual restart is pending or the close is a
    stream reset (code 515), sets the instance to logged_out and soft-cleans
    it: the manager drops the object, the credential directory is removed,
    the row stays in the store with status inactive.  No reconnection is
    scheduled and the counter is not incremented: there is no 6th attempt. *)
Theorem C1_close_at_max_logs_out (E : Env) (r : ref) (u : ConnectionUpdate) (w : World)
    (inst : WhatsAppInstance) :
  managed r inst w ->
  lost_connection u ->
  (maxReconnectAttempts inst <= reconnectAttempts inst)%nat ->
  (isManualRestart inst = false \/ statusCode u = Some 515%Z) ->
  let w' := after (onConnectionUpdate E r u) w in
  result (onConnectionUpdate E r u) w = inr tt
  /\ status_of w' r = Some cs_logged_out
  /\ attempts_of w' r = Some (reconnectAttempts inst)
  /\ timers w' = timers w
  /\ instances w' !! row_phone (instanceData inst) = None
  /\ (row_phone (instanceData inst) ∉ auth_dirs w')
  /\ persisted_status w' (row_id (instanceData inst)) = Some st_inactive
  /\ maxReconnectAttempts (new_WhatsAppInstance (instanceData inst)) = 5%nat.
Proof.
  intros Hm Hu Hmax Hflag w'.
  destruct (close_at_max E r u w inst Hm Hu Hmax Hflag)
    as (w2 & Hrun & Hst & Hatt & Htm & Hi & Ha & Hp).
  assert (Hw' : w' = w2) by (unfold w', after; rewrite Hrun; reflexivity).
  split; [unfold result; rewrite Hrun; reflexivity|].
  rewrite Hw'. repeat split; assumption.
Qed.

Lemma C1_witness :
  status_of (after (onConnectionUpdate Fixture.env0 0 (Fixture.close_with (Some 428%Z)))
               (Fixture.world_with Fixture.inst_at_max)) 0 = Some cs_logged_out.
Proof.
  apply (C1_close_at_max_logs_out Fixture.env0 0 (Fixture.close_with (Some 428%Z))
           (Fixture.world_with Fixture.inst_at_max) Fixture.inst_at_max).
  - split; [reflexivity|]. split; [reflexivity|]. eexists. reflexivity.
  - split; [split; reflexivity|]. discriminate.
  - simpl. lia.
  - left. reflexivity.
Defined.

(** C1 as the specification words it fails: a restart was requested for an
    instance waiting for its fifth reconnection, and the transport closes
    with a reason that is neither a logout nor a stream reset; the instance
    becomes disconnected and keeps its credentials. *)
Lemma C1_counterexample :
  let w' := after (onConnectionUpdate Fixture.env0 0 (Fixture.close_with (Some 428%Z)))
              (Fixture.world_with Fixture.inst_restarting) in
  attempts_of (Fixture.world_with Fixture.inst_restarting) 0 = Some 5%nat
  /\ status_of w' 0 = Some cs_disconnected
  /\ status_of w' 0 <> Some cs_logged_out
  /\ bool_decide (Fixture.phone1 ∈ auth_dirs w') = true
  /\ instances w' !! Fixture.phone1 = Some 0%nat.
Proof. vm_compute. repeat split; discriminate. Qed.

(** C3. Every close clears the manual-restart flag, whatever its reason.
    A close with the stream-reset code 515 is handled as if the flag had
    not been set: the handler does the same from the world with the flag
    cleared; with the counter below the maximum (and the row in the store)
    the instance becomes reconnecting, the counter goes up by one and a
    reconnection is scheduled, restart requested or not. *)
Theorem C3_stream_reset_is_transient (E : Env) (r : ref) (u : ConnectionUpdate) (w : World)
    (inst : WhatsAppInstance) :
  heap w !! r = Some inst ->
  close_event u ->
  let w' := after (onConnectionUpdate E r u) w in
  flag_of w' r = Some false
  /\ (statusCode u = Some 515%Z ->
      onConnectionUpdate E r u w = onConnectionUpdate E r u (clear_flag r w)
      /\ (is_Some (Store.findById (tbl_instance w) (row_id (instanceData inst))) ->
          (reconnectAttempts inst < maxReconnectAttempts inst)%nat ->
          result (onConnectionUpdate E r u) w = inr tt
          /\ status_of w' r = Some cs_reconnecting
          /\ attempts_of w' r = Some (S (reconnectAttempts inst))
          /\ timers w' = (timers w ++ [r])%list
          /\ persisted_status w' (row_id (instanceData inst)) = Some st_reconnecting)).
Proof.
  intros Hr Hu w'.
  split; [apply (close_event_clears_flag E r u w inst Hr Hu)|].
  intros Hcode. split; [apply (close_event_stream_reset E r u w inst Hr Hu Hcode)|].
  intros Hrow Hlt.
  assert (Hnot : statusCode u <> Some loggedOut) by (rewrite Hcode; discriminate).
  destruct (onClose_reconnects E r u w inst Hr Hrow Hnot Hlt (or_intror Hcode))
    as (w1 & Hrun & Hh & Htm & Ht & Hi & Ha).
  assert (Hr1 : heap w1 !! r
                = Some (set_isConnected false (set_connectionStatus cs_reconnecting
                          (set_reconnectAttempts (S (reconnectAttempts inst))
                             (set_isManualRestart false inst)))))
    by (rewrite Hh, lookup_alter_eq, Hr; reflexivity).
  destruct (onConnectionUpdate_close E r u w w1 Hu Hrun (ex_intro _ _ Hr1))
    as (w2 & Hrun2 & Hh2 & Htm2 & Ht2 & Hi2 & Ha2).
  assert (Hw' : w' = w2) by (unfold w', after; rewrite Hrun2; reflexivity).
  split; [unfold result; rewrite Hrun2; reflexivity|].
  rewrite Hw'. unfold status_of, attempts_of, persisted_status.
  rewrite Hh2, Htm2, Ht2, Hr1, Htm, Ht.
  split; [reflexivity|]. split; [reflexivity|]. split; [reflexivity|].
  apply persisted_after_set_status; exact Hrow.
Qed.

Lemma C3_witness :
  flag_of (after (onConnectionUpdate Fixture.env0 0 (Fixture.close_with (Some 515%Z)))
             (Fixture.world_with (set_isManualRestart true Fixture.inst1))) 0 = Some false
  /\ status_of (after (onConnectionUpdate Fixture.env0 0 (Fixture.close_with (Some 515%Z)))
                  (Fixture.world_with (set_isManualRestart true Fixture.inst1))) 0
     = Some cs_reconnecting.
Proof.
  destruct (C3_stream_reset_is_transient Fixture.env0 0 (Fixture.close_with (Some 515%Z))
              (Fixture.world_with (set_isManualRestart true Fixture.inst1))
              (set_isManualRestart true Fixture.inst1) eq_refl (conj eq_refl eq_refl))
    as [Hflag H515].
  split; [exact Hflag|].
  destruct (H515 eq_refl) as [_ Hre].
  destruct Hre as (_ & Hst & _).
  - eexists. reflexivity.
  - simpl. lia.
  - exact Hst.
Defined.

(** ** Starting an instance *)

Lemma set_status_twice id s1 s2 rows :
  set_status id s2 (set_status id s1 rows) = set_status id s2 rows.
Proof.
  unfold set_status. rewrite <- list_fmap_compose. apply list_fmap_ext.
  intros _ row _. unfold compose, id_is.
  destruct (bool_decide (row_id row = id)) eqn:Hid; cbn [with_status row_id]; rewrite Hid;
    reflexivity.
Qed.

Lemma load_files_run r files w inst :
  heap w !! r = Some inst ->
  exists w' pm',
    for_each files (fun file =>
      inst ← this r;
      let loaded := load_file (pm_phone (pluginManager inst)) (pluginManager inst) file in
      assign r (set_pluginManager loaded.1);;
      for_each loaded.2 emit) w = (inr tt, w')
    /\ heap w' = alter (set_pluginManager pm') r (heap w)
    /\ instancePluginConfig pm' = instancePluginConfig (pluginManager inst)
    /\ instances w' = instances w /\ tbl_instance w' = tbl_instance w
    /\ auth_dirs w' = auth_dirs w /\ timers w' = timers w.
Proof.
  revert w inst. induction files as [|file files IH]; intros w inst Hr.
  - exists w, (pluginManager inst). split; [reflexivity|].
    split; [|repeat split; reflexivity].
    symmetry. apply alter_id. intros x Hx. rewrite Hr in Hx. injection Hx as <-.
    destruct inst. reflexivity.
  - cbn [for_each].
    set (loaded := load_file (pm_phone (pluginManager inst)) (pluginManager inst) file).
    set (w1 := set_out (fun o => (o ++ ((fun e => e) <$> loaded.2))%list)
                 (set_heap (fun h => alter (set_pluginManager loaded.1) r h) w)).
    assert (Hr1 : heap w1 !! r = Some (set_pluginManager loaded.1 inst))
      by (subst w1; cbn [heap set_out set_heap]; rewrite lookup_alter_eq, Hr; reflexivity).
    destruct (IH w1 _ Hr1) as (w' & pm' & Hrun & Hh & Hcfg & Hi & Ht & Ha & Htm).
    exists w', pm'. split.
    + erewrite run_bind_inr; [exact Hrun|].
      rewrite (run_bind_inr _ _ _ _ _ (run_this _ _ _ Hr)). cbv zeta. fold loaded.
      run_def. rewrite (for_each_emit (fun e => e)). reflexivity.
    + rewrite Hh, Hcfg, Hi, Ht, Ha, Htm. subst w1.
      cbn [heap set_out set_heap instances tbl_instance auth_dirs timers].
      rewrite alter_alter_eq.
      split; [apply alter_ext; intros x _; reflexivity|].
      split; [|repeat split; reflexivity].
      subst loaded. destruct file as [name [err|err|cfg]]; reflexivity.
Qed.

Lemma same_session_refl i : same_session i i.
Proof. repeat split. Qed.

Lemma initialize_run E r w inst :
  heap w !! r = Some inst ->
  is_Some (Store.findById (tbl_instance w) (row_id (instanceData inst))) ->
  exists w' F s,
    initialize E r w = (inr tt, w')
    /\ heap w' = alter F r (heap w)
    /\ (forall i, same_session i (F i))
    /\ tbl_instance w' = set_status (row_id (instanceData inst)) s (tbl_instance w)
    /\ instances w' = instances w /\ timers w' = timers w
    /\ auth_dirs w' = {[authDir inst]} ∪ auth_dirs w
    /\ (transport_start E (row_phone (instanceData inst)) = None ->
        s = st_connecting /\ forall i, sock (F i) <> None).
Proof.
  intros Hr Hrow. unfold initialize. cbv zeta.
  rewrite (run_bind_inr _ _ _ _ _ (run_this _ _ _ Hr)).
  set (w1 := set_auth_dirs (fun d => {[authDir inst]} ∪ d)
               (set_tbl_instance (set_status (row_id (instanceData inst)) st_connecting) w)).
  assert (Hr1 : heap w1 !! r = Some inst) by exact Hr.
  destruct (load_files_run r (plugin_files E) w1 inst Hr1)
    as (w2 & pm' & Hrun & Hh & _ & Hi & Ht & Ha & Htm).
  destruct (transport_start E (row_phone (instanceData inst))) as [err|] eqn:Hstart.
  - erewrite run_try_inl.
    2:{ erewrite run_bind_inr; [|apply updateStatus_run; exact Hrow].
        run_def. unfold loadPlugins. fold w1. rewrite (run_bind_inr _ _ _ _ _ Hrun).
        reflexivity. }
    do 3 run_def.
    erewrite updateStatus_run.
    2:{ cbn [tbl_instance set_heap set_tbl_log set_out]. rewrite Ht. subst w1.
        cbn [tbl_instance set_auth_dirs set_tbl_instance].
        apply is_Some_findById_set_status. exact Hrow. }
    eexists _, (fun i => set_connectionStatus cs_error (set_pluginManager pm' i)),
      st_error.
    split; [reflexivity|].
    cbn [heap tbl_instance instances timers auth_dirs set_tbl_instance set_heap set_tbl_log
         set_out].
    rewrite Hh, Ht, Hi, Htm, Ha. subst w1.
    cbn [heap tbl_instance instances timers auth_dirs set_auth_dirs set_tbl_instance].
    rewrite alter_alter_eq, set_status_twice.
    split; [reflexivity|]. split; [intros i; repeat split|].
    split; [reflexivity|]. split; [reflexivity|]. split; [reflexivity|].
    split; [reflexivity|]. discriminate.
  - erewrite run_try_inr.
    2:{ erewrite run_bind_inr; [|apply updateStatus_run; exact Hrow].
        run_def. unfold loadPlugins. fold w1. rewrite (run_bind_inr _ _ _ _ _ Hrun).
        do 2 run_def. reflexivity. }
    eexists _, (fun i => set_sock (Some {| user_id := transport_user E (row_phone (instanceData inst)) |})
                           (set_pluginManager pm' i)), st_connecting.
    split; [reflexivity|].
    cbn [heap tbl_instance instances timers auth_dirs set_tbl_instance set_heap set_tbl_log
         set_out].
    rewrite Hh, Ht, Hi, Htm, Ha. subst w1.
    cbn [heap tbl_instance instances timers auth_dirs set_auth_dirs set_tbl_instance].
    rewrite alter_alter_eq.
    split; [reflexivity|]. split; [intros i; repeat split|].
    split; [reflexivity|]. split; [reflexivity|]. split; [reflexivity|].
    split; [reflexivity|]. intros _. split; [reflexivity|]. intros i. discriminate.
Qed.

(** ** Reconnection *)

Lemma onOpen_run E r w inst :
  heap w !! r = Some inst ->
  is_Some (Store.findById (tbl_instance w) (row_id (instanceData inst))) ->
  exists w',
    onOpen E r w = (inr tt, w')
    /\ heap w' = alter (fun i => set_reconnectAttempts 0 (set_qrCode None (set_isConnected true
                         (set_connectionStatus cs_connected i)))) r (heap w)
    /\ tbl_instance w' = set_status (row_id (instanceData inst)) st_active (tbl_instance w)
    /\ instances w' = instances w /\ timers w' = timers w /\ auth_dirs w' = auth_dirs w.
Proof.
  intros Hr Hrow. unfold onOpen.
  rewrite (run_bind_inr _ _ _ _ _ (run_this _ _ _ Hr)).
  do 4 run_def. run_updateStatus. run_def. run_trigger E r.
  eexists. split; [reflexivity|].
  destruct Hframe as (Hi & _ & Hh & Ht & _ & _ & _ & _ & Ha & Htm).
  rewrite Hh, Htm, Ht, Hi, Ha.
  cbn [heap timers tbl_instance instances auth_dirs set_heap set_tbl_instance].
  rewrite !alter_alter_eq. repeat split; reflexivity.
Qed.

Lemma open_resets_counter E r u w inst :
  heap w !! r = Some inst ->
  is_Some (Store.findById (tbl_instance w) (row_id (instanceData inst))) ->
  connection u = Some conn_open -> qr u = None ->
  result (onConnectionUpdate E r u) w = inr tt
  /\ attempts_of (after (onConnectionUpdate E r u) w) r = Some 0%nat
  /\ status_of (after (onConnectionUpdate E r u) w) r = Some cs_connected.
Proof.
  intros Hr Hrow Hc Hq.
  destruct (onOpen_run E r w inst Hr Hrow) as (w1 & Hrun & Hh & _).
  assert (Hr1 : heap w1 !! r
                = Some (set_reconnectAttempts 0 (set_qrCode None (set_isConnected true
                          (set_connectionStatus cs_connected inst)))))
    by (rewrite Hh, lookup_alter_eq, Hr; reflexivity).
  assert (Hrun' : onConnectionUpdate E r u w
                  = (inr tt, set_tbl_log (fun t => (t ++ [{| log_instanceId := row_id (instanceData inst);
                                                            log_level := lvl_info;
                                                            log_message := "Connection status changed: open" |}])%list) w1)).
  { unfold onConnectionUpdate. rewrite Hq, Hc. run_def.
    rewrite (run_bind_inr _ _ _ _ _ Hrun).
    rewrite (run_bind_inr _ _ _ _ _ (run_this _ _ _ Hr1)). reflexivity. }
  unfold result, after, attempts_of, status_of. rewrite Hrun'.
  cbn [fst snd heap set_tbl_log]. rewrite Hr1. repeat split; reflexivity.
Qed.

Lemma fire_timer_run E r rest w inst :
  timers w = r :: rest ->
  heap w !! r = Some inst ->
  is_Some (Store.findById (tbl_instance w) (row_id (instanceData inst))) ->
  exists w' F s,
    fire_timer E w = (inr tt, w')
    /\ heap w' = alter F r (heap w)
    /\ (forall i, same_session i (F i))
    /\ tbl_instance w' = set_status (row_id (instanceData inst)) s (tbl_instance w)
    /\ instances w' = instances w /\ timers w' = rest
    /\ auth_dirs w' = {[authDir inst]} ∪ auth_dirs w.
Proof.
  intros Htm Hr Hrow. unfold fire_timer. run_def. rewrite Htm. run_def.
  destruct (initialize_run E r (set_timers (fun _ => rest) w) inst Hr Hrow)
    as (w' & F & s & Hrun & Hh & HF & Ht & Hi & Htm' & Ha & _).
  exists w', F, s. split; [exact Hrun|]. repeat split; try assumption; apply HF.
Qed.

(** A failed attempt below the maximum: the close schedules the
    reconnection, the timer starts it, and the counter has gone up. *)
Lemma failed_attempt_counts E r row u k w :
  waiting k r row w -> (k < 5)%nat -> lost_connection u ->
  exists w', run E r (failed_attempt u) w = (inr tt, w') /\ waiting (S k) r row w'.
Proof.
  intros (inst & (Hr & Hi & Hrow) & Hdata & Hdir & Hk & Hmax & Hflag & Htm) Hlt [Hu Hcode].
  destruct (onClose_reconnects E r u w inst Hr Hrow Hcode) as
    (w1 & Hrun1 & Hh1 & Htm1 & Ht1 & Hi1 & Ha1); [lia|left; exact Hflag|].
  set (inst1 := set_isConnected false (set_connectionStatus cs_reconnecting
                  (set_reconnectAttempts (S (reconnectAttempts inst))
                     (set_isManualRestart false inst)))).
  assert (Hr1 : heap w1 !! r = Some inst1)
    by (rewrite Hh1, lookup_alter_eq, Hr; reflexivity).
  destruct (onConnectionUpdate_close E r u w w1 Hu Hrun1 (ex_intro _ _ Hr1))
    as (w2 & Hrun2 & Hh2 & Htm2 & Ht2 & Hi2 & Ha2).
  assert (Hr2 : heap w2 !! r = Some inst1) by (rewrite Hh2; exact Hr1).
  assert (Hrow2 : is_Some (Store.findById (tbl_instance w2) (row_id (instanceData inst1)))).
  { rewrite Ht2, Ht1. apply is_Some_findById_set_status. exact Hrow. }
  destruct (fire_timer_run E r [] w2 inst1) as (w3 & F & s & Hrun3 & Hh3 & HF & Ht3 & Hi3 & Htm3 & _);
    [rewrite Htm2, Htm1, Htm; reflexivity|exact Hr2|exact Hrow2|].
  exists w3. split.
  - unfold run, failed_attempt. cbn [for_each step].
    rewrite (run_bind_inr _ _ _ _ _ Hrun2). rewrite (run_bind_inr _ _ _ _ _ Hrun3). reflexivity.
  - destruct (HF inst1) as (Hd & Hdir' & Hatt & Hmx & Hfl).
    exists (F inst1). split; [split; [|split]|].
    + rewrite Hh3, lookup_alter_eq, Hr2. reflexivity.
    + rewrite Hd, Hi3, Hi2, Hi1. exact Hi.
    + rewrite Hd, Ht3. apply is_Some_findById_set_status. exact Hrow2.
    + rewrite Hd, Hdir', Hatt, Hmx, Hfl. subst inst1. cbn. rewrite Hk.
      repeat split; try assumption.
Qed.

Lemma for_each_app_run {A} (l1 l2 : list A) body w w1 :
  for_each l1 body w = (inr tt, w1) ->
  for_each (l1 ++ l2) body w = for_each l2 body w1.
Proof.
  revert w. induction l1 as [|x l1 IH]; intros w Hrun.
  - injection Hrun as <-. reflexivity.
  - cbn [for_each app] in *. rewrite run_bind in *.
    destruct (body x w) as [[e|[]] w']; [discriminate|]. apply IH. exact Hrun.
Qed.

Lemma failed_attempts_count E r row closes k w :
  waiting k r row w -> (k + List.length closes <= 5)%nat -> Forall lost_connection closes ->
  exists w', run E r (List.concat (failed_attempt <$> closes)) w = (inr tt, w')
             /\ waiting (k + List.length closes) r row w'.
Proof.
  revert k w. induction closes as [|u closes IH]; intros k w Hw Hlen Hall.
  - exists w. split; [reflexivity|]. cbn. rewrite Nat.add_0_r. exact Hw.
  - cbn [List.length] in *. apply Forall_cons in Hall as [Hu Hall].
    destruct (failed_attempt_counts E r row u k w Hw) as (w1 & Hrun1 & Hw1); [lia|exact Hu|].
    destruct (IH (S k) w1 Hw1) as (w2 & Hrun2 & Hw2); [lia|exact Hall|].
    exists w2. split.
    + cbn [fmap list_fmap List.concat]. unfold run in *.
      rewrite (for_each_app_run _ _ _ _ _ Hrun1). exact Hrun2.
    + replace (k + S (List.length closes))%nat with (S k + List.length closes)%nat by lia.
      exact Hw2.
Qed.

(** C2, as the code has it.  An open resets the reconnect counter to 0, so
    it is consecutive closes that count.  For a managed instance with its
    counter at 0 and no restart requested, whose connection attempts are
    each closed with a non-logout reason before they open: five closes are
    each followed by the scheduled reconnection, and the sixth close sets
    the status to logged_out, removes the credential directory, drops the
    instance from the manager and leaves the persisted row with status
    inactive. *)
Theorem C2_consecutive_closes_log_out (E : Env) (r : ref) (row : InstanceRow) (w : World)
    (closes : list ConnectionUpdate) (last : ConnectionUpdate) :
  waiting 0 r row w ->
  List.length closes = 5%nat -> Forall lost_connection closes -> lost_connection last ->
  let steps := (List.concat (failed_attempt <$> closes) ++ [Emits last])%list in
  let w' := after (run E r steps) w in
  result (run E r steps) w = inr tt
  /\ status_of w' r = Some cs_logged_out
  /\ (row_phone row ∉ auth_dirs w')
  /\ persisted_status w' (row_id row) = Some st_inactive
  /\ instances w' !! row_phone row = None
  /\ (forall w0 inst0 u,
        managed r inst0 w0 -> connection u = Some conn_open -> qr u = None ->
        attempts_of (after (onConnectionUpdate E r u) w0) r = Some 0%nat).
Proof.
  intros Hw Hlen Hall Hlast steps w'.
  destruct (failed_attempts_count E r row closes 0 w Hw) as (w5 & Hrun5 & Hw5);
    [rewrite Hlen; cbn; lia|exact Hall|].
  rewrite Hlen in Hw5. cbn [Nat.add] in Hw5.
  destruct Hw5 as (inst & Hm & Hdata & Hdir & Hk & Hmax & Hflag & Htm).
  destruct (close_at_max E r last w5 inst Hm Hlast) as
    (w6 & Hrun6 & Hst & _ & _ & Hi & Ha & Hp); [lia|left; exact Hflag|].
  assert (Hrun : run E r steps w = (inr tt, w6)).
  { unfold steps, run in *. rewrite (for_each_app_run _ _ _ _ _ Hrun5).
    cbn [for_each step]. rewrite (run_bind_inr _ _ _ _ _ Hrun6). reflexivity. }
  assert (Hw' : w' = w6) by (unfold w', after; rewrite Hrun; reflexivity).
  split; [unfold result; rewrite Hrun; reflexivity|].
  rewrite Hw'. rewrite Hdata in *.
  split; [exact Hst|]. split; [exact Ha|]. split; [exact Hp|]. split; [exact Hi|].
  intros w0 inst0 u (Hr0 & _ & Hrow0) Hc Hq.
  apply (open_resets_counter E r u w0 inst0 Hr0 Hrow0 Hc Hq).
Qed.

Lemma C2_witness :
  status_of (after (run Fixture.env0 0
                      (List.concat (failed_attempt
                                      <$> replicate 5 (Fixture.close_with (Some 428%Z)))
                       ++ [Emits (Fixture.close_with (Some 428%Z))])%list)
               Fixture.world0) 0 = Some cs_logged_out.
Proof.
  assert (Hlost : lost_connection (Fixture.close_with (Some 428%Z)))
    by (split; [split; reflexivity|discriminate]).
  apply (C2_consecutive_closes_log_out Fixture.env0 0 Fixture.row1 Fixture.world0
           (replicate 5 (Fixture.close_with (Some 428%Z))) (Fixture.close_with (Some 428%Z))).
  - exists Fixture.inst1. split; [|repeat split; reflexivity].
    split; [reflexivity|]. split; [reflexivity|]. eexists. reflexivity.
  - reflexivity.
  - repeat constructor; try discriminate.
  - exact Hlost.
Defined.

(** C2 as the specification words it fails: after five cycles of an open
    followed at once by a non-logout close, the instance is reconnecting
    for the first time, its credentials are on disk and its row is not
    inactive. *)
Lemma C2_counterexample :
  let steps := List.concat (replicate 5 (open_close_cycle (Fixture.close_with (Some 428%Z)))) in
  let w' := after (run Fixture.env0 0 steps) Fixture.world0 in
  status_of w' 0 = Some cs_reconnecting
  /\ status_of w' 0 <> Some cs_logged_out
  /\ attempts_of w' 0 = Some 1%nat
  /\ bool_decide (Fixture.phone1 ∈ auth_dirs w') = true
  /\ persisted_status w' 1 = Some st_connecting.
Proof. vm_compute. repeat split; discriminate. Qed.

(** ** The inbound pipeline *)

Lemma same_subscriptions_refl w : same_subscriptions w w.
Proof. split; reflexivity. Qed.

Lemma same_subscriptions_trans w1 w2 w3 :
  same_subscriptions w1 w2 -> same_subscriptions w2 w3 -> same_subscriptions w1 w3.
Proof. intros [H1 H2] [H3 H4]. split; congruence. Qed.

Lemma same_messages_refl w : same_messages w w.
Proof. reflexivity. Qed.

Lemma same_messages_trans w1 w2 w3 :
  same_messages w1 w2 -> same_messages w2 w3 -> same_messages w1 w3.
Proof. unfold same_messages. congruence. Qed.

Ltac subs_auto :=
  repeat first [ stable_step same_subscriptions_refl same_subscriptions_trans
               | solve [split; reflexivity]
               | progress stable_unfold ].

Ltac msgs_auto :=
  repeat first [ stable_step same_messages_refl same_messages_trans
               | reflexivity
               | progress stable_unfold ].

Lemma http_posts_quiet l : Forall no_post l -> http_posts l = [].
Proof.
  induction 1 as [|e l He _ IH]; [reflexivity|].
  destruct e; simpl in He; try contradiction; exact IH.
Qed.

Lemma plugin_calls_quiet l : Forall no_plugin_call l -> plugin_calls l = [].
Proof.
  induction 1 as [|e l He _ IH]; [reflexivity|].
  destruct e; simpl in He; try contradiction; exact IH.
Qed.

Lemma extractTimestamp_run ts w :
  exists res l, extractTimestamp ts w = (res, set_out (fun o => (o ++ l)%list) w)
                /\ Forall quiet l
                /\ ((forall error, ts <> TsOther (inl error)) -> exists t, res = inr t).
Proof.
  assert (Hw : set_out (fun o => (o ++ [])%list) w = w).
  { destruct w. unfold set_out. cbn. rewrite app_nil_r. reflexivity. }
  destruct ts as [n|low high [n|]|[error|text]]; cbn.
  1-3: eexists _, []; rewrite Hw; split; [reflexivity|]; split; [constructor|];
    intros _; eexists; reflexivity.
  - eexists _, []. rewrite Hw. split; [reflexivity|]. split; [constructor|].
    intros H. destruct (H error eq_refl).
  - eexists _, [_]. split; [reflexivity|]. split; [repeat constructor|].
    intros _. eexists. reflexivity.
Qed.

Lemma safeSerialize_run E obj w :
  exists j l, safeSerialize E obj w = (inr j, set_out (fun o => (o ++ l)%list) w)
              /\ Forall quiet l.
Proof.
  rewrite run_safeSerialize. destruct (Js.parse_stringify obj) as [e|j].
  - eexists _, [_]. split; [reflexivity|]. repeat constructor.
  - exists j, []. split; [|constructor].
    destruct w. unfold set_out. cbn. rewrite app_nil_r. reflexivity.
Qed.

Lemma set_out_app l1 l2 w :
  set_out (fun o => (o ++ l2)%list) (set_out (fun o => (o ++ l1)%list) w)
  = set_out (fun o => (o ++ (l1 ++ l2))%list) w.
Proof. destruct w. unfold set_out. cbn. rewrite app_assoc. reflexivity. Qed.

(** Storing a message never throws, touches neither the instances nor the
    subscriptions, and logs the refusal of the store. *)
Lemma storeMessage_run E r message w inst :
  heap w !! r = Some inst ->
  exists w1 l,
    storeMessage E r message w = (inr tt, w1)
    /\ same_subscriptions w w1
    /\ out w1 = (out w ++ l)%list /\ Forall quiet l
    /\ (forall e, (forall d, reject_message E d = Some e) ->
          tbl_message w1 = tbl_message w
          /\ (sock inst <> None ->
              (forall error, messageTimestamp message <> TsOther (inl error)) ->
              store_error_line inst e ∈ log_errors l))
    /\ ((forall d, reject_message E d = None) -> sock inst <> None ->
        (forall error, messageTimestamp message <> TsOther (inl error)) ->
          exists d, tbl_message w1 = (tbl_message w ++ [d])%list
                    /\ msg_direction d = incoming /\ msg_status d = msg_received
                    /\ msg_from d = key_remoteJid message
                    /\ msg_instanceId d = row_id (instanceData inst)).
Proof.
  intros Hr. unfold storeMessage.
  rewrite (run_bind_inr _ _ _ _ _ (run_this _ _ _ Hr)). cbv zeta.
  destruct (safeSerialize_run E (envelope message) w) as (raw & l0 & Hraw & Hq0).
  set (w0 := set_out (fun o => (o ++ l0)%list) w) in *.
  unfold try_catch. rewrite (run_bind_inr _ _ _ _ _ Hraw).
  destruct (sock inst) as [s|] eqn:Hs.
  - destruct (extractTimestamp_run (messageTimestamp message) w0)
      as (res1 & l1 & Ht1 & Hq1 & Hok1).
    destruct (extractTimestamp_run (messageTimestamp message)
                (set_out (fun o => (o ++ l1)%list) w0)) as (res2 & l2 & Ht2 & Hq2 & Hok2).
    do 1 run_def.
    destruct res1 as [err1|t1].
    { rewrite (run_bind_inl _ _ _ _ _ Ht1).
      eexists _, (l0 ++ l1 ++ [_])%list.
      split; [reflexivity|]. split; [split; reflexivity|].
      split; [subst w0; cbn; rewrite <- !app_assoc; reflexivity|].
      split; [repeat (apply Forall_app; split); try assumption; repeat constructor|].
      split.
      - intros e _. split; [reflexivity|]. intros _ Hts.
        destruct (Hok1 Hts) as [t Ht]. discriminate Ht.
      - intros _ _ Hts. destruct (Hok1 Hts) as [t Ht]. discriminate Ht. }
    rewrite (run_bind_inr _ _ _ _ _ Ht1).
    destruct res2 as [err2|t2].
    { rewrite (run_bind_inl _ _ _ _ _ Ht2).
      eexists _, (l0 ++ l1 ++ l2 ++ [_])%list.
      split; [reflexivity|]. split; [split; reflexivity|].
      split; [subst w0; cbn; rewrite <- !app_assoc; reflexivity|].
      split; [repeat (apply Forall_app; split); try assumption; repeat constructor|].
      split.
      - intros e _. split; [reflexivity|]. intros _ Hts.
        destruct (Hok2 Hts) as [t Ht]. discriminate Ht.
      - intros _ _ Hts. destruct (Hok2 Hts) as [t Ht]. discriminate Ht. }
    rewrite (run_bind_inr _ _ _ _ _ Ht2).
    match goal with |- context [messageService.create E ?d] => set (data := d) end.
    unfold messageService.create.
    destruct (reject_message E data) as [e|] eqn:Hrej.
    + eexists _, (l0 ++ l1 ++ l2 ++ [LogError (store_error_line inst e)])%list.
      split; [reflexivity|]. split; [split; reflexivity|].
      split; [subst w0; cbn; rewrite <- !app_assoc; reflexivity|].
      split; [repeat (apply Forall_app; split); try assumption; repeat constructor|].
      split.
      * intros e' Hall. rewrite Hall in Hrej. injection Hrej as ->.
        split; [reflexivity|]. intros _ _.
        rewrite !log_errors_app. rewrite !elem_of_app. right. right. right.
        cbn. apply list_elem_of_singleton. reflexivity.
      * intros Hall _. rewrite Hall in Hrej. discriminate.
    + eexists _, (l0 ++ l1 ++ l2)%list.
      split; [reflexivity|]. split; [split; reflexivity|].
      split; [subst w0; cbn; rewrite <- !app_assoc; reflexivity|].
      split; [repeat (apply Forall_app; split); assumption|].
      split.
      * intros e' Hall. rewrite Hall in Hrej. discriminate.
      * intros _ _ _. exists data. repeat split; reflexivity.
  - eexists _, (l0 ++ [_])%list. split; [reflexivity|]. split; [split; reflexivity|].
    split; [subst w0; cbn; rewrite <- !app_assoc; reflexivity|].
    split; [apply Forall_app; split; [assumption|repeat constructor]|].
    split; [intros e _; split; [reflexivity|congruence]|intros; congruence].
Qed.

Lemma for_each_ext {A} (l : list A) body1 body2 :
  (forall x, body1 x = body2 x) -> for_each l body1 = for_each l body2.
Proof.
  intros H. induction l as [|x l IH]; [reflexivity|]. cbn [for_each]. rewrite H, IH. reflexivity.
Qed.

Lemma for_each_emit_some {A} (f : A -> option Effect) l w :
  for_each l (fun c => match f c with Some e => emit e | None => mret tt end) w
  = (inr tt, set_out (fun o => (o ++ omap f l)%list) w).
Proof.
  revert w. induction l as [|x l IH]; intros w.
  - destruct w. unfold set_out. cbn. rewrite app_nil_r. reflexivity.
  - cbn [for_each omap list_omap]. destruct (f x) as [e|].
    + rewrite (run_bind_inr _ _ _ tt (set_out (fun o => (o ++ [e])%list) w)); [|reflexivity].
      rewrite IH, set_out_app. reflexivity.
    + rewrite (run_bind_inr _ _ _ tt w); [|reflexivity]. apply IH.
Qed.

(** A run of the chain, in full: the calls made, the lines of the
    promises that rejected, the error thrown. *)
Lemma executePlugins_full E r message w inst :
  heap w !! r = Some inst ->
  let pm := pluginManager inst in
  exists l,
    executePlugins E r message w
    = (from_option inl (inr tt) (chain_error E pm message),
       set_out (fun o => (o ++ l)%list) w)
    /\ plugin_calls l = chain_calls E pm message
    /\ Forall no_post l
    /\ (forall c e, c ∈ chain_calls E pm message ->
          plugin_outcome E c.1 c.2 = Rejects e ->
          plugin_error_line pm c.1 e ∈ log_errors l).
Proof.
  intros Hr pm. unfold executePlugins.
  rewrite (run_bind_inr _ _ _ _ _ (run_this _ _ _ Hr)). cbv zeta. fold pm.
  unfold chain_error, chain_calls, chain.
  set (loop := call_plugins E ((fun n => (n, props_for pm n message)) <$> invoked pm)).
  set (line := fun c : string * Props =>
                 match plugin_outcome E c.1 c.2 with
                 | Rejects e => Some (LogError (plugin_error_line pm c.1 e))
                 | _ => None
                 end).
  rewrite (run_bind_inr _ _ _ _ _ (for_each_emit (fun c => PluginCall c.1 c.2) loop.1 w)).
  rewrite (for_each_ext loop.1 _
             (fun c => match line c with Some e => emit e | None => mret tt end)).
  2:{ intros c. subst line. cbn. destruct (plugin_outcome E c.1 c.2); reflexivity. }
  rewrite (run_bind_inr _ _ _ _ _ (for_each_emit_some line loop.1 _)), set_out_app.
  assert (Hlogs : Forall is_log (omap line loop.1)).
  { apply Forall_forall. intros e He.
    apply list_elem_of_omap in He as (c & _ & Hc). subst line. cbn in Hc.
    destruct (plugin_outcome E c.1 c.2); try discriminate. injection Hc as <-. exact I. }
  exists (((fun c => PluginCall c.1 c.2) <$> loop.1) ++ omap line loop.1)%list.
  split; [|split; [|split]].
  - destruct loop.2 as [error|]; [reflexivity|].
    destruct (all_rejects E loop.1); reflexivity.
  - rewrite plugin_calls_app, plugin_calls_calls, (plugin_calls_logs _ Hlogs). apply app_nil_r.
  - apply Forall_app. split.
    + apply Forall_forall. intros e He. apply list_elem_of_fmap in He as (c & -> & _).
      exact I.
    + eapply Forall_impl; [exact Hlogs|]. intros [] H; try exact I; contradiction.
  - intros c e Hc Hrej. rewrite log_errors_app, elem_of_app. right.
    unfold log_errors. apply list_elem_of_omap.
    exists (LogError (plugin_error_line pm c.1 e)). split; [|reflexivity].
    apply list_elem_of_omap. exists c. split; [exact Hc|].
    subst line. cbn. rewrite Hrej. reflexivity.
Qed.

Lemma triggerWebhooks_posts E r event data w inst :
  heap w !! r = Some inst ->
  exists w' l,
    triggerWebhooks E r event data w = (inr tt, w')
    /\ same_but_history w w'
    /\ out w' = (out w ++ l)%list
    /\ http_posts l
       = wh_url <$> Store.getEnabledWebhooks (tbl_webhook w) (row_id (instanceData inst)) event
    /\ Forall no_plugin_call l.
Proof.
  intros Hr. destruct (triggerWebhooks_ok E r event data w inst Hr) as (w' & Hrun & Hframe).
  pose proof (triggerWebhooks_run E r event data w inst Hr) as Hrun'.
  rewrite Hrun in Hrun'. injection Hrun' as Hw'.
  destruct (for_each_deliver_run E (row_id (instanceData inst)) event data
              (Store.getEnabledWebhooks (tbl_webhook w) (row_id (instanceData inst)) event) w)
    as (_ & l & Hout & Hposts & _).
  rewrite <- Hw' in Hout.
  destruct (triggerWebhooks_extends no_plugin_call E r event data
              (fun _ _ => I) (fun _ => I) w) as (l' & Hout' & Hquiet).
  unfold after in Hout'. rewrite Hrun in Hout'. cbn [snd] in Hout'.
  assert (l' = l) by (apply (app_inv_head (out w)); congruence). subst l'.
  exists w', l. repeat split; try assumption; apply Hframe.
Qed.

(** The pipeline of an inbound message that is not from the instance
    itself.  It returns normally.  The message is stored, or the refusal
    of the store is logged, and then the chain of plugins runs whatever
    the store did; a promise that rejects with an error is logged with the
    name of the plugin and the phone of the instance.  When the chain
    throws no error, every enabled plugin has been called and every
    enabled subscription of 'message.received' is posted to; when it
    throws one (a call that throws, a promise rejected with [null]), the
    error is logged and no subscription is posted to. *)
Theorem processMessage_stages (E : Env) (r : ref) (message : WAMessage) (w : World)
    (inst : WhatsAppInstance) :
  heap w !! r = Some inst ->
  key_fromMe message = false ->
  let pm := pluginManager inst in
  let hooks := Store.getEnabledWebhooks (tbl_webhook w) (row_id (instanceData inst))
                 "message.received" in
  let w' := after (processMessage E r message) w in
  result (processMessage E r message) w = inr tt
  /\ (exists l,
        out w' = (out w ++ l)%list
        /\ plugin_calls l = chain_calls E pm (Upstream message)
        /\ http_posts l
           = match chain_error E pm (Upstream message) with
             | None => wh_url <$> hooks
             | Some _ => []
             end
        /\ (forall error, chain_error E pm (Upstream message) = Some error ->
              processing_error_line inst error ∈ log_errors l)
        /\ (forall e, (forall d, reject_message E d = Some e) -> sock inst <> None ->
            (forall error, messageTimestamp message <> TsOther (inl error)) ->
              store_error_line inst e ∈ log_errors l)
        /\ (forall c e, c ∈ chain_calls E pm (Upstream message) ->
              plugin_outcome E c.1 c.2 = Rejects e ->
              plugin_error_line pm c.1 e ∈ log_errors l))
  /\ (forall e, (forall d, reject_message E d = Some e) -> tbl_message w' = tbl_message w)
  /\ ((forall d, reject_message E d = None) -> sock inst <> None ->
      (forall error, messageTimestamp message <> TsOther (inl error)) ->
        exists d, tbl_message w' = (tbl_message w ++ [d])%list
                  /\ msg_direction d = incoming /\ msg_status d = msg_received
                  /\ msg_from d = key_remoteJid message
                  /\ msg_instanceId d = row_id (instanceData inst)).
Proof.
  intros Hr Hme pm hooks w'.
  destruct (storeMessage_run E r message w inst Hr)
    as (w1 & l1 & Hrun1 & [Hh1 Hwh1] & Hout1 & Hq1 & Hrej1 & Hacc1).
  assert (Hr1 : heap w1 !! r = Some inst) by (rewrite Hh1; exact Hr).
  destruct (executePlugins_full E r (Upstream message) w1 inst Hr1)
    as (l2 & Hrun2 & Hcalls2 & Hq2 & Hrej2).
  fold pm in Hrun2, Hcalls2, Hrej2.
  set (w2 := set_out (fun o => (o ++ l2)%list) w1) in *.
  assert (Hr2 : heap w2 !! r = Some inst) by exact Hr1.
  assert (Hq1' : Forall no_post l1 /\ Forall no_plugin_call l1).
  { split; (eapply Forall_impl; [exact Hq1|]); intros [] H; try exact I; contradiction. }
  destruct Hq1' as [Hq1p Hq1c].
  destruct (chain_error E pm (Upstream message)) as [error|] eqn:Herr; cbn [from_option] in Hrun2.
  - assert (Hrun : processMessage E r message w
                   = (inr tt, set_out (fun o => (o ++ [LogError (processing_error_line inst
                                                                  error)])%list) w2)).
    { unfold processMessage. rewrite Hme.
      rewrite (run_bind_inr _ _ _ _ _ (run_this _ _ _ Hr)).
      erewrite run_try_inl; [reflexivity|].
      rewrite (run_bind_inr _ _ _ _ _ Hrun1). rewrite (run_bind_inl _ _ _ _ _ Hrun2).
      reflexivity. }
    assert (Hw' : w' = set_out (fun o => (o ++ [LogError (processing_error_line inst
                                                           error)])%list) w2)
      by (unfold w', after; rewrite Hrun; reflexivity).
    split; [unfold result; rewrite Hrun; reflexivity|]. rewrite Hw'.
    split; [|split].
    + exists (l1 ++ l2 ++ [LogError (processing_error_line inst error)])%list.
      split; [subst w2; cbn [out set_out]; rewrite Hout1, <- !app_assoc; reflexivity|].
      split; [|split; [|split; [|split]]].
      * rewrite !plugin_calls_app, Hcalls2, (plugin_calls_quiet l1 Hq1c). cbn.
        rewrite app_nil_r. reflexivity.
      * rewrite !http_posts_app, (http_posts_quiet l2 Hq2), (http_posts_quiet l1 Hq1p).
        reflexivity.
      * intros error' H. injection H as <-. rewrite !log_errors_app, !elem_of_app.
        right. right. cbn. apply list_elem_of_singleton. reflexivity.
      * intros e Hall Hs Hts. rewrite !log_errors_app, !elem_of_app. left.
        apply (Hrej1 e Hall); assumption.
      * intros c e Hc Hrej. rewrite !log_errors_app, !elem_of_app. right. left.
        apply (Hrej2 c e Hc Hrej).
    + intros e Hall. apply (Hrej1 e Hall).
    + intros Hall Hs Hts. apply (Hacc1 Hall Hs Hts).
  - destruct (triggerWebhooks_posts E r "message.received"
                (ReceivedData (envelope message) (instanceData inst)) w2 inst Hr2)
      as (w3 & l3 & Hrun3 & Hframe3 & Hout3 & Hposts3 & Hq3).
    assert (Hrun : processMessage E r message w = (inr tt, w3)).
    { unfold processMessage. rewrite Hme.
      rewrite (run_bind_inr _ _ _ _ _ (run_this _ _ _ Hr)).
      apply run_try_inr.
      rewrite (run_bind_inr _ _ _ _ _ Hrun1). rewrite (run_bind_inr _ _ _ _ _ Hrun2).
      exact Hrun3. }
    assert (Hw' : w' = w3) by (unfold w', after; rewrite Hrun; reflexivity).
    assert (Hmsg : tbl_message w3 = tbl_message w1)
      by (destruct Hframe3 as (_ & _ & _ & _ & Hm & _); rewrite Hm; reflexivity).
    split; [unfold result; rewrite Hrun; reflexivity|]. rewrite Hw'.
    split; [|split].
    + exists (l1 ++ l2 ++ l3)%list.
      split; [rewrite Hout3; subst w2; cbn [out set_out]; rewrite Hout1, <- !app_assoc;
              reflexivity|].
      split; [|split; [|split; [|split]]].
      * rewrite !plugin_calls_app, Hcalls2, (plugin_calls_quiet l3 Hq3),
          (plugin_calls_quiet l1 Hq1c).
        rewrite app_nil_r. reflexivity.
      * rewrite !http_posts_app, Hposts3, (http_posts_quiet l2 Hq2),
          (http_posts_quiet l1 Hq1p).
        subst w2 hooks. cbn [tbl_webhook set_out]. rewrite Hwh1. reflexivity.
      * intros error H. discriminate H.
      * intros e Hall Hs Hts. rewrite !log_errors_app, !elem_of_app. left.
        apply (Hrej1 e Hall); assumption.
      * intros c e Hc Hrej. rewrite !log_errors_app, !elem_of_app. right. left.
        apply (Hrej2 c e Hc Hrej).
    + intros e Hall. rewrite Hmsg. apply (Hrej1 e Hall).
    + intros Hall Hs Hts. rewrite Hmsg. apply (Hacc1 Hall Hs Hts).
Qed.

(** A store that refuses the message and plugins whose promises all
    reject are contained: the plugin is called and both subscriptions are
    posted to. *)
Example failures_contained :
  let w' := after (processMessage Fixture.env_failing 0 Fixture.message1) Fixture.world0 in
  result (processMessage Fixture.env_failing 0 Fixture.message1) Fixture.world0 = inr tt
  /\ fst <$> plugin_calls (out w') = ["welcome-group"]
  /\ http_posts (out w') = ["http://a.test/hook"; "http://b.test/hook"]
  /\ tbl_message w' = [].
Proof. vm_compute. repeat split; reflexivity. Qed.

(** C8 fails on the code.  Both plugins are switched on for the instance
    and two subscriptions of 'message.received' are enabled; the handler of
    "welcome-group", the first in the chain, is not an async function and
    throws "boom".  The message is stored, but the handler of
    "anti-mention" is not called and no subscription is posted to: the
    error leaves the loop of the chain, which has no try around the call,
    and the try around the three stages, where it is logged. *)
Theorem C8_throwing_plugin_aborts_pipeline :
  let w := Fixture.world_with Fixture.inst_both in
  let w' := after (processMessage Fixture.env_throwing 0 Fixture.message1) w in
  invoked Fixture.pm_both = ["welcome-group"; "anti-mention"]
  /\ wh_url <$> Store.getEnabledWebhooks (tbl_webhook w) 1 "message.received"
     = ["http://a.test/hook"; "http://b.test/hook"]
  /\ result (processMessage Fixture.env_throwing 0 Fixture.message1) w = inr tt
  /\ List.length (tbl_message w') = 1%nat
  /\ fst <$> plugin_calls (out w') = ["welcome-group"]
  /\ http_posts (out w') = []
  /\ log_errors (out w') = ["Error processing message for 628123456789: boom"].
Proof. vm_compute. repeat split; reflexivity. Qed.

(** The same with a handler whose promise rejects with [null]: both
    handlers are called, and the error of reading its message ends the
    pipeline before the subscriptions. *)
Example nullish_rejection_aborts_pipeline :
  let w := Fixture.world_with Fixture.inst_both in
  let w' := after (processMessage Fixture.env_nullish 0 Fixture.message1) w in
  fst <$> plugin_calls (out w') = ["welcome-group"; "anti-mention"]
  /\ http_posts (out w') = []
  /\ log_errors (out w')
     = ["Error processing message for 628123456789: "
        ++ "Cannot read properties of null (reading 'message')"].
Proof. vm_compute. repeat split; reflexivity. Qed.

(** ** Creating an instance *)

Lemma findByPhone_set_status rows id s p :
  Store.findByPhone (set_status id s rows) p
  = (fun row => if id_is id row then with_status s row else row) <$> Store.findByPhone rows p.
Proof.
  unfold Store.findByPhone, set_status.
  induction rows as [|row rows IH]; [reflexivity|].
  cbn [fmap list_fmap List.find].
  assert (Hp : phone_is p (if id_is id row then with_status s row else row) = phone_is p row)
    by (destruct (id_is id row); reflexivity).
  rewrite Hp. destruct (phone_is p row); [reflexivity|exact IH].
Qed.

Lemma findByPhone_app_new rows row :
  Store.findByPhone rows (row_phone row) = None ->
  Store.findByPhone (rows ++ [row]) (row_phone row) = Some row.
Proof.
  unfold Store.findByPhone. intros H.
  induction rows as [|x rows IH]; cbn [app List.find] in *.
  - unfold phone_is. rewrite bool_decide_eq_true_2 by reflexivity. reflexivity.
  - destruct (phone_is (row_phone row) x); [discriminate|]. apply IH. exact H.
Qed.

Lemma findById_app_new rows row :
  is_Some (Store.findById (rows ++ [row]) (row_id row)).
Proof.
  unfold Store.findById. induction rows as [|x rows IH]; cbn [app List.find].
  - unfold id_is. rewrite bool_decide_eq_true_2 by reflexivity. eexists. reflexivity.
  - destruct (id_is (row_id row) x); [eexists; reflexivity|exact IH].
Qed.

Lemma instanceService_create_run data w :
  Store.findByPhone (tbl_instance w) (data_phone data) = None ->
  instanceService.create data w
  = (inr (new_row (next_id w) data),
     set_tbl_instance (fun t => (t ++ [new_row (next_id w) data])%list) (set_next_id S w)).
Proof.
  intros H. unfold instanceService.create. run_def. rewrite H. reflexivity.
Qed.

Lemma instanceService_create_duplicate data w row :
  Store.findByPhone (tbl_instance w) (data_phone data) = Some row ->
  instanceService.create data w = (inl "Unique constraint failed on the fields: (phone)", w).
Proof.
  intros H. unfold instanceService.create. run_def. rewrite H. reflexivity.
Qed.

Lemma fresh_ref_unused (h : gmap ref WhatsAppInstance) : h !! fresh (dom h) = None.
Proof. apply not_elem_of_dom. apply is_fresh. Qed.

(** The manager creating an instance whose phone is not in the store. *)
Lemma Manager_createInstance_run E data w :
  Store.findByPhone (tbl_instance w) (data_phone data) = None ->
  let row := new_row (next_id w) data in
  let r := fresh (dom (heap w)) in
  exists w' F s,
    Manager.createInstance E data w = (inr row, w')
    /\ heap w' = <[r := F (new_WhatsAppInstance row)]> (heap w)
    /\ (forall i, same_session i (F i))
    /\ instances w' = <[data_phone data := r]> (instances w)
    /\ tbl_instance w' = set_status (row_id row) s (tbl_instance w ++ [row])%list
    /\ auth_dirs w' = {[data_phone data]} ∪ auth_dirs w
    /\ (transport_start E (data_phone data) = None ->
        s = st_connecting /\ sock (F (new_WhatsAppInstance row)) <> None).
Proof.
  intros Hnew row r. unfold Manager.createInstance.
  set (w1 := set_tbl_instance (fun t => (t ++ [row])%list) (set_next_id S w)).
  set (w2 := set_instances (fun m => <[row_phone row := r]> m)
               (set_heap (fun h => <[r := new_WhatsAppInstance row]> h) w1)).
  assert (Hr2 : heap w2 !! r = Some (new_WhatsAppInstance row))
    by (subst w2; cbn [heap set_instances set_heap]; apply lookup_insert_eq).
  assert (Hrow2 : is_Some (Store.findById (tbl_instance w2)
                             (row_id (instanceData (new_WhatsAppInstance row)))))
    by (subst w2 w1; cbn [tbl_instance set_instances set_heap set_tbl_instance set_next_id
                          instanceData new_WhatsAppInstance];
        apply findById_app_new).
  destruct (initialize_run E r w2 _ Hr2 Hrow2)
    as (w3 & F & s & Hrun & Hh & HF & Ht & Hi & _ & Ha & Hstart).
  exists w3, F, s. split.
  - apply run_try_inr.
    rewrite (run_bind_inr _ _ _ _ _ (instanceService_create_run data w Hnew)).
    fold row w1. unfold register.
    erewrite run_bind_inr.
    2:{ do 3 run_def. reflexivity. }
    fold w2. rewrite (run_bind_inr _ _ _ _ _ Hrun). reflexivity.
  - rewrite Hh, Hi, Ht, Ha. subst w2 w1.
    cbn [heap instances tbl_instance auth_dirs set_instances set_heap set_tbl_instance
         set_next_id instanceData new_WhatsAppInstance authDir row_phone row_id new_row].
    rewrite alter_insert_eq.
    split; [reflexivity|]. split; [exact HF|]. split; [reflexivity|].
    split; [reflexivity|]. split; [reflexivity|].
    intros Hok. destruct (Hstart Hok) as [-> Hsock]. split; [reflexivity|apply Hsock].
Qed.

(** C6, as the code has it.  Create with a phone and a name fails with
    'Instance already exists' whenever a persisted row has exactly the
    phone as given, and then changes nothing (the in-memory map is not
    consulted).  Otherwise the phone is reduced to its digits and, when no
    persisted row has that number, the row is persisted under it with
    status inactive, an instance object is put in the manager's map under
    it, and the instance is started: its credential directory exists and,
    when the transport starts, it has a socket and its row says
    connecting. *)
Theorem C6_create_instance (E : Env) (body : Controller.CreateBody) (w : World)
    (phone name : string) :
  Controller.body_phone body = Some phone -> Controller.body_name body = Some name ->
  phone <> "" -> name <> "" ->
  let reply := result (Controller.createInstance E body) w in
  let w' := after (Controller.createInstance E body) w in
  let digits := Phone.digits_only phone in
  (forall row, Store.findByPhone (tbl_instance w) phone = Some row ->
     reply = inr (Controller.BadRequest "Instance already exists"
                    ("WhatsApp instance for " ++ phone ++ " already exists"))
     /\ w' = w)
  /\ (Store.findByPhone (tbl_instance w) phone = None ->
      Store.findByPhone (tbl_instance w) digits = None ->
      exists row r inst s,
        reply = inr (Controller.Created row)
        /\ row_phone row = digits /\ Phone.all_digits (row_phone row) = true
        /\ row_name row = name /\ row_status row = st_inactive
        /\ Store.findByPhone (tbl_instance w') digits = Some (with_status s row)
        /\ instances w' !! digits = Some r
        /\ heap w' !! r = Some inst /\ instanceData inst = row
        /\ heap w !! r = None
        /\ digits ∈ auth_dirs w'
        /\ (transport_start E digits = None -> s = st_connecting /\ sock inst <> None)).
Proof.
  intros Hphone Hname Hp Hn reply w' digits.
  assert (Hmiss : Controller.missing (Some phone) || Controller.missing (Some name) = false).
  { unfold Controller.missing. rewrite !bool_decide_eq_false_2 by assumption. reflexivity. }
  split.
  - intros row Hrow.
    assert (Hrun : Controller.createInstance E body w
                   = (inr (Controller.BadRequest "Instance already exists"
                             ("WhatsApp instance for " ++ phone ++ " already exists")), w)).
    { unfold Controller.createInstance. rewrite Hphone, Hname, Hmiss.
      apply run_try_inr. run_def. rewrite Hrow. reflexivity. }
    unfold reply, w', result, after. rewrite Hrun. split; reflexivity.
  - intros Hraw Hnew.
    set (data := {| data_phone := digits; data_name := name;
                    data_alias := Controller.alias_or_null (Controller.body_alias body) |}).
    destruct (Manager_createInstance_run E data w Hnew)
      as (w3 & F & s & Hrun3 & Hh & HF & Hi & Ht & Ha & Hstart).
    assert (Hrun : Controller.createInstance E body w
                   = (inr (Controller.Created (new_row (next_id w) data)), w3)).
    { unfold Controller.createInstance. rewrite Hphone, Hname, Hmiss.
      apply run_try_inr. run_def. rewrite Hraw. fold digits data.
      rewrite (run_bind_inr _ _ _ _ _ Hrun3). reflexivity. }
    exists (new_row (next_id w) data), (fresh (dom (heap w))),
      (F (new_WhatsAppInstance (new_row (next_id w) data))), s.
    unfold reply, w', result, after. rewrite Hrun. cbn [fst snd].
    split; [reflexivity|]. split; [reflexivity|].
    split; [apply all_digits_digits_only|].
    split; [reflexivity|]. split; [reflexivity|].
    split.
    { rewrite Ht, findByPhone_set_status.
      pose proof (findByPhone_app_new (tbl_instance w) (new_row (next_id w) data) Hnew) as Hf.
      change (row_phone (new_row (next_id w) data)) with digits in Hf. rewrite Hf.
      cbn. unfold id_is. rewrite bool_decide_eq_true_2 by reflexivity. reflexivity. }
    split; [rewrite Hi; apply lookup_insert_eq|].
    split; [rewrite Hh; apply lookup_insert_eq|].
    split; [apply HF|].
    split; [apply fresh_ref_unused|].
    split; [rewrite Ha; apply elem_of_union_l, elem_of_singleton; reflexivity|].
    exact Hstart.
Qed.

Lemma C6_witness :
  exists row,
    result (Controller.createInstance Fixture.env0 (Fixture.create_body "+62 811-000-111"))
      Fixture.world0 = inr (Controller.Created row)
    /\ row_phone row = "62811000111".
Proof.
  destruct (C6_create_instance Fixture.env0 (Fixture.create_body "+62 811-000-111")
              Fixture.world0 "+62 811-000-111" "I2" eq_refl eq_refl) as [_ H];
    [discriminate|discriminate|].
  destruct (H eq_refl eq_refl) as (row & r & inst & s & Hreply & Hp & _).
  exists row. split; [exact Hreply|exact Hp].
Defined.

(** C6 as the specification words it fails: the manager holds an instance
    for the phone, whose row is no longer in the store; Create does not
    fail, it puts a second object in the place of the first. *)
Lemma C6_counterexample :
  let reply := result (Controller.createInstance Fixture.env0
                         (Fixture.create_body Fixture.phone1)) Fixture.world_unpersisted in
  let w' := after (Controller.createInstance Fixture.env0
                     (Fixture.create_body Fixture.phone1)) Fixture.world_unpersisted in
  instances Fixture.world_unpersisted !! Fixture.phone1 = Some 0%nat
  /\ (exists row, reply = inr (Controller.Created row) /\ row_phone row = Fixture.phone1)
  /\ instances w' !! Fixture.phone1 = Some 1%nat.
Proof.
  vm_compute. split; [reflexivity|]. split; [|reflexivity].
  eexists. split; reflexivity.
Qed.

(** The existence check is made on the phone as given and the row is
    written under its digits: a phone given with punctuation whose digits
    are already registered passes the check, and the store refuses the
    row. *)
Example create_checks_before_normalising :
  result (Controller.createInstance Fixture.env0 (Fixture.create_body "+62 812-3456-789"))
    Fixture.world0
  = inr (Controller.ServerError "Failed to create instance"
           "Unique constraint failed on the fields: (phone)").
Proof. vm_compute. reflexivity. Qed.

(* ===================================================================== *)
(** * Further properties *)
(* ===================================================================== *)

Import Trace.

(** ** Recipient numbers, again *)

Lemma digits_only_all_digits s : Phone.all_digits s = true -> Phone.digits_only s = s.
Proof.
  induction s as [|c s IH]; simpl; [reflexivity|].
  intros H. apply andb_true_iff in H. destruct H as [Hc Hs].
  rewrite Hc. f_equal. apply IH, Hs.
Qed.

Lemma startsWith_app_62 rest : Phone.startsWith ("62" ++ rest) "62" = true.
Proof. unfold Phone.startsWith. cbn. destruct rest; reflexivity. Qed.

Lemma formatNumber_fixed digits :
  Phone.all_digits digits = true -> Phone.formatNumber ("62" ++ digits) = "62" ++ digits.
Proof.
  intros H. unfold Phone.formatNumber.
  assert (Hd : Phone.digits_only ("62" ++ digits) = "62" ++ digits).
  { apply digits_only_all_digits. simpl. exact H. }
  rewrite Hd, startsWith_app_62. reflexivity.
Qed.

(** X1. Normalising a recipient number is idempotent, and it only reads the
    digits of its argument: the number it returns is normalised to itself,
    and a number and its digits are normalised to the same thing. *)
Theorem formatNumber_idempotent (phoneNumber : string) :
  Phone.formatNumber (Phone.formatNumber phoneNumber) = Phone.formatNumber phoneNumber
  /\ Phone.formatNumber (Phone.digits_only phoneNumber) = Phone.formatNumber phoneNumber
  /\ Phone.personal_jid (Phone.formatNumber phoneNumber) = Phone.personal_jid phoneNumber.
Proof.
  assert (H1 : Phone.formatNumber (Phone.formatNumber phoneNumber)
               = Phone.formatNumber phoneNumber).
  { destruct (formatNumber_shape phoneNumber) as [digits [Hd Ha]].
    rewrite Hd. apply formatNumber_fixed, Ha. }
  split; [exact H1|]. split.
  - unfold Phone.formatNumber.
    rewrite (digits_only_all_digits _ (all_digits_digits_only phoneNumber)). reflexivity.
  - unfold Phone.personal_jid. rewrite H1. reflexivity.
Qed.

Lemma prefix_refl p : String.prefix p p = true.
Proof.
  induction p as [|c p IH]; simpl; [reflexivity|].
  destruct (ascii_dec c c) as [_|Hn]; [exact IH|]. destruct Hn. reflexivity.
Qed.

Lemma includes_unfold s p :
  Phone.includes s p
  = String.prefix p s || match s with EmptyString => false | String _ r => Phone.includes r p end.
Proof. destruct s; reflexivity. Qed.

Lemma includes_app s p : Phone.includes (s ++ p) p = true.
Proof.
  induction s as [|c s IH].
  - change ("" ++ p) with p. rewrite includes_unfold, prefix_refl. reflexivity.
  - change (String c s ++ p) with (String c (s ++ p)). rewrite includes_unfold, IH.
    apply orb_true_r.
Qed.

(** X2. The JID a group message is handed to always contains "@g.us", and
    the suffix is added at most once: building the JID from a JID returns
    it unchanged. *)
Theorem group_jid_idempotent (groupId : string) :
  Phone.includes (Phone.group_jid groupId) "@g.us" = true
  /\ Phone.group_jid (Phone.group_jid groupId) = Phone.group_jid groupId.
Proof.
  assert (H : Phone.includes (Phone.group_jid groupId) "@g.us" = true).
  { unfold Phone.group_jid. destruct (Phone.includes groupId "@g.us") eqn:Hi.
    - exact Hi.
    - apply includes_app. }
  split; [exact H|].
  unfold Phone.group_jid at 1. rewrite H. reflexivity.
Qed.

(** ** Message timestamps *)

(** X3. For a Long-like timestamp without a [toNumber] method, the manual
    conversion returns the number whose high word is [high] and whose low
    word is [low] read as unsigned (a negative [low] wraps around), without
    logging anything.  The bounds keep the result an exact JS number. *)
Theorem extractTimestamp_long_words (low high : Z) (w : World) :
  (Z.abs high < 2 ^ 21)%Z -> (Z.abs low < 2 ^ 53)%Z ->
  exists t,
    extractTimestamp (TsLong low high None) w = (inr t, w)
    /\ (t `div` 2 ^ 32 = high)%Z
    /\ (t `mod` 2 ^ 32 = low `mod` 2 ^ 32)%Z
    /\ (Z.abs t < 2 ^ 53)%Z.
Proof.
  intros Hh Hl. exists (high * 4294967296 + low `mod` 4294967296)%Z.
  split; [reflexivity|].
  change (2 ^ 32)%Z with 4294967296%Z. change (2 ^ 53)%Z with 9007199254740992%Z.
  change (2 ^ 21)%Z with 2097152%Z in Hh.
  pose proof (Z.mod_pos_bound low 4294967296 eq_refl) as Hm.
  split; [|split].
  - rewrite Z.add_comm, Z.div_add by discriminate.
    rewrite Z.div_small by exact Hm. reflexivity.
  - rewrite Z.add_comm, Z.mod_add by discriminate. apply Z.mod_mod. discriminate.
  - lia.
Qed.

Lemma extractTimestamp_long_words_witness :
  exists t,
    extractTimestamp (TsLong (-1) 0 None) Fixture.world0 = (inr t, Fixture.world0)
    /\ (t `div` 2 ^ 32 = 0)%Z
    /\ (t `mod` 2 ^ 32 = (-1) `mod` 2 ^ 32)%Z
    /\ (Z.abs t < 2 ^ 53)%Z.
Proof. apply (extractTimestamp_long_words (-1) 0 Fixture.world0); reflexivity. Defined.

Lemma log_warns_app l1 l2 : log_warns (l1 ++ l2) = (log_warns l1 ++ log_warns l2)%list.
Proof. apply omap_app. Qed.

(** X4. An inbound message whose timestamp is neither a number nor a
    Long-like object is stored, when [JSON.stringify] turns the timestamp
    into a text, with the current time cut down to the whole second:
    [sentAt] is a multiple of 1000 ms, not after the clock and less than a
    second before it.  Both readings of the timestamp log a warning that
    quotes the text, after the warning of the safe serialisation when it
    fell back.  When [JSON.stringify] throws on the timestamp, nothing is
    stored and the error is logged. *)
Theorem storeMessage_unparsable_timestamp (E : Env) (r : ref) (message : WAMessage)
    (w : World) (inst : WhatsAppInstance) (s : Sock) :
  heap w !! r = Some inst -> sock inst = Some s ->
  let w' := after (storeMessage E r message) w in
  (forall text,
      messageTimestamp message = TsOther (inr text) ->
      (forall d, reject_message E d = None) ->
      exists d l,
        tbl_message w' = (tbl_message w ++ [d])%list
        /\ (msg_sentAt d <= now w < msg_sentAt d + 1000)%Z
        /\ (msg_sentAt d `mod` 1000 = 0)%Z
        /\ out w' = (out w ++ l)%list
        /\ log_warns l
           = (serialize_warnings E (envelope message)
              ++ [timestamp_warning text; timestamp_warning text])%list
        /\ log_errors l = [])
  /\ (forall error,
        messageTimestamp message = TsOther (inl error) ->
        exists l,
          tbl_message w' = tbl_message w
          /\ out w' = (out w ++ l)%list
          /\ log_errors l = [store_error_line inst error]).
Proof.
  intros Hr Hs w'. subst w'. unfold after, storeMessage.
  rewrite (run_bind_inr _ _ _ _ _ (run_this _ _ _ Hr)). cbv zeta.
  rewrite Hs. unfold try_catch. unfold serialize_warnings.
  split.
  - intros text Hts Hok. rewrite Hts.
    rewrite (run_bind (safeSerialize E (envelope message))), run_safeSerialize.
    destruct (Js.parse_stringify (envelope message)) as [e|j].
    + do 3 run_def. unfold messageService.create. rewrite Hok. run_def.
      eexists _, _. split; [reflexivity|]. cbn.
      pose proof (Z.div_mod (now w) 1000 ltac:(discriminate)) as Hdm.
      pose proof (Z.mod_pos_bound (now w) 1000 eq_refl) as Hm.
      split; [lia|]. split; [apply Z.mod_mul; discriminate|].
      split; [rewrite <- !app_assoc; reflexivity|]. split; reflexivity.
    + do 3 run_def. unfold messageService.create. rewrite Hok. run_def.
      eexists _, _. split; [reflexivity|]. cbn.
      pose proof (Z.div_mod (now w) 1000 ltac:(discriminate)) as Hdm.
      pose proof (Z.mod_pos_bound (now w) 1000 eq_refl) as Hm.
      split; [lia|]. split; [apply Z.mod_mul; discriminate|].
      split; [rewrite <- !app_assoc; reflexivity|]. split; reflexivity.
  - intros error Hts. rewrite Hts.
    rewrite (run_bind (safeSerialize E (envelope message))), run_safeSerialize.
    destruct (Js.parse_stringify (envelope message)) as [e|j].
    + unfold extractTimestamp, mbind, M_bind, bind, mret, M_ret, ret, throw, emit, modify,
        after.
      cbn. eexists. split; [reflexivity|].
      split; [rewrite <- !app_assoc; reflexivity|reflexivity].
    + unfold extractTimestamp, mbind, M_bind, bind, mret, M_ret, ret, throw, emit, modify,
        after.
      cbn. eexists. split; [reflexivity|]. split; reflexivity.
Qed.

Lemma storeMessage_unparsable_timestamp_witness :
  exists d l,
    tbl_message (after (storeMessage Fixture.env0 0 Fixture.message_undated) Fixture.world0)
    = (tbl_message Fixture.world0 ++ [d])%list
    /\ (msg_sentAt d <= now Fixture.world0 < msg_sentAt d + 1000)%Z
    /\ (msg_sentAt d `mod` 1000 = 0)%Z
    /\ out (after (storeMessage Fixture.env0 0 Fixture.message_undated) Fixture.world0)
       = (out Fixture.world0 ++ l)%list
    /\ log_warns l
       = (serialize_warnings Fixture.env0 (envelope Fixture.message_undated)
          ++ [timestamp_warning "undefined"; timestamp_warning "undefined"])%list
    /\ log_errors l = [].
Proof.
  destruct (storeMessage_unparsable_timestamp Fixture.env0 0 Fixture.message_undated
              Fixture.world0 Fixture.inst1 Fixture.sock1 eq_refl eq_refl) as [H _].
  exact (H "undefined" eq_refl (fun _ => eq_refl)).
Defined.

(** ** The outbound pipeline *)

Lemma transport_sends_app l1 l2 :
  transport_sends (l1 ++ l2) = (transport_sends l1 ++ transport_sends l2)%list.
Proof. apply omap_app. Qed.

(** X5. An instance that is not connected sends nothing: each of the three
    send methods throws "WhatsApp instance <phone> not connected" before it
    reaches the transport or the message store; all that happens is the
    error line and the error row of the instance log. *)
Theorem send_not_connected (E : Env) (r : ref) (w : World) (inst : WhatsAppInstance) :
  heap w !! r = Some inst -> isConnected inst = false ->
  let refused (line prefix : string) :=
    (inl (not_connected inst) : string + string,
     set_tbl_log (fun t => (t ++ [{| log_instanceId := row_id (instanceData inst);
                                     log_level := lvl_error;
                                     log_message := prefix ++ not_connected inst |}])%list)
       (set_out (fun o => (o ++ [LogError (line ++ row_phone (instanceData inst) ++ ": "
                                           ++ not_connected inst)])%list) w)) in
  (forall phoneNumber messageText,
      sendMessage E r phoneNumber messageText w
      = refused "Error sending message from " "Error sending message: ")
  /\ (forall groupId messageText,
         sendGroupMessage E r groupId messageText w
         = refused "Error sending group message from " "Error sending group message: ")
  /\ (forall phoneNumber mediaData,
         sendMediaMessage E r phoneNumber mediaData w
         = refused "Error sending media message from " "Error sending media message: ").
Proof.
  intros Hr Hc. cbv zeta. repeat split; intros.
  - unfold sendMessage. rewrite (run_bind_inr _ _ _ _ _ (run_this _ _ _ Hr)).
    rewrite Hc. reflexivity.
  - unfold sendGroupMessage. rewrite (run_bind_inr _ _ _ _ _ (run_this _ _ _ Hr)).
    rewrite Hc. reflexivity.
  - unfold sendMediaMessage. rewrite (run_bind_inr _ _ _ _ _ (run_this _ _ _ Hr)).
    rewrite Hc. reflexivity.
Qed.

Lemma send_not_connected_witness :
  result (sendMessage Fixture.env0 0 "0812" "hi") (Fixture.world_with Fixture.inst_at_max)
  = inl "WhatsApp instance 628123456789 not connected".
Proof.
  destruct (send_not_connected Fixture.env0 0 (Fixture.world_with Fixture.inst_at_max)
              Fixture.inst_at_max eq_refl eq_refl) as [H _].
  unfold result. rewrite H. reflexivity.
Defined.

(** Runs a computation whose branches are all decided. *)
Ltac run_all :=
  unfold try_catch, mbind, M_bind, mret, M_ret, bind, ret, gets, modify, emit, throw,
    instanceLogService.create, messageService.create, webhookHistoryService.create;
  cbn.

(** The first steps of a send on a connected instance with a socket: the
    transport is called with the JID and the signed text. *)
Lemma sendMessage_unfold E r phoneNumber messageText w inst s :
  heap w !! r = Some inst -> isConnected inst = true -> sock inst = Some s ->
  let jid := Phone.personal_jid phoneNumber in
  let content := OutText (messageText ++ watermark E) in
  let w1 := set_out (fun o => (o ++ [SockSendMessage jid content])%list) w in
  let failed error :=
    (emit (LogError ("Error sending message from " ++ row_phone (instanceData inst)
                     ++ ": " ++ error));;
     instanceLogService.create
       {| log_instanceId := row_id (instanceData inst); log_level := lvl_error;
          log_message := "Error sending message: " ++ error |};;
     throw error) : M string in
  sendMessage E r phoneNumber messageText w
  = try_catch
      (messageId ← match transport_send E jid content with
                   | inl error => throw error
                   | inr id => mret id
                   end;
       t ← gets now;
       storedMessage ← messageService.create E
         {| msg_instanceId := row_id (instanceData inst); msg_direction := outgoing;
            msg_from := row_phone (instanceData inst);
            msg_to := Phone.formatNumber phoneNumber;
            msg_type := "text"; msg_message := BodyText messageText messageId;
            msg_status := msg_sent; msg_sentAt := t |};
       triggerWebhooks E r "message.sent"
         (SentData storedMessage (instanceData inst) (Phone.formatNumber phoneNumber) []);;
       instanceLogService.create
         {| log_instanceId := row_id (instanceData inst); log_level := lvl_info;
            log_message := "Message sent: " ++ messageText |};;
       mret messageId)
      failed w1.
Proof.
  intros Hr Hc Hs. cbv zeta. unfold sendMessage.
  rewrite (run_bind_inr _ _ _ _ _ (run_this _ _ _ Hr)).
  rewrite Hc. cbn [negb]. unfold sock_sendMessage. rewrite Hs. reflexivity.
Qed.

(** X6. A text send that fails after the connection check throws the error
    it met, stores no message and fires no webhook, and leaves an error
    row in the instance log.  When it is the transport that refuses,
    nothing more happened; when it is the message store that refuses, the
    message has already been handed to the transport. *)
Theorem sendMessage_failure (E : Env) (r : ref) (phoneNumber messageText : string)
    (w : World) (inst : WhatsAppInstance) (s : Sock) :
  heap w !! r = Some inst -> isConnected inst = true -> sock inst = Some s ->
  let jid := Phone.personal_jid phoneNumber in
  let content := OutText (messageText ++ watermark E) in
  let w' := after (sendMessage E r phoneNumber messageText) w in
  let failed error :=
    result (sendMessage E r phoneNumber messageText) w = inl error
    /\ tbl_message w' = tbl_message w
    /\ tbl_history w' = tbl_history w
    /\ tbl_log w'
       = (tbl_log w ++ [{| log_instanceId := row_id (instanceData inst);
                           log_level := lvl_error;
                           log_message := "Error sending message: " ++ error |}])%list
    /\ exists l, out w' = (out w ++ l)%list
                 /\ transport_sends l = [(jid, content)] /\ http_posts l = [] in
  (forall error, transport_send E jid content = inl error -> failed error)
  /\ (forall id error,
         transport_send E jid content = inr id ->
         (forall d, reject_message E d = Some error) -> failed error).
Proof.
  intros Hr Hc Hs. cbv zeta. unfold after, result.
  rewrite (sendMessage_unfold E r phoneNumber messageText w inst s Hr Hc Hs). cbv zeta.
  split.
  - intros error Ht. rewrite Ht. run_all.
    repeat split. eexists. split; [rewrite <- app_assoc; reflexivity|]. split; reflexivity.
  - intros id error Ht Hrej. rewrite Ht. unfold messageService.create.
    unfold try_catch. do 2 run_def. rewrite Hrej. run_all.
    repeat split. eexists. split; [rewrite <- app_assoc; reflexivity|]. split; reflexivity.
Qed.

Lemma sendMessage_failure_witness :
  result (sendMessage Fixture.env_failing 0 "0812" "hi") Fixture.world0
  = inl "storage unavailable"
  /\ tbl_message (after (sendMessage Fixture.env_failing 0 "0812" "hi") Fixture.world0) = [].
Proof.
  destruct (sendMessage_failure Fixture.env_failing 0 "0812" "hi" Fixture.world0
              Fixture.inst1 Fixture.sock1 eq_refl eq_refl eq_refl) as [_ H].
  destruct (H "MSGID1" "storage unavailable" eq_refl (fun _ => eq_refl)) as (H1 & H2 & _).
  split; [exact H1|exact H2].
Defined.

Lemma log_warns_dispatch l : Forall post_or_error l -> log_warns l = [].
Proof.
  induction l as [|e l IH]; intros H; [reflexivity|].
  apply Forall_cons in H as [He Hl].
  destruct e; simpl in He; try contradiction; exact (IH Hl).
Qed.

Lemma transport_sends_dispatch l : Forall post_or_error l -> transport_sends l = [].
Proof.
  induction l as [|e l IH]; intros H; [reflexivity|].
  apply Forall_cons in H as [He Hl].
  destruct e; simpl in He; try contradiction; exact (IH Hl).
Qed.

(** A dispatch never throws, changes only the clock and the history, and
    emits one post per enabled subscription besides error lines. *)
Lemma triggerWebhooks_effects E r event data w inst :
  heap w !! r = Some inst ->
  exists w' l,
    triggerWebhooks E r event data w = (inr tt, w')
    /\ same_but_history w w'
    /\ out w' = (out w ++ l)%list
    /\ http_posts l
       = wh_url <$> Store.getEnabledWebhooks (tbl_webhook w) (row_id (instanceData inst)) event
    /\ Forall post_or_error l.
Proof.
  intros Hr.
  destruct (triggerWebhooks_posts E r event data w inst Hr)
    as (w' & l & Hrun & Hframe & Hout & Hposts & _).
  destruct (triggerWebhooks_extends post_or_error E r event data
              (fun _ _ => I) (fun _ => I) w) as (l' & Hout' & Hq).
  unfold after in Hout'. rewrite Hrun in Hout'. cbn [snd] in Hout'.
  assert (l' = l) by (apply (app_inv_head (out w)); congruence). subst l'.
  exists w', l. repeat split; try assumption; apply Hframe.
Qed.

(** The next step is a dispatch on the instance [inst] of the heap. *)
Ltac run_dispatch inst Hr :=
  match goal with
  | |- context [(triggerWebhooks ?E ?r ?ev ?d ≫= _) ?w1] =>
      destruct (triggerWebhooks_effects E r ev d w1 inst)
        as (?w & ?l & Hrun & Hframe & Hout & Hposts & Hq); [exact Hr|];
      rewrite (run_bind_inr _ _ _ _ _ Hrun)
  end.

(** X7. A text send that the transport and the message store accept returns
    the message id whatever the subscribers and the history store do: the
    stored row carries the normalised recipient and the text without the
    signature, one post goes to every enabled 'message.sent' subscription
    of the instance, and the instance log gets its info row. *)
Theorem sendMessage_success (E : Env) (r : ref) (phoneNumber messageText : string)
    (w : World) (inst : WhatsAppInstance) (s : Sock) (id : string) :
  heap w !! r = Some inst -> isConnected inst = true -> sock inst = Some s ->
  transport_send E (Phone.personal_jid phoneNumber) (OutText (messageText ++ watermark E))
  = inr id ->
  (forall d, reject_message E d = None) ->
  let w' := after (sendMessage E r phoneNumber messageText) w in
  result (sendMessage E r phoneNumber messageText) w = inr id
  /\ tbl_message w'
     = (tbl_message w
        ++ [{| msg_instanceId := row_id (instanceData inst); msg_direction := outgoing;
               msg_from := row_phone (instanceData inst);
               msg_to := Phone.formatNumber phoneNumber;
               msg_type := "text"; msg_message := BodyText messageText id;
               msg_status := msg_sent; msg_sentAt := now w |}])%list
  /\ tbl_log w'
     = (tbl_log w ++ [{| log_instanceId := row_id (instanceData inst); log_level := lvl_info;
                         log_message := "Message sent: " ++ messageText |}])%list
  /\ exists l,
      out w' = (out w ++ l)%list
      /\ transport_sends l
         = [(Phone.personal_jid phoneNumber, OutText (messageText ++ watermark E))]
      /\ http_posts l
         = wh_url <$> Store.getEnabledWebhooks (tbl_webhook w) (row_id (instanceData inst))
                        "message.sent".
Proof.
  intros Hr Hc Hs Ht Hok. cbv zeta. unfold after, result.
  rewrite (sendMessage_unfold E r phoneNumber messageText w inst s Hr Hc Hs). cbv zeta.
  rewrite Ht. unfold messageService.create. unfold try_catch.
  do 2 run_def. rewrite Hok. run_def.
  run_dispatch inst Hr.
  destruct Hframe as (_ & _ & _ & _ & Hm & _ & Hl & _).
  run_all. rewrite Hm, Hl, Hout. cbn.
  repeat split. eexists. split; [rewrite <- app_assoc; reflexivity|].
  split.
  - rewrite transport_sends_app, (transport_sends_dispatch _ Hq). reflexivity.
  - rewrite http_posts_app. exact Hposts.
Qed.

Lemma sendMessage_success_witness :
  result (sendMessage Fixture.env0 0 "0812-3456" "hi") Fixture.world0 = inr "MSGID1"
  /\ msg_to <$> tbl_message (after (sendMessage Fixture.env0 0 "0812-3456" "hi") Fixture.world0)
     = ["628123456"].
Proof.
  destruct (sendMessage_success Fixture.env0 0 "0812-3456" "hi" Fixture.world0
              Fixture.inst1 Fixture.sock1 "MSGID1" eq_refl eq_refl eq_refl eq_refl
              (fun _ => eq_refl)) as (H1 & H2 & _).
  split; [exact H1|]. rewrite H2. reflexivity.
Defined.

(** The media types the switch of sendMediaMessage knows, after lowering. *)
Lemma messageContent_None E m :
  messageContent E m = None
  <-> toLowerCase (media_type m) ∉ ["image"; "video"; "audio"; "document"].
Proof.
  unfold messageContent. cbv zeta.
  rewrite !not_elem_of_cons.
  repeat case_bool_decide; split; intros Hx; try discriminate; try reflexivity.
  all: try (destruct Hx as (Hx1 & Hx2 & Hx3 & Hx4 & _); congruence).
  repeat split; try assumption. apply not_elem_of_nil.
Qed.

(** X8. A media send whose type is none of image, video, audio and
    document (in any letter case) throws "Unsupported media type: ..."
    before anything is handed to the transport or stored: all that happens
    is the error line and the error row of the instance log. *)
Theorem sendMediaMessage_unsupported (E : Env) (r : ref) (phoneNumber : string)
    (mediaData : MediaData) (w : World) (inst : WhatsAppInstance) :
  heap w !! r = Some inst -> isConnected inst = true ->
  toLowerCase (media_type mediaData) ∉ ["image"; "video"; "audio"; "document"] ->
  let error := "Unsupported media type: " ++ media_type mediaData
               ++ ". Supported types: image, video, audio, document" in
  sendMediaMessage E r phoneNumber mediaData w
  = (inl error,
     set_tbl_log (fun t => (t ++ [{| log_instanceId := row_id (instanceData inst);
                                     log_level := lvl_error;
                                     log_message := "Error sending media message: " ++ error |}])%list)
       (set_out (fun o => (o ++ [LogError ("Error sending media message from "
                                           ++ row_phone (instanceData inst) ++ ": " ++ error)])%list)
          w)).
Proof.
  intros Hr Hc Hty. cbv zeta. unfold sendMediaMessage.
  rewrite (run_bind_inr _ _ _ _ _ (run_this _ _ _ Hr)).
  rewrite Hc. cbn [negb]. apply (messageContent_None E) in Hty. rewrite Hty. reflexivity.
Qed.

Lemma sendMediaMessage_unsupported_witness :
  result (sendMediaMessage Fixture.env0 0 "0812"
            {| media_type := "Sticker"; media_url := "http://x.test/s.webp";
               media_caption := None; media_filename := None |}) Fixture.world0
  = inl "Unsupported media type: Sticker. Supported types: image, video, audio, document".
Proof.
  unfold result.
  rewrite (sendMediaMessage_unsupported Fixture.env0 0 "0812" _ Fixture.world0 Fixture.inst1
             eq_refl eq_refl); [reflexivity|].
  rewrite !not_elem_of_cons. repeat split; try discriminate. apply not_elem_of_nil.
Defined.

(** X9. A failure to fetch the group metadata never stops a group send: it
    is logged as a warning and the text goes out all the same.  The JID
    handed to the transport carries the "@g.us" suffix, while the stored row
    keeps the group id as the caller gave it. *)
Theorem sendGroupMessage_metadata (E : Env) (r : ref) (groupId messageText : string)
    (w : World) (inst : WhatsAppInstance) (s : Sock) (id : string) :
  heap w !! r = Some inst -> isConnected inst = true -> sock inst = Some s ->
  transport_send E (Phone.group_jid groupId) (OutText (messageText ++ watermark E)) = inr id ->
  (forall d, reject_message E d = None) ->
  let w' := after (sendGroupMessage E r groupId messageText) w in
  result (sendGroupMessage E r groupId messageText) w = inr id
  /\ tbl_message w'
     = (tbl_message w
        ++ [{| msg_instanceId := row_id (instanceData inst); msg_direction := outgoing;
               msg_from := row_phone (instanceData inst); msg_to := groupId;
               msg_type := "text"; msg_message := BodyGroup messageText id;
               msg_status := msg_sent; msg_sentAt := now w |}])%list
  /\ exists l,
      out w' = (out w ++ l)%list
      /\ transport_sends l = [(Phone.group_jid groupId, OutText (messageText ++ watermark E))]
      /\ log_warns l
         = match transport_groupMetadata E (Phone.group_jid groupId) with
           | Some metaError =>
               ["Could not fetch group metadata for " ++ Phone.group_jid groupId ++ ": "
                ++ metaError]
           | None => []
           end.
Proof.
  intros Hr Hc Hs Ht Hok. cbv zeta. unfold after, result, sendGroupMessage.
  rewrite (run_bind_inr _ _ _ _ _ (run_this _ _ _ Hr)).
  rewrite Hc, Hs. cbn [negb]. unfold sock_sendMessage. rewrite Hs, Ht.
  unfold messageService.create, try_catch.
  destruct (transport_groupMetadata E (Phone.group_jid groupId)) as [metaError|].
  all: do 3 run_def; rewrite Hok; run_def.
  all: run_dispatch inst Hr;
       destruct Hframe as (_ & _ & _ & _ & Hm & _ & Hl & _);
       run_all; rewrite Hm, Hout; cbn;
       repeat split; eexists; (split; [rewrite <- !app_assoc; reflexivity|]).
  all: rewrite !transport_sends_app, !log_warns_app.
  all: rewrite (transport_sends_dispatch _ Hq), (log_warns_dispatch _ Hq).
  all: split; reflexivity.
Qed.

Lemma sendGroupMessage_metadata_witness :
  result (sendGroupMessage Fixture.env0 0 "120363025783457581" "hi") Fixture.world0
  = inr "MSGID1"
  /\ msg_to <$> tbl_message (after (sendGroupMessage Fixture.env0 0 "120363025783457581" "hi")
                               Fixture.world0)
     = ["120363025783457581"].
Proof.
  destruct (sendGroupMessage_metadata Fixture.env0 0 "120363025783457581" "hi" Fixture.world0
              Fixture.inst1 Fixture.sock1 "MSGID1" eq_refl eq_refl eq_refl eq_refl
              (fun _ => eq_refl)) as (H1 & H2 & _).
  split; [exact H1|]. rewrite H2. reflexivity.
Defined.

(** ** The plugin switches of an instance *)

Lemma elem_of_invoked pm n : n ∈ invoked pm <-> n ∈ plugins pm /\ isEnabled pm n = true.
Proof. apply invoked_spec. Qed.

Lemma set_set o name v : Js.set (Js.set o name v) name v = Js.set o name v.
Proof.
  unfold Js.set.
  destruct (bool_decide (name = "__proto__") && bool_decide (o !! name = None)) eqn:Hc.
  - rewrite Hc. reflexivity.
  - rewrite lookup_insert_eq. rewrite (bool_decide_eq_false_2 (Some v = None)) by discriminate.
    rewrite andb_false_r. apply insert_insert_eq.
Qed.

(** The test of the loop after an assignment to the override. *)
Lemma isEnabled_set o pm pluginName b n :
  instancePluginConfig pm = Js.set o pluginName (Js.JBool b) ->
  (n <> pluginName ->
   isEnabled pm n
   = Js.truthy (match Js.get o n with Js.VUndefined => Js.VBool false | v => v end))
  /\ (n = pluginName -> pluginName <> "__proto__" \/ is_Some (o !! pluginName) ->
      isEnabled pm n = b).
Proof.
  intros Ho. unfold isEnabled, instanceEnabled, Js.get, Js.set in *. rewrite Ho. split.
  - intros Hn.
    destruct (bool_decide (pluginName = "__proto__") && bool_decide (o !! pluginName = None));
      [reflexivity|].
    rewrite lookup_insert_ne by congruence. reflexivity.
  - intros Heq Hset. subst n.
    destruct (bool_decide (pluginName = "__proto__")) eqn:Hp;
      destruct (bool_decide (o !! pluginName = None)) eqn:Hown; cbn [andb];
      try (rewrite lookup_insert_eq; reflexivity).
    apply bool_decide_eq_true in Hp, Hown. destruct Hset as [Hne|[v Hv]]; congruence.
Qed.

(** X10. Enabling or disabling a plugin for an instance: an unknown name
    throws and changes nothing; for a loaded plugin the other switches and
    the loaded plugins are untouched, and doing it twice is doing it once.
    The switch reads back as written, and from then on the chain calls the
    handlers it called before, with that one added or removed, unless the
    plugin is named [__proto__] and the override has no own property of
    that name: the assignment is then ignored, and the plugin stays
    enabled. *)
Theorem setInstancePlugin_round_trip (pm : PluginManager) (pluginName : string) (b : bool) :
  (pluginName ∉ plugins pm -> setInstancePlugin pm pluginName b = None)
  /\ (pluginName ∈ plugins pm ->
      exists pm',
        setInstancePlugin pm pluginName b = Some pm'
        /\ (forall n, n <> pluginName -> isEnabled pm' n = isEnabled pm n)
        /\ plugins pm' = plugins pm
        /\ setInstancePlugin pm' pluginName b = Some pm'
        /\ (pluginName <> "__proto__" \/ is_Some (instancePluginConfig pm !! pluginName) ->
            isEnabled pm' pluginName = b
            /\ (forall n, n ∈ invoked pm'
                          <-> (n = pluginName /\ b = true)
                              \/ (n <> pluginName /\ n ∈ invoked pm)))
        /\ (pluginName = "__proto__" -> instancePluginConfig pm !! pluginName = None ->
            pm' = pm /\ isEnabled pm' pluginName = true)).
Proof.
  unfold setInstancePlugin. split; intros Hin.
  - rewrite bool_decide_eq_false_2 by exact Hin. reflexivity.
  - rewrite bool_decide_eq_true_2 by exact Hin. eexists. split; [reflexivity|].
    set (pm' := {| plugins := plugins pm; pluginConfigs := pluginConfigs pm;
                   instancePluginConfig :=
                     Js.set (instancePluginConfig pm) pluginName (Js.JBool b);
                   pm_phone := pm_phone pm |}).
    assert (Hother : forall n, n <> pluginName -> isEnabled pm' n = isEnabled pm n).
    { intros n Hn.
      destruct (isEnabled_set (instancePluginConfig pm) pm' pluginName b n eq_refl) as [H _].
      rewrite (H Hn). reflexivity. }
    split; [exact Hother|]. split; [reflexivity|]. split; [|split].
    + cbn [plugins]. rewrite bool_decide_eq_true_2 by exact Hin. f_equal. subst pm'.
      cbn [pluginConfigs instancePluginConfig pm_phone]. f_equal.
      apply set_set.
    + intros Hset.
      destruct (isEnabled_set (instancePluginConfig pm) pm' pluginName b pluginName eq_refl)
        as [_ H].
      assert (Hsame : isEnabled pm' pluginName = b) by (apply H; [reflexivity|exact Hset]).
      split; [exact Hsame|].
      intros n. rewrite !elem_of_invoked. cbn [plugins].
      destruct (decide (n = pluginName)) as [->|Hn].
      * rewrite Hsame. split.
        -- intros [_ Hb]. left. split; [reflexivity|exact Hb].
        -- intros [[_ Hb]|[Hne _]]; [split; assumption|congruence].
      * rewrite (Hother n Hn). split.
        -- intros H'. right. split; assumption.
        -- intros [[He _]|[_ H']]; [congruence|exact H'].
    + intros Hp Hown.
      assert (Hpm : pm' = pm).
      { subst pm'. unfold Js.set.
        rewrite (bool_decide_eq_true_2 _ Hp), (bool_decide_eq_true_2 _ Hown). cbn [andb].
        destruct pm. reflexivity. }
      split; [exact Hpm|]. rewrite Hpm.
      rewrite (isEnabled_absent pm pluginName Hown). subst pluginName. reflexivity.
Qed.

Lemma setInstancePlugin_round_trip_witness :
  exists pm',
    setInstancePlugin Fixture.pm1 "anti-mention" true = Some pm'
    /\ isEnabled pm' "anti-mention" = true
    /\ invoked pm' = ["welcome-group"; "anti-mention"].
Proof.
  destruct (setInstancePlugin_round_trip Fixture.pm1 "anti-mention" true) as [_ H].
  destruct H as (pm' & H1 & _ & _ & _ & H2 & _).
  { cbn [Fixture.pm1 plugins]. rewrite !elem_of_cons. right. left. reflexivity. }
  exists pm'. split; [exact H1|].
  split; [apply H2; left; discriminate|].
  vm_compute in H1. injection H1 as <-. vm_compute. reflexivity.
Defined.

(** X11. Setting several switches at once merges them over the ones the
    instance has: a name in the argument gets the value given, whatever
    it is, and is enabled when the value is truthy; any other keeps its
    own.  No name is checked against the loaded plugins, but a name that
    is not loaded is never called.  Setting the same switches again, or
    none, changes nothing. *)
Theorem setInstancePluginConfig_merge (pm : PluginManager)
    (pluginConfig : gmap string Js.json) :
  let pm' := setInstancePluginConfig pm pluginConfig in
  let given n := from_option (fun v => Js.truthy (Js.of_json v)) (isEnabled pm n)
                   (pluginConfig !! n) in
  (forall n, isEnabled pm' n = given n)
  /\ plugins pm' = plugins pm
  /\ (forall n, n ∈ invoked pm' -> n ∈ plugins pm)
  /\ (forall n, n ∈ invoked pm' <-> n ∈ plugins pm /\ given n = true)
  /\ setInstancePluginConfig pm' pluginConfig = pm'
  /\ setInstancePluginConfig pm ∅ = pm.
Proof.
  cbv zeta.
  assert (Hlook : forall n, isEnabled (setInstancePluginConfig pm pluginConfig) n
                            = from_option (fun v => Js.truthy (Js.of_json v)) (isEnabled pm n)
                                (pluginConfig !! n)).
  { intros n. unfold isEnabled, instanceEnabled, Js.get, setInstancePluginConfig. cbn.
    destruct (pluginConfig !! n) as [v|] eqn:Hn.
    - rewrite (lookup_union_Some_l _ _ _ _ Hn). cbn. destruct v; reflexivity.
    - rewrite (lookup_union_r _ _ _ Hn). reflexivity. }
  split; [exact Hlook|]. split; [reflexivity|]. split; [|split; [|split]].
  - intros n Hn. apply elem_of_invoked in Hn. apply Hn.
  - intros n. rewrite elem_of_invoked, Hlook. reflexivity.
  - unfold setInstancePluginConfig. cbn. f_equal.
    rewrite (assoc_L (∪)), (idemp_L (∪)). reflexivity.
  - unfold setInstancePluginConfig. rewrite (left_id_L ∅ (∪)). destruct pm. reflexivity.
Qed.

Import Plugins.

(** ** The switch of the plugin itself *)

(** A handler is called when no call before it in the chain throws. *)
Lemma call_plugins_reaches E (f : string -> Props) names n :
  n ∈ names ->
  (forall n' error, n' ∈ names -> n' <> n -> plugin_outcome E n' (f n') <> Throws error) ->
  (n, f n) ∈ (call_plugins E ((fun n => (n, f n)) <$> names)).1.
Proof.
  induction names as [|x names IH]; intros Hin Hno; [inversion Hin|].
  cbn [fmap list_fmap call_plugins fst snd].
  destruct (decide (x = n)) as [->|Hx].
  - destruct (plugin_outcome E n (f n)); cbn [fst]; apply elem_of_cons; left; reflexivity.
  - apply elem_of_cons in Hin as [->|Hin]; [congruence|].
    assert (Hrest : (n, f n) ∈ (call_plugins E ((fun n => (n, f n)) <$> names)).1).
    { apply IH; [exact Hin|]. intros n' error Hn'. apply Hno. apply elem_of_cons. right.
      exact Hn'. }
    destruct (plugin_outcome E x (f x)) eqn:Ho; cbn [fst];
      try (apply elem_of_cons; right; exact Hrest).
    destruct (Hno x error (ltac:(apply elem_of_cons; left; reflexivity)) Hx Ho).
Qed.

(** X12. The switch of the plugin itself (enablePlugin, disablePlugin)
    does not decide whether the chain calls the handler: the handlers
    the chain is to call stay the same.  What it changes is the [enabled]
    property the handler receives, which becomes the value written, and
    the status reported for the plugin; the other plugins get what they
    got.  A plugin enabled for the instance is called with that value
    when no call of another handler throws.  For a name that is not loaded
    it returns false and changes nothing. *)
Theorem plugin_switch_only_sets_property (pm : PluginManager) (pluginName : string) (b : bool) :
  let pm' := (set_default_enabled pm pluginName b).2 in
  (pluginName ∉ plugins pm -> set_default_enabled pm pluginName b = (false, pm))
  /\ (pluginName ∈ plugins pm ->
      (set_default_enabled pm pluginName b).1 = true
      /\ invoked pm' = invoked pm
      /\ (forall message, props_enabled (props_for pm' pluginName message) = Js.VBool b)
      /\ (forall n message, n <> pluginName -> props_for pm' n message = props_for pm n message)
      /\ getPluginStatus pm' !! pluginName = Some (Some b)
      /\ (forall E r w inst message,
            heap w !! r = Some inst -> pluginManager inst = pm' ->
            exists l,
              out (after (executePlugins E r message) w) = (out w ++ l)%list
              /\ (forall props, (pluginName, props) ∈ plugin_calls l ->
                    props_enabled props = Js.VBool b)
              /\ (isEnabled pm pluginName = true ->
                  (forall n props error, n <> pluginName ->
                     plugin_outcome E n props <> Throws error) ->
                  exists props, (pluginName, props) ∈ plugin_calls l
                                /\ props_enabled props = Js.VBool b))).
Proof.
  cbv zeta. unfold set_default_enabled. split; intros Hin.
  - rewrite bool_decide_eq_false_2 by exact Hin. reflexivity.
  - rewrite bool_decide_eq_true_2 by exact Hin. cbn [fst snd].
    set (pm' := {| plugins := plugins pm;
                   pluginConfigs := <[pluginName:=with_enabled b (pluginConfigs pm !! pluginName)]>
                                      (pluginConfigs pm);
                   instancePluginConfig := instancePluginConfig pm; pm_phone := pm_phone pm |}).
    assert (Hprops : forall message,
               props_enabled (props_for pm' pluginName message) = Js.VBool b).
    { intros message. unfold props_for. subst pm'. cbn. rewrite lookup_insert_eq. reflexivity. }
    split; [reflexivity|]. split; [reflexivity|]. split; [exact Hprops|]. split; [|split].
    + intros n message Hn. unfold props_for, isEnabled. subst pm'. cbn.
      rewrite lookup_insert_ne by congruence. reflexivity.
    + unfold getPluginStatus. subst pm'. cbn. rewrite lookup_fmap, lookup_insert_eq. reflexivity.
    + intros E r w inst message Hr Hpm.
      destruct (executePlugins_run E r message w inst Hr) as (_ & l & Hout & Hcalls & _).
      rewrite Hpm in Hcalls.
      exists l. split; [exact Hout|]. split.
      * intros props Hc. rewrite Hcalls in Hc.
        destruct (call_plugins_prefix E (chain pm' message)) as [rest Hrest].
        assert (Hc' : (pluginName, props) ∈ chain pm' message).
        { rewrite Hrest. apply elem_of_app. left. exact Hc. }
        unfold chain in Hc'. apply list_elem_of_fmap in Hc' as (n & Heq & _).
        injection Heq as <- ->. apply Hprops.
      * intros Hen Hno. exists (props_for pm' pluginName message).
        split; [|apply Hprops]. rewrite Hcalls. unfold chain_calls, chain.
        apply (call_plugins_reaches E (fun n => props_for pm' n message)).
        -- apply elem_of_invoked. split; [exact Hin|exact Hen].
        -- intros n' error _ Hne. apply Hno. exact Hne.
Qed.

Lemma plugin_switch_only_sets_property_witness :
  invoked (disablePlugin Fixture.pm1 "welcome-group").2 = ["welcome-group"]
  /\ props_enabled (props_for (disablePlugin Fixture.pm1 "welcome-group").2 "welcome-group"
                      (Upstream Fixture.message1)) = Js.VBool false.
Proof.
  destruct (plugin_switch_only_sets_property Fixture.pm1 "welcome-group" false) as [_ H].
  destruct H as (_ & H1 & H2 & _).
  { cbn [Fixture.pm1 plugins]. rewrite !elem_of_cons. left. reflexivity. }
  unfold disablePlugin. split; [rewrite H1; reflexivity|apply H2].
Defined.

(** ** Loading the plugin files *)

Lemma load_file_phone phone pm file : pm_phone (load_file phone pm file).1 = pm_phone pm.
Proof. unfold load_file. destruct file.2; reflexivity. Qed.

Lemma load_files_phone pm files : pm_phone (load_files pm files).1 = pm_phone pm.
Proof.
  revert pm. induction files as [|file files IH]; intros pm; [reflexivity|].
  cbn [load_files]. cbv zeta. cbn [fst]. rewrite IH. apply load_file_phone.
Qed.

Lemma load_files_override pm files :
  instancePluginConfig (load_files pm files).1 = instancePluginConfig pm.
Proof.
  revert pm. induction files as [|file files IH]; intros pm; [reflexivity|].
  cbn [load_files]. cbv zeta. cbn [fst]. rewrite IH.
  unfold load_file. destruct file.2; reflexivity.
Qed.

Lemma elem_of_map_set_key n name keys : n ∈ map_set_key name keys <-> n ∈ keys \/ n = name.
Proof.
  unfold map_set_key. case_bool_decide as Hin.
  - split; [left; assumption|]. intros [Hn| ->]; assumption.
  - rewrite elem_of_app, list_elem_of_singleton. reflexivity.
Qed.

Lemma NoDup_map_set_key name keys : NoDup keys -> NoDup (map_set_key name keys).
Proof.
  intros Hnd. unfold map_set_key. case_bool_decide as Hin; [exact Hnd|].
  apply NoDup_app. split; [exact Hnd|]. split.
  - intros x Hx Hx'. apply list_elem_of_singleton in Hx'. subst x. contradiction.
  - apply NoDup_singleton.
Qed.

Lemma load_files_plugins pm files n :
  n ∈ plugins (load_files pm files).1
  <-> n ∈ plugins pm \/ exists file, file ∈ files /\ file.1 = n /\ registers file = true.
Proof.
  revert pm. induction files as [|[name outcome] files IH]; intros pm.
  - cbn. split; [left; assumption|]. intros [H|(f & Hf & _)]; [exact H|].
    apply elem_of_nil in Hf. contradiction.
  - cbn [load_files]. cbv zeta. cbn [fst]. rewrite IH. unfold load_file. cbn [fst snd].
    assert (Hrest : (exists file, file ∈ (name, outcome) :: files /\ file.1 = n
                                  /\ registers file = true)
                    <-> (name = n /\ registers (name, outcome) = true)
                        \/ exists file, file ∈ files /\ file.1 = n /\ registers file = true).
    { split.
      - intros (f & Hf & Hn & Hreg). apply elem_of_cons in Hf as [->|Hf].
        + left. split; assumption.
        + right. exists f. repeat split; assumption.
      - intros [[Hn Hreg]|(f & Hf & Hn & Hreg)].
        + eexists. split; [apply elem_of_cons; left; reflexivity|]. split; assumption.
        + exists f. split; [apply elem_of_cons; right; exact Hf|]. split; assumption. }
    rewrite Hrest. unfold registers. cbn [fst snd].
    destruct outcome as [error|error|config]; cbn [fst plugins];
      rewrite ?elem_of_map_set_key; intuition (try discriminate; eauto).
Qed.

Lemma load_files_NoDup pm files :
  NoDup (plugins pm) -> NoDup (plugins (load_files pm files).1).
Proof.
  revert pm. induction files as [|[name outcome] files IH]; intros pm Hnd; [exact Hnd|].
  cbn [load_files]. cbv zeta. cbn [fst]. apply IH. unfold load_file. cbn [fst snd].
  destruct outcome; cbn [fst plugins]; [exact Hnd| |]; apply NoDup_map_set_key, Hnd.
Qed.

Lemma load_files_errors pm files :
  (load_files pm files).2 = LogError <$> omap (load_error_line (pm_phone pm)) files.
Proof.
  revert pm. induction files as [|[name outcome] files IH]; intros pm; [reflexivity|].
  cbn [load_files]. cbv zeta. cbn [snd fst]. rewrite IH, load_file_phone.
  unfold load_file, load_error_line. cbn [fst snd]. destruct outcome; reflexivity.
Qed.

(** The default configurations after loading: the last file that sets
    one under a name decides, the names no file sets one under keep
    theirs. *)
Lemma load_files_configs pm files n :
  pluginConfigs (load_files pm files).1 !! n
  = from_option Some (pluginConfigs pm !! n)
      (last (omap (fun file => if bool_decide (file.1 = n) then configures file else None)
               files)).
Proof.
  revert pm. induction files as [|[name outcome] files IH]; intros pm; [reflexivity|].
  cbn [load_files]. cbv zeta. cbn [fst]. rewrite IH. unfold load_file, configures.
  cbn [fst snd omap list_omap].
  destruct outcome as [error|error|config]; cbn [fst pluginConfigs];
    try (destruct (bool_decide (name = n)); reflexivity).
  match goal with |- context [last ?l] => generalize l end. intros l.
  case_bool_decide as Hn.
  - subst name. rewrite lookup_insert_eq. destruct l as [|x l]; [reflexivity|].
    change (last (default_config config :: x :: l)) with (last (x :: l)).
    destruct (last (x :: l)) eqn:Hl; [reflexivity|].
    apply last_None in Hl. discriminate.
  - rewrite lookup_insert_ne by exact Hn. reflexivity.
Qed.

(** The loop of loadPlugins, run at once. *)
Lemma loadPlugins_run E r w inst :
  heap w !! r = Some inst ->
  loadPlugins E r w
  = (inr tt,
     set_out (fun o => (o ++ (load_files (pluginManager inst) (plugin_files E)).2)%list)
       (set_heap (fun h => alter (set_pluginManager
                                    (load_files (pluginManager inst) (plugin_files E)).1) r h) w)).
Proof.
  unfold loadPlugins. generalize (plugin_files E) as files.
  intros files. revert w inst. induction files as [|file files IH]; intros w inst Hr.
  - cbn. unfold mret, M_ret, ret. f_equal. destruct w. unfold set_out, set_heap. cbn.
    cbn in Hr. rewrite app_nil_r. f_equal. symmetry. apply alter_id.
    intros x Hx. rewrite Hr in Hx. injection Hx as <-. destruct inst. reflexivity.
  - cbn [for_each load_files]. cbv zeta. cbn [fst snd].
    set (loaded := load_file (pm_phone (pluginManager inst)) (pluginManager inst) file).
    set (w1 := set_out (fun o => (o ++ ((fun e => e) <$> loaded.2))%list)
                 (set_heap (fun h => alter (set_pluginManager loaded.1) r h) w)).
    assert (Hr1 : heap w1 !! r = Some (set_pluginManager loaded.1 inst))
      by (subst w1; cbn [heap set_out set_heap]; rewrite lookup_alter_eq, Hr; reflexivity).
    erewrite run_bind_inr.
    2:{ rewrite (run_bind_inr _ _ _ _ _ (run_this _ _ _ Hr)). cbv zeta. fold loaded.
        run_def. rewrite (for_each_emit (fun e => e)). reflexivity. }
    fold w1. rewrite (IH w1 _ Hr1). f_equal. subst w1. cbn [pluginManager set_pluginManager].
    destruct w. unfold set_out, set_heap. cbn. rewrite list_fmap_id, app_assoc, alter_alter_eq.
    reflexivity.
Qed.

(** X13. Loading the plugin files never throws, and a file that
    [require] fails on costs its error line and nothing else.  A file whose
    export is [null] or [undefined] is logged in the same way, but its name
    is registered before the error, without a configuration of its own.
    Afterwards the manager holds the plugins it held and every file that
    got so far, whatever failed before it, each once; the switches of the
    instance are as they were. *)
Theorem loadPlugins_isolates_failures (E : Env) (r : ref) (w : World) (inst : WhatsAppInstance) :
  heap w !! r = Some inst ->
  let w' := after (loadPlugins E r) w in
  result (loadPlugins E r) w = inr tt
  /\ exists inst' l,
      heap w' !! r = Some inst' /\ out w' = (out w ++ l)%list
      /\ (forall n, n ∈ plugins (pluginManager inst')
                    <-> n ∈ plugins (pluginManager inst)
                        \/ exists file, file ∈ plugin_files E /\ file.1 = n
                                        /\ registers file = true)
      /\ (NoDup (plugins (pluginManager inst)) -> NoDup (plugins (pluginManager inst')))
      /\ instancePluginConfig (pluginManager inst') = instancePluginConfig (pluginManager inst)
      /\ (forall n, pluginConfigs (pluginManager inst') !! n
                    = from_option Some (pluginConfigs (pluginManager inst) !! n)
                        (last (omap (fun file => if bool_decide (file.1 = n)
                                                 then configures file else None)
                                 (plugin_files E))))
      /\ l = LogError <$> omap (load_error_line (pm_phone (pluginManager inst))) (plugin_files E)
      /\ List.length l
         = List.length (List.filter (fun file => match file.2 with
                                                 | Exports _ => false
                                                 | _ => true
                                                 end)
                          (plugin_files E)).
Proof.
  intros Hr. cbv zeta. unfold after, result. rewrite (loadPlugins_run E r w inst Hr).
  cbn [fst snd]. split; [reflexivity|].
  eexists _, _. split.
  { cbn [heap set_out set_heap]. rewrite lookup_alter_eq, Hr. reflexivity. }
  split; [reflexivity|]. cbn [pluginManager set_pluginManager].
  split; [intros n; apply load_files_plugins|].
  split; [apply load_files_NoDup|].
  split; [apply load_files_override|].
  split; [intros n; apply load_files_configs|].
  split; [apply load_files_errors|].
  rewrite load_files_errors, length_fmap.
  generalize (pm_phone (pluginManager inst)) as phone. intros phone.
  induction (plugin_files E) as [|[name [error|error|config]] files IH]; [reflexivity| | |].
  - cbn. f_equal. exact IH.
  - cbn. f_equal. exact IH.
  - cbn. exact IH.
Qed.

Lemma loadPlugins_isolates_failures_witness :
  exists inst',
    heap (after (loadPlugins Fixture.env0 0)
            (Fixture.world_with (new_WhatsAppInstance Fixture.row1))) !! 0%nat = Some inst'
    /\ ("anti-mention" ∈ plugins (pluginManager inst')).
Proof.
  destruct (loadPlugins_isolates_failures Fixture.env0 0
              (Fixture.world_with (new_WhatsAppInstance Fixture.row1))
              (new_WhatsAppInstance Fixture.row1) eq_refl)
    as (_ & inst' & l & H1 & _ & H2 & _).
  exists inst'. split; [exact H1|]. apply H2. right. exists ("anti-mention", Exports None).
  split; [|split; reflexivity].
  cbn [Fixture.env0 plugin_files]. rewrite !elem_of_cons. right. left. reflexivity.
Defined.

(** A file whose export is [null]: it is logged as failed and its name
    is registered all the same. *)
Example load_file_null_export :
  let loaded := load_file (Some Fixture.phone1) Fixture.pm1
                  ("broken", ConfigThrows "Cannot read properties of null (reading 'config')") in
  plugins loaded.1 = ["welcome-group"; "anti-mention"; "broken"]
  /\ pluginConfigs loaded.1 !! "broken" = None
  /\ loaded.2
     = [LogError ("Failed to load plugin broken for instance 628123456789: "
                  ++ "Cannot read properties of null (reading 'config')")].
Proof. vm_compute. repeat split; reflexivity. Qed.

(** The plugins after loading depend on the ones before and on the files
    only. *)
Lemma load_files_plugins_eq pm1 pm2 files :
  plugins pm1 = plugins pm2 ->
  plugins (load_files pm1 files).1 = plugins (load_files pm2 files).1.
Proof.
  revert pm1 pm2. induction files as [|[name outcome] files IH]; intros pm1 pm2 H; [exact H|].
  cbn [load_files]. cbv zeta. cbn [fst]. apply IH. unfold load_file. cbn [fst snd].
  destruct outcome; cbn [fst plugins]; [exact H| |]; rewrite H; reflexivity.
Qed.

Lemma load_files_again pm files :
  (load_files (clear_plugins (load_files (clear_plugins pm) files).1) files).1
  = (load_files (clear_plugins pm) files).1.
Proof.
  set (pm1 := (load_files (clear_plugins pm) files).1).
  set (pm2 := (load_files (clear_plugins pm1) files).1).
  assert (H1 : plugins pm2 = plugins pm1) by (apply load_files_plugins_eq; reflexivity).
  assert (H2 : pluginConfigs pm2 = pluginConfigs pm1).
  { apply map_eq. intros n. subst pm2. rewrite load_files_configs.
    change (pluginConfigs (clear_plugins pm1)) with (pluginConfigs pm1).
    subst pm1. rewrite load_files_configs.
    destruct (last _); reflexivity. }
  assert (H3 : instancePluginConfig pm2 = instancePluginConfig pm1).
  { subst pm2. rewrite load_files_override. reflexivity. }
  assert (H4 : pm_phone pm2 = pm_phone pm1).
  { subst pm2. rewrite load_files_phone. reflexivity. }
  destruct pm2, pm1. cbn in H1, H2, H3, H4. congruence.
Qed.

Lemma reloadPlugins_run E r w inst :
  heap w !! r = Some inst ->
  let pm' := load_files (clear_plugins (pluginManager inst)) (plugin_files E) in
  reloadPlugins E r w
  = (inr tt, set_out (fun o => (o ++ pm'.2)%list)
               (set_heap (fun h => alter (set_pluginManager pm'.1) r h) w)).
Proof.
  intros Hr. cbv zeta. unfold reloadPlugins. run_def.
  erewrite loadPlugins_run.
  2:{ cbn [heap set_heap]. rewrite lookup_alter_eq, Hr. reflexivity. }
  cbn [pluginManager set_pluginManager]. f_equal.
  destruct w. unfold set_out, set_heap. cbn. rewrite alter_alter_eq. reflexivity.
Qed.

(** X14. Reloading the plugins never throws and leaves the manager with
    exactly the plugins whose file [require] returns for now, a file whose
    export is [null] included, whatever it held before; the switches of
    the instance are as they were.  Reloading a second time changes no
    instance object. *)
Theorem reloadPlugins_idempotent (E : Env) (r : ref) (w : World) (inst : WhatsAppInstance) :
  heap w !! r = Some inst ->
  let w1 := after (reloadPlugins E r) w in
  let w2 := after (reloadPlugins E r) w1 in
  result (reloadPlugins E r) w = inr tt
  /\ result (reloadPlugins E r) w1 = inr tt
  /\ heap w2 = heap w1
  /\ exists inst1,
      heap w1 !! r = Some inst1
      /\ (forall n, n ∈ plugins (pluginManager inst1)
                    <-> exists file, file ∈ plugin_files E /\ file.1 = n
                                     /\ registers file = true)
      /\ NoDup (plugins (pluginManager inst1))
      /\ instancePluginConfig (pluginManager inst1) = instancePluginConfig (pluginManager inst).
Proof.
  intros Hr. cbv zeta. unfold after, result.
  rewrite (reloadPlugins_run E r w inst Hr). cbv zeta. cbn [fst snd].
  set (pm1 := (load_files (clear_plugins (pluginManager inst)) (plugin_files E)).1).
  match goal with |- context [reloadPlugins E r ?x] => set (w1 := x) end.
  assert (Hr1 : heap w1 !! r = Some (set_pluginManager pm1 inst)).
  { subst w1. cbn [heap set_out set_heap]. rewrite lookup_alter_eq, Hr. reflexivity. }
  rewrite (reloadPlugins_run E r w1 _ Hr1). cbv zeta. cbn [fst snd].
  split; [reflexivity|]. split; [reflexivity|]. split.
  - cbn [heap set_out set_heap pluginManager set_pluginManager].
    subst pm1. rewrite load_files_again. subst w1. cbn [heap set_out set_heap].
    rewrite alter_alter_eq. reflexivity.
  - eexists. split; [exact Hr1|]. cbn [pluginManager set_pluginManager]. subst pm1.
    split; [|split].
    + intros n. rewrite load_files_plugins. cbn [clear_plugins plugins]. split.
      * intros [H|H]; [apply elem_of_nil in H; contradiction|exact H].
      * intros H. right. exact H.
    + apply load_files_NoDup. apply NoDup_nil_2.
    + rewrite load_files_override. reflexivity.
Qed.

Lemma reloadPlugins_idempotent_witness :
  result (reloadPlugins Fixture.env0 0) Fixture.world0 = inr tt
  /\ heap (after (reloadPlugins Fixture.env0 0) (after (reloadPlugins Fixture.env0 0) Fixture.world0))
     = heap (after (reloadPlugins Fixture.env0 0) Fixture.world0).
Proof.
  destruct (reloadPlugins_idempotent Fixture.env0 0 Fixture.world0 Fixture.inst1 eq_refl)
    as (H1 & _ & H2 & _).
  split; [exact H1|exact H2].
Defined.

(** ** Restarting and deleting an instance *)

Lemma restart_close_run phone w r inst :
  instances w !! phone = Some r -> heap w !! r = Some inst ->
  exists l,
    Manager.restart_close phone w
    = (inr r,
       set_out (fun o => (o ++ l)%list)
         (set_heap (fun h => alter (fun i => set_connectionStatus cs_disconnected
                                      (set_isConnected false (set_isManualRestart true i))) r h) w))
    /\ l = match sock inst with Some _ => [SockWsClose] | None => [] end.
Proof.
  intros Hi Hr. unfold Manager.restart_close, Manager.getInstance.
  run_def. rewrite Hi. run_def. unfold close.
  destruct (sock inst) as [s|] eqn:Hs.
  all: erewrite run_bind_inr;
    [|erewrite run_bind_inr; [|apply run_this; lookup_heap];
      cbn [sock set_isManualRestart]; rewrite Hs; do 2 run_def; reflexivity].
  all: eexists; (split; [|reflexivity]).
  all: unfold mret, M_ret, ret; f_equal.
  all: destruct w; unfold set_out, set_heap; cbn;
    rewrite ?app_nil_r, !alter_alter_eq; reflexivity.
Qed.

(** X15. A restart request protects the session: once restartInstance has
    set the flag and closed the transport, the close event that follows is
    never treated as a logout, whatever code it carries other than 515 and
    however many reconnection attempts were made.  The instance stays in
    the manager, its credential directory stays on disk, no reconnection
    timer is armed, the attempt counter is kept, and the row is inactive. *)
Theorem restart_close_never_logs_out (E : Env) (r : ref) (u : ConnectionUpdate) (w : World)
    (inst : WhatsAppInstance) :
  managed r inst w -> close_event u -> statusCode u <> Some 515%Z ->
  let phone := row_phone (instanceData inst) in
  let w1 := after (Manager.restart_close phone) w in
  let w' := after (onConnectionUpdate E r u) w1 in
  result (Manager.restart_close phone) w = inr r
  /\ flag_of w1 r = Some true
  /\ result (onConnectionUpdate E r u) w1 = inr tt
  /\ status_of w' r = Some cs_disconnected
  /\ flag_of w' r = Some false
  /\ attempts_of w' r = Some (reconnectAttempts inst)
  /\ instances w' !! phone = Some r
  /\ auth_dirs w' = auth_dirs w
  /\ timers w' = timers w
  /\ persisted_status w' (row_id (instanceData inst)) = Some st_inactive.
Proof.
  intros (Hr & Hi & Hrow) Hclose Hcode. cbv zeta. unfold after, result.
  destruct (restart_close_run _ w r inst Hi Hr) as (l & Hrun & _).
  rewrite Hrun. cbn [fst snd].
  match goal with |- context [onConnectionUpdate E r u ?x] => set (w1 := x) end.
  set (inst1 := set_connectionStatus cs_disconnected
                  (set_isConnected false (set_isManualRestart true inst))).
  assert (Hr1 : heap w1 !! r = Some inst1).
  { subst w1. cbn [heap set_out set_heap]. rewrite lookup_alter_eq, Hr. reflexivity. }
  destruct (onClose_manual_restart E r u w1 inst1 Hr1 Hrow eq_refl Hcode)
    as (w2 & Hrun2 & Hh2 & Htm2 & Ht2 & Hi2 & Ha2).
  destruct (onConnectionUpdate_close E r u w1 w2 Hclose Hrun2)
    as (w3 & Hrun3 & Hh3 & Htm3 & Ht3 & Hi3 & Ha3).
  { rewrite Hh2, lookup_alter_eq, Hr1. eexists. reflexivity. }
  rewrite Hrun3. cbn [fst snd].
  unfold flag_of, status_of, attempts_of, persisted_status.
  rewrite Hr1, Hh3, Hh2, Hi3, Hi2, Ha3, Ha2, Htm3, Htm2, Ht3, Ht2.
  rewrite lookup_alter_eq, Hr1.
  split; [reflexivity|]. split; [reflexivity|]. split; [reflexivity|].
  split; [reflexivity|]. split; [reflexivity|]. split; [reflexivity|].
  split; [exact Hi|]. split; [reflexivity|]. split; [reflexivity|].
  apply persisted_after_set_status. exact Hrow.
Qed.

Lemma restart_close_never_logs_out_witness :
  status_of (after (onConnectionUpdate Fixture.env0 0 (Fixture.close_with (Some 401%Z)))
               (after (Manager.restart_close Fixture.phone1)
                  (Fixture.world_with Fixture.inst_at_max))) 0
  = Some cs_disconnected
  /\ auth_dirs (after (onConnectionUpdate Fixture.env0 0 (Fixture.close_with (Some 401%Z)))
                  (after (Manager.restart_close Fixture.phone1)
                     (Fixture.world_with Fixture.inst_at_max)))
     = auth_dirs (Fixture.world_with Fixture.inst_at_max).
Proof.
  destruct (restart_close_never_logs_out Fixture.env0 0 (Fixture.close_with (Some 401%Z))
              (Fixture.world_with Fixture.inst_at_max) Fixture.inst_at_max)
    as (_ & _ & _ & H1 & _ & _ & _ & H2 & _).
  - split; [reflexivity|]. split; [reflexivity|]. eexists. reflexivity.
  - split; reflexivity.
  - discriminate.
  - split; [exact H1|exact H2].
Defined.

Lemma findById_filter_out rows id id' :
  Store.findById (List.filter (fun row => negb (id_is id row)) rows) id'
  = if bool_decide (id' = id) then None else Store.findById rows id'.
Proof.
  unfold Store.findById. induction rows as [|row rows IH].
  - cbn. destruct (bool_decide (id' = id)); reflexivity.
  - change (List.filter (fun row => negb (id_is id row)) (row :: rows))
      with (if negb (id_is id row) then row :: List.filter (fun row => negb (id_is id row)) rows
            else List.filter (fun row => negb (id_is id row)) rows).
    change (List.find (id_is id') (row :: rows))
      with (if id_is id' row then Some row else List.find (id_is id') rows).
    destruct (id_is id row) eqn:Hrow; cbn [negb].
    + rewrite IH. unfold id_is in Hrow. apply bool_decide_eq_true in Hrow.
      case_bool_decide as H1; [reflexivity|].
      assert (id_is id' row = false) as ->
        by (unfold id_is; apply bool_decide_eq_false_2; congruence).
      reflexivity.
    + change (List.find (id_is id') (row :: ?l))
        with (if id_is id' row then Some row else List.find (id_is id') l).
      rewrite IH. unfold id_is in Hrow. apply bool_decide_eq_false in Hrow.
      destruct (id_is id' row) eqn:Hid'; [|reflexivity].
      unfold id_is in Hid'. apply bool_decide_eq_true in Hid'.
      rewrite (bool_decide_eq_false_2 (id' = id)) by congruence. reflexivity.
Qed.

(** X16. Deleting a managed instance whose row is in the store logs it
    out, takes it out of the manager, removes its row and its credential
    directory, and leaves the rows of the other instances as they were
    (the row removed is the one the store holds for the phone). *)
Theorem deleteInstance_removes (E : Env) (r : ref) (w : World) (inst : WhatsAppInstance) :
  managed r inst w ->
  row_id <$> Store.findByPhone (tbl_instance w) (row_phone (instanceData inst))
  = Some (row_id (instanceData inst)) ->
  let phone := row_phone (instanceData inst) in
  let id := row_id (instanceData inst) in
  let w' := after (deleteInstance E phone false) w in
  result (deleteInstance E phone false) w = inr tt
  /\ instances w' !! phone = None
  /\ Store.findById (tbl_instance w') id = None
  /\ (forall id', id' <> id ->
        Store.findById (tbl_instance w') id' = Store.findById (tbl_instance w) id')
  /\ (phone ∉ auth_dirs w')
  /\ status_of w' r = Some cs_disconnected
  /\ timers w' = timers w.
Proof.
  intros (Hr & Hi & Hrow) Hphone. cbv zeta. unfold after, result, deleteInstance.
  destruct (disconnect_run E r w inst Hr Hrow) as (w1 & Hrun & Hh & Ht & Hin & Ha & Htm & _).
  destruct (Store.findByPhone (tbl_instance w) (row_phone (instanceData inst)))
    as [row|] eqn:Hfind; [|discriminate]. injection Hphone as Hid.
  erewrite run_try_inr.
  2:{ run_def. rewrite Hi. erewrite run_bind_inr.
      2:{ rewrite (run_bind_inr _ _ _ _ _ Hrun). reflexivity. }
      cbn [negb]. unfold instanceService.findByPhone, instanceService.delete.
      erewrite run_bind_inr.
      2:{ run_def. cbn [tbl_instance set_instances]. rewrite Ht, findByPhone_set_status, Hfind.
          cbn [fmap option_fmap option_map]. run_def.
          cbn [tbl_instance set_instances]. rewrite Ht.
          assert (Hsame : row_id (if id_is (row_id (instanceData inst)) row
                                  then with_status st_inactive row else row)
                          = row_id (instanceData inst))
            by (destruct (id_is _ row); exact Hid).
          rewrite Hsame.
          destruct (is_Some_findById_set_status _ (row_id (instanceData inst)) st_inactive _ Hrow)
            as [row' ->].
          reflexivity. }
      reflexivity. }
  cbn [fst snd instances auth_dirs tbl_instance timers heap set_auth_dirs set_tbl_log
       set_tbl_history set_tbl_webhook set_tbl_message set_tbl_instance set_instances].
  unfold status_of.
  cbn [fst snd instances auth_dirs tbl_instance timers heap set_auth_dirs set_tbl_log
       set_tbl_history set_tbl_webhook set_tbl_message set_tbl_instance set_instances].
  rewrite Hh, Ht, Hin, Ha, Htm.
  split; [reflexivity|]. split; [apply lookup_delete_eq|].
  split; [rewrite findById_filter_out, bool_decide_eq_true_2 by reflexivity; reflexivity|].
  split.
  { intros id' Hne. rewrite findById_filter_out, bool_decide_eq_false_2 by exact Hne.
    rewrite findById_set_status, bool_decide_eq_false_2 by congruence.
    destruct (Store.findById (tbl_instance w) id'); reflexivity. }
  split; [apply rmSync_removes|].
  split; [rewrite lookup_alter_eq, Hr; reflexivity|reflexivity].
Qed.

Lemma deleteInstance_removes_witness :
  result (deleteInstance Fixture.env0 Fixture.phone1 false) Fixture.world0 = inr tt
  /\ tbl_instance (after (deleteInstance Fixture.env0 Fixture.phone1 false) Fixture.world0) = [].
Proof.
  destruct (deleteInstance_removes Fixture.env0 0 Fixture.world0 Fixture.inst1)
    as (H1 & _).
  - split; [reflexivity|]. split; [reflexivity|]. eexists. reflexivity.
  - reflexivity.
  - split; [exact H1|]. vm_compute. reflexivity.
Defined.

(** What [rmSync] leaves: the directories that are not at or under the
    path. *)
Lemma elem_of_rmSync E phone q d :
  q ∈ rmSync E phone d <-> q ∈ d /\ ~ authPath E phone `prefix_of` authPath E q.
Proof.
  unfold rmSync, Path.within. rewrite elem_of_filter, bool_decide_eq_false. tauto.
Qed.

(** The phone "." names the directory auth itself, so that deleting it
    takes the credentials of every instance. *)
Example deleteInstance_dot :
  deleteInstance Fixture.env0 "." false Fixture.world0
  = (inr tt, set_auth_dirs (fun _ => ∅) Fixture.world0).
Proof. vm_compute. reflexivity. Qed.

(** X17. Two edges of deleteInstance.  For a phone that neither the manager
    nor the store knows it succeeds, and all it does is to remove the path
    auth/<phone> as path.join resolves it: a credential directory stays
    exactly when its path is not at or under that one.  For an instance of
    the manager whose row is gone from the store it throws the error of the
    status update: the instance has been logged out of the transport, but
    it stays in the manager, and its credential directory stays on disk. *)
Theorem deleteInstance_edges (E : Env) (phone : string) (keepDatabaseRecord : bool) (w : World) :
  (instances w !! phone = None ->
   Store.findByPhone (tbl_instance w) phone = None ->
   deleteInstance E phone keepDatabaseRecord w
   = (inr tt, set_auth_dirs (rmSync E phone) w)
   /\ forall q, q ∈ auth_dirs (after (deleteInstance E phone keepDatabaseRecord) w)
               <-> q ∈ auth_dirs w /\ ~ authPath E phone `prefix_of` authPath E q)
  /\ (forall r inst,
        instances w !! phone = Some r -> heap w !! r = Some inst ->
        Store.findById (tbl_instance w) (row_id (instanceData inst)) = None ->
        let w' := after (deleteInstance E phone keepDatabaseRecord) w in
        result (deleteInstance E phone keepDatabaseRecord) w = inl "Record to update not found."
        /\ instances w' = instances w
        /\ auth_dirs w' = auth_dirs w
        /\ tbl_instance w' = tbl_instance w
        /\ status_of w' r = Some cs_disconnected
        /\ (sock inst <> None -> SockLogout ∈ out w')).
Proof.
  split.
  - intros Hi Hrow.
    assert (Hrun : deleteInstance E phone keepDatabaseRecord w
                   = (inr tt, set_auth_dirs (rmSync E phone) w)).
    { unfold deleteInstance.
      erewrite run_try_inr; [reflexivity|].
      run_def. rewrite Hi. run_def. unfold instanceService.findByPhone.
      destruct keepDatabaseRecord; cbn [negb].
      + run_def. reflexivity.
      + erewrite run_bind_inr; [reflexivity|]. run_def.
        cbn [tbl_instance]. rewrite Hrow. reflexivity. }
    split; [exact Hrun|]. intros q. unfold after. rewrite Hrun.
    cbn [snd auth_dirs set_auth_dirs]. apply elem_of_rmSync.
  - intros r inst Hi Hr Hrow. cbv zeta. unfold after, result, deleteInstance.
    assert (Hdis : exists l,
               disconnect E r w
               = (inl "Record to update not found.",
                  set_heap (fun h => alter (fun i => set_connectionStatus cs_disconnected
                                              (set_isConnected false i)) r h)
                    (set_out (fun o => (o ++ l)%list) w))
               /\ (sock inst <> None -> SockLogout ∈ l)).
    { unfold disconnect. rewrite (run_bind_inr _ _ _ _ _ (run_this _ _ _ Hr)).
      unfold instanceService.updateStatus.
      destruct (sock inst) as [s|]; [destruct (transport_logout E) as [e|]|].
      - exists [SockLogout; LogError ("Error logging out instance "
                                      ++ row_phone (instanceData inst) ++ ": " ++ e)].
        split; [|intros _; rewrite !elem_of_cons; auto].
        repeat run_def. cbn [tbl_instance set_heap set_out]. rewrite Hrow. unfold throw. f_equal.
        destruct w. unfold set_heap, set_out. cbn. rewrite alter_alter_eq, <- app_assoc.
        reflexivity.
      - exists [SockLogout]. split; [|intros _; rewrite !elem_of_cons; auto].
        repeat run_def. cbn [tbl_instance set_heap set_out]. rewrite Hrow. unfold throw. f_equal.
        destruct w. unfold set_heap, set_out. cbn. rewrite alter_alter_eq. reflexivity.
      - exists []. split; [|congruence].
        repeat run_def. cbn [tbl_instance set_heap set_out]. rewrite Hrow. unfold throw. f_equal.
        destruct w. unfold set_heap, set_out. cbn. rewrite alter_alter_eq, app_nil_r.
        reflexivity. }
    destruct Hdis as (l & Hrun & Hl).
    erewrite run_try_inl.
    2:{ run_def. rewrite Hi. erewrite run_bind_inl; [reflexivity|].
        erewrite run_bind_inl; [reflexivity|]. exact Hrun. }
    run_all. unfold status_of. cbn. rewrite lookup_alter_eq, Hr.
    repeat split. intros Hs. rewrite !elem_of_app. left. right. apply Hl, Hs.
Qed.

Lemma deleteInstance_edges_witness :
  (result (deleteInstance Fixture.env0 Fixture.phone1 false) Fixture.world_unpersisted
   = inl "Record to update not found."
   /\ instances (after (deleteInstance Fixture.env0 Fixture.phone1 false)
                   Fixture.world_unpersisted) !! Fixture.phone1 = Some 0%nat)
  /\ deleteInstance Fixture.env0 "628000000000/.." true Fixture.world0
     = (inr tt, set_auth_dirs (rmSync Fixture.env0 "628000000000/..") Fixture.world0).
Proof.
  split.
  - destruct (deleteInstance_edges Fixture.env0 Fixture.phone1 false Fixture.world_unpersisted)
      as [_ H].
    destruct (H 0%nat Fixture.inst1 eq_refl eq_refl eq_refl) as (H1 & H2 & _).
    split; [exact H1|]. rewrite H2. reflexivity.
  - destruct (deleteInstance_edges Fixture.env0 "628000000000/.." true Fixture.world0)
      as [H _].
    destruct (H eq_refl eq_refl) as [H1 _]. exact H1.
Defined.

Import Hooks.

(** ** Subscriptions *)

Lemma find_hook_toggle hooks id isEnabled id' :
  find_hook ((fun x => if hook_is id x then toggled isEnabled x else x) <$> hooks) id'
  = (fun h => if bool_decide (id' = id) then toggled isEnabled h else h) <$> find_hook hooks id'.
Proof.
  unfold find_hook. induction hooks as [|h hooks IH]; [reflexivity|].
  cbn [fmap list_fmap List.find].
  assert (Hid : hook_is id' (if hook_is id h then toggled isEnabled h else h) = hook_is id' h)
    by (destruct (hook_is id h); reflexivity).
  rewrite Hid. destruct (hook_is id' h) eqn:Hh.
  - cbn. unfold hook_is in *. apply bool_decide_eq_true in Hh.
    destruct (bool_decide (wh_id h = id)) eqn:Hd.
    + apply bool_decide_eq_true in Hd. rewrite bool_decide_eq_true_2 by congruence. reflexivity.
    + apply bool_decide_eq_false in Hd. rewrite bool_decide_eq_false_2 by congruence.
      reflexivity.
  - exact IH.
Qed.

Lemma getEnabledWebhooks_toggle_off hooks id instanceId event :
  Store.getEnabledWebhooks
    ((fun x => if hook_is id x then toggled (Some false) x else x) <$> hooks) instanceId event
  = List.filter (fun h => negb (hook_is id h)) (Store.getEnabledWebhooks hooks instanceId event).
Proof.
  unfold Store.getEnabledWebhooks. induction hooks as [|h hooks IH]; [reflexivity|].
  cbn [fmap list_fmap List.filter]. rewrite IH.
  destruct (hook_is id h) eqn:Hh; cbn.
  - rewrite andb_false_r.
    destruct (bool_decide (wh_instanceId h = instanceId) && bool_decide (wh_event h = event)
              && wh_isEnabled h); [cbn; rewrite Hh|]; reflexivity.
  - destruct (bool_decide (wh_instanceId h = instanceId) && bool_decide (wh_event h = event)
              && wh_isEnabled h); [cbn; rewrite Hh|]; reflexivity.
Qed.

Lemma toggleEnabled_run id isEnabled w h :
  find_hook (tbl_webhook w) id = Some h ->
  webhookService.toggleEnabled id isEnabled w
  = (inr (toggled isEnabled h),
     set_tbl_webhook (fmap (fun x => if hook_is id x then toggled isEnabled x else x)) w).
Proof. intros Hh. unfold webhookService.toggleEnabled. run_def. rewrite Hh. reflexivity. Qed.

(** X19. Switching a subscription off takes it out of every later
    dispatch and touches no other subscription: the posts of a dispatch
    after it are the posts there would have been before, without the ones
    of that subscription.  A missing [isEnabled] changes no subscription,
    and an unknown id throws. *)
Theorem toggleEnabled_stops_posts (E : Env) (r : ref) (event : string) (data : EventData)
    (id : nat) (w : World) (inst : WhatsAppInstance) :
  heap w !! r = Some inst ->
  let enabled := Store.getEnabledWebhooks (tbl_webhook w) (row_id (instanceData inst)) event in
  (forall h,
      find_hook (tbl_webhook w) id = Some h ->
      let w1 := after (webhookService.toggleEnabled id (Some false)) w in
      result (webhookService.toggleEnabled id (Some false)) w = inr (with_isEnabled false h)
      /\ (forall id', id' <> id -> find_hook (tbl_webhook w1) id' = find_hook (tbl_webhook w) id')
      /\ exists l,
          out (after (triggerWebhooks E r event data) w1) = (out w1 ++ l)%list
          /\ http_posts l = wh_url <$> List.filter (fun h => negb (hook_is id h)) enabled)
  /\ (forall h,
        find_hook (tbl_webhook w) id = Some h ->
        tbl_webhook (after (webhookService.toggleEnabled id None) w) = tbl_webhook w)
  /\ (find_hook (tbl_webhook w) id = None ->
      forall isEnabled,
        webhookService.toggleEnabled id isEnabled w = (inl "Record to update not found.", w)).
Proof.
  intros Hr. cbv zeta. split; [|split].
  - intros h Hh. unfold after, result. rewrite (toggleEnabled_run id _ w h Hh). cbn [fst snd].
    split; [reflexivity|]. split.
    + intros id' Hne. cbn [tbl_webhook set_tbl_webhook]. rewrite find_hook_toggle.
      rewrite bool_decide_eq_false_2 by exact Hne.
      destruct (find_hook (tbl_webhook w) id'); reflexivity.
    + match goal with |- context [triggerWebhooks E r event data ?x] => set (w1 := x) end.
      destruct (triggerWebhooks_posts E r event data w1 inst Hr)
        as (w2 & l & Hrun & _ & Hout & Hposts & _).
      exists l. rewrite Hrun. cbn [snd]. split; [exact Hout|].
      rewrite Hposts. subst w1. cbn [tbl_webhook set_tbl_webhook].
      rewrite getEnabledWebhooks_toggle_off. reflexivity.
  - intros h Hh. unfold after. rewrite (toggleEnabled_run id _ w h Hh).
    cbn [snd tbl_webhook set_tbl_webhook].
    rewrite <- (list_fmap_id (tbl_webhook w)) at 2. apply list_fmap_ext.
    intros i x _. destruct (hook_is id x); [|reflexivity]. destruct x. reflexivity.
  - intros Hnone isEnabled. unfold webhookService.toggleEnabled. run_def. rewrite Hnone.
    reflexivity.
Qed.

Lemma toggleEnabled_stops_posts_witness :
  exists l,
    out (after (triggerWebhooks Fixture.env0 0 "message.received"
                  (ReceivedData (envelope Fixture.message1) Fixture.row1))
           (after (webhookService.toggleEnabled 1 (Some false)) Fixture.world0))
    = (out (after (webhookService.toggleEnabled 1 (Some false)) Fixture.world0) ++ l)%list
    /\ http_posts l = ["http://b.test/hook"].
Proof.
  destruct (toggleEnabled_stops_posts Fixture.env0 0 "message.received"
              (ReceivedData (envelope Fixture.message1) Fixture.row1) 1 Fixture.world0
              Fixture.inst1 eq_refl) as (H & _).
  destruct (H Fixture.hookA eq_refl) as (_ & _ & l & H1 & H2).
  exists l. split; [exact H1|]. rewrite H2. reflexivity.
Defined.

Lemma find_hook_filter_out hooks id :
  find_hook (List.filter (fun x => negb (hook_is id x)) hooks) id = None.
Proof.
  unfold find_hook. induction hooks as [|h hooks IH]; [reflexivity|].
  change (List.filter (fun x => negb (hook_is id x)) (h :: hooks))
    with (if negb (hook_is id h) then h :: List.filter (fun x => negb (hook_is id x)) hooks
          else List.filter (fun x => negb (hook_is id x)) hooks).
  destruct (hook_is id h) eqn:Hh; cbn [negb]; [exact IH|].
  cbn [List.find]. rewrite Hh. exact IH.
Qed.

(** X20. The subscription endpoints of an instance check that the phone
    of the path has a row, and nothing about the subscription but its id:
    toggling or deleting through the path of one instance acts on the
    subscription with that id whichever instance it belongs to.  When the
    phone has no row they answer 500 and only log the error. *)
Theorem webhook_endpoints_ignore_owner (phone : string) (id : nat) (w : World) :
  (forall row h b,
      Store.findByPhone (tbl_instance w) phone = Some row ->
      find_hook (tbl_webhook w) id = Some h ->
      let toggle := toggleInstanceWebhook phone id (Some b) in
      let remove := deleteInstanceWebhook phone id in
      result toggle w = inr (Answer 200 (with_isEnabled b h))
      /\ find_hook (tbl_webhook (after toggle w)) id = Some (with_isEnabled b h)
      /\ wh_instanceId (with_isEnabled b h) = wh_instanceId h
      /\ result remove w = inr (Answer 200 tt)
      /\ find_hook (tbl_webhook (after remove w)) id = None)
  /\ (Store.findByPhone (tbl_instance w) phone = None ->
      forall isEnabled,
        toggleInstanceWebhook phone id isEnabled w
        = (inr (Failure 500 "Failed to toggle instance webhook" (instance_not_found phone)),
           after (emit (LogError ("Error toggling instance webhook: "
                                  ++ instance_not_found phone))) w)
        /\ deleteInstanceWebhook phone id w
           = (inr (Failure 500 "Failed to delete instance webhook" (instance_not_found phone)),
              after (emit (LogError ("Error deleting instance webhook: "
                                     ++ instance_not_found phone))) w)).
Proof.
  split.
  - intros row h b Hrow Hh. cbv zeta. unfold after, result.
    unfold toggleInstanceWebhook, deleteInstanceWebhook, instanceService.findByPhone.
    erewrite run_try_inr.
    2:{ run_def. rewrite Hrow. erewrite run_bind_inr; [|apply toggleEnabled_run; exact Hh].
        reflexivity. }
    erewrite run_try_inr.
    2:{ run_def. rewrite Hrow. unfold webhookService.delete. erewrite run_bind_inr.
        2:{ run_def. rewrite Hh. reflexivity. }
        reflexivity. }
    cbn [fst snd tbl_webhook set_tbl_webhook].
    split; [reflexivity|]. split.
    { rewrite find_hook_toggle, Hh, bool_decide_eq_true_2 by reflexivity. reflexivity. }
    split; [reflexivity|]. split; [reflexivity|]. apply find_hook_filter_out.
  - intros Hrow isEnabled.
    unfold toggleInstanceWebhook, deleteInstanceWebhook, instanceService.findByPhone.
    split.
    + erewrite run_try_inl; [reflexivity|]. run_def. rewrite Hrow. reflexivity.
    + erewrite run_try_inl; [reflexivity|]. run_def. rewrite Hrow. reflexivity.
Qed.

Lemma webhook_endpoints_ignore_owner_witness :
  let w := set_tbl_instance
             (fun t => (t ++ [{| row_id := 2; row_phone := "62811"; row_name := "I2";
                                 row_alias := None; row_status := st_active;
                                 row_pluginConfig := ∅ |}])%list) Fixture.world0 in
  wh_instanceId Fixture.hookA = 1%nat
  /\ result (toggleInstanceWebhook "62811" 1 (Some false)) w
     = inr (Answer 200 (with_isEnabled false Fixture.hookA)).
Proof.
  cbv zeta. split; [reflexivity|].
  match goal with |- result _ ?w = _ =>
    destruct (webhook_endpoints_ignore_owner "62811" 1 w) as [H _]
  end.
  edestruct H as (H1 & _); [reflexivity|reflexivity|].
  exact (H1 : result (toggleInstanceWebhook "62811" 1 (Some false)) _ = _).
Defined.

Lemma includes_here s p : String.prefix p s = true -> Phone.includes s p = true.
Proof. intros H. rewrite includes_unfold, H. reflexivity. Qed.

(** X21. Creating a subscription through the endpoint of an instance:
    a missing or empty type, event or url is answered 400 and a phone
    without a row 404, and neither changes anything; otherwise the
    subscription is stored for the row of the phone, switched on, and the
    next dispatch of its event on that instance posts to its URL. *)
Theorem createInstanceWebhook_delivers (E : Env) (phone type event url : string) (w : World) :
  type <> "" -> event <> "" -> url <> "" ->
  let create := createInstanceWebhook phone (Some type) (Some event) (Some url) in
  (Store.findByPhone (tbl_instance w) phone = None ->
   create w = (inr (Failure 404 "Instance not found" (instance_not_found phone)), w))
  /\ (forall row,
        Store.findByPhone (tbl_instance w) phone = Some row ->
        let h := {| wh_id := next_id w; wh_instanceId := row_id row; wh_type := type;
                    wh_event := event; wh_url := url; wh_isEnabled := true |} in
        result create w = inr (Answer 201 h)
        /\ tbl_webhook (after create w) = (tbl_webhook w ++ [h])%list
        /\ forall r inst data,
            heap w !! r = Some inst -> instanceData inst = row ->
            exists l,
              out (after (triggerWebhooks E r event data) (after create w))
              = (out w ++ l)%list
              /\ url ∈ http_posts l)
  /\ (forall type' event' url',
        Controller.missing type' || Controller.missing event' || Controller.missing url' = true ->
        createInstanceWebhook phone type' event' url' w
        = (inr (Failure 400 "Missing required fields" "type, event, and url are required"), w)).
Proof.
  intros Ht He Hu. cbv zeta.
  assert (Hok : bool_decide (type = "") || bool_decide (event = "") || bool_decide (url = "")
                = false).
  { rewrite !bool_decide_eq_false_2 by assumption. reflexivity. }
  split; [|split].
  - intros Hrow. unfold createInstanceWebhook, instanceService.findByPhone. rewrite Hok.
    erewrite run_try_inr; [reflexivity|]. run_def. rewrite Hrow. reflexivity.
  - intros row Hrow. unfold after, result.
    unfold createInstanceWebhook, instanceService.findByPhone. rewrite Hok.
    erewrite run_try_inr.
    2:{ run_def. rewrite Hrow. unfold webhookService.create. repeat run_def. reflexivity. }
    cbn [fst snd tbl_webhook set_tbl_webhook set_next_id].
    split; [reflexivity|]. split; [reflexivity|].
    intros r inst data Hr Hinst.
    match goal with |- context [triggerWebhooks E r event data ?x] => set (w1 := x) end.
    destruct (triggerWebhooks_posts E r event data w1 inst Hr)
      as (w2 & l & Hrun & _ & Hout & Hposts & _).
    exists l. rewrite Hrun. cbn [snd]. split; [exact Hout|].
    rewrite Hposts. apply list_elem_of_fmap.
    eexists. split; [|apply list_elem_of_In, filter_In; split;
                       [apply list_elem_of_In; subst w1; cbn [tbl_webhook set_tbl_webhook set_next_id];
                        apply elem_of_app; right; apply list_elem_of_singleton; reflexivity|]].
    + reflexivity.
    + cbn. rewrite Hinst, !bool_decide_eq_true_2 by reflexivity. reflexivity.
  - intros type' event' url' Hmiss. unfold createInstanceWebhook.
    destruct type' as [t|], event' as [e|], url' as [u|]; try reflexivity.
    cbn in Hmiss. rewrite Hmiss. reflexivity.
Qed.

Lemma createInstanceWebhook_delivers_witness :
  exists l,
    out (after (triggerWebhooks Fixture.env0 0 "message.sent"
                  (ReceivedData (envelope Fixture.message1) Fixture.row1))
           (after (createInstanceWebhook Fixture.phone1 (Some "http") (Some "message.sent")
                     (Some "http://d.test/hook")) Fixture.world0))
    = (out Fixture.world0 ++ l)%list
    /\ ("http://d.test/hook" ∈ http_posts l).
Proof.
  destruct (createInstanceWebhook_delivers Fixture.env0 Fixture.phone1 "http" "message.sent"
              "http://d.test/hook" Fixture.world0) as (_ & H & _); try discriminate.
  destruct (H Fixture.row1 eq_refl) as (_ & _ & H3).
  apply (H3 0%nat Fixture.inst1); reflexivity.
Defined.

Import Mode Routes.

(** ** The operating mode and the routes *)

Lemma getCurrentMode_cases env :
  (getCurrentMode env).1 = SINGLE ∨ (getCurrentMode env).1 = MULTI
  ∨ (getCurrentMode env).1 = BOTH.
Proof.
  unfold getCurrentMode.
  destruct (bool_decide (or_else (toLowerCase <$> env) BOTH ∈ [SINGLE; MULTI; BOTH])) eqn:Hm;
    cbn [negb fst].
  - apply bool_decide_eq_true in Hm. rewrite !elem_of_cons in Hm.
    destruct Hm as [?|[?|[?|Hm]]]; auto. apply not_elem_of_nil in Hm. contradiction.
  - auto.
Qed.

(** X22. Whatever WHATSAPP_MODE holds, the current mode is one of single,
    multi and both, at least one of the two route families is enabled,
    and the description is never the one of an unknown mode; a value
    that is not set, empty or not a mode name gives both, and only a
    non-empty value that is not a mode name is warned about. *)
Theorem mode_always_valid (env : option string) :
  (getCurrentMode env).1 ∈ [SINGLE; MULTI; BOTH]
  ∧ isSingleModeEnabled env || isMultiModeEnabled env = true
  ∧ getModeDescription env ≠ "Unknown Mode"
  ∧ (or_else (toLowerCase <$> env) BOTH ∉ [SINGLE; MULTI]
     → (getCurrentMode env).1 = BOTH
       ∧ isSingleModeEnabled env = true ∧ isMultiModeEnabled env = true)
  ∧ ((getCurrentMode env).2 ≠ []
     ↔ ∃ s, env = Some s ∧ s ≠ "" ∧ toLowerCase s ∉ [SINGLE; MULTI; BOTH]).
Proof.
  split; [|split; [|split; [|split]]].
  - rewrite !elem_of_cons. destruct (getCurrentMode_cases env) as [H|[H|H]]; auto.
  - unfold isSingleModeEnabled, isMultiModeEnabled.
    destruct (getCurrentMode_cases env) as [H|[H|H]]; rewrite H; reflexivity.
  - unfold getModeDescription.
    destruct (getCurrentMode_cases env) as [H|[H|H]]; rewrite H; discriminate.
  - intros Hn.
    assert (Hb : (getCurrentMode env).1 = BOTH).
    { unfold getCurrentMode.
      destruct (bool_decide (or_else (toLowerCase <$> env) BOTH ∈ [SINGLE; MULTI; BOTH]))
        eqn:Hm; cbn [negb fst]; [|reflexivity].
      apply bool_decide_eq_true in Hm. rewrite !elem_of_cons in Hm.
      rewrite !not_elem_of_cons in Hn.
      destruct Hm as [?|[?|[?|Hm]]]; [tauto|tauto|assumption|].
      apply not_elem_of_nil in Hm. contradiction. }
    unfold isSingleModeEnabled, isMultiModeEnabled. rewrite Hb. auto.
  - unfold getCurrentMode.
    destruct (bool_decide (or_else (toLowerCase <$> env) BOTH ∈ [SINGLE; MULTI; BOTH]))
      eqn:Hm; cbn [negb snd].
    + apply bool_decide_eq_true in Hm. split; [congruence|].
      intros (s & -> & Hs & Hl). exfalso. apply Hl.
      cbn in Hm. destruct (bool_decide (toLowerCase s = "")) eqn:He; [|exact Hm].
      apply bool_decide_eq_true in He. destruct s; [congruence|discriminate].
    + apply bool_decide_eq_false in Hm. split; [intros _|discriminate].
      destruct env as [s|]; cbn in Hm.
      * exists s. destruct (bool_decide (toLowerCase s = "")) eqn:He.
        -- exfalso. apply Hm. rewrite !elem_of_cons. auto.
        -- apply bool_decide_eq_false in He.
           split; [reflexivity|]. split; [|exact Hm]. intros ->. apply He. reflexivity.
      * exfalso. apply Hm. rewrite !elem_of_cons. auto.
Qed.

Lemma first_match_app rs1 rs2 m path :
  first_match (rs1 ++ rs2) m path
  = match first_match rs1 m path with
    | Some x => Some x
    | None => first_match rs2 m path
    end.
Proof.
  induction rs1 as [|r rs1 IH]; [reflexivity|].
  cbn [app first_match].
  destruct (if bool_decide (route_method r = m) then match_path (route_path r) path else None);
    [reflexivity|exact IH].
Qed.

Lemma first_match_elem rs m path h params :
  first_match rs m path = Some (h, params)
  → ∃ r, r ∈ rs ∧ route_method r = m ∧ route_handler r = h
         ∧ match_path (route_path r) path = Some params.
Proof.
  induction rs as [|r rs IH]; [discriminate|].
  cbn [first_match]. destruct (bool_decide (route_method r = m)) eqn:Hm.
  - destruct (match_path (route_path r) path) as [ps|] eqn:Hp.
    + intros [= <- <-]. exists r. apply bool_decide_eq_true in Hm.
      split; [left|]. auto.
    + intros H. destruct (IH H) as (r' & ? & ?). exists r'. split; [right|]; assumption.
  - intros H. destruct (IH H) as (r' & ? & ?). exists r'. split; [right|]; assumption.
Qed.

Lemma toLowerCase_empty s : toLowerCase s = "" → s = "".
Proof. destruct s; [reflexivity|discriminate]. Qed.

Ltac route_cases :=
  repeat match goal with
  | |- context [bool_decide (?a = ?b)] =>
      let H := fresh "Hc" in
      destruct (bool_decide (a = b)) eqn:H;
      [apply bool_decide_eq_true in H|apply bool_decide_eq_false in H];
      cbn [fmap option_fmap option_map]
  end.

Lemma history_route_only env r :
  r ∈ routes env →
  route_handler r = webhookHistoryController_getInstanceHistoryByPhone →
  isMultiModeEnabled env = true
  ∧ r = route GET [Lit "instances"; Param "phone"; Lit "webhooks"; Lit "history"]
          webhookHistoryController_getInstanceHistoryByPhone.
Proof.
  unfold routes. intros Hin Hh.
  destruct (isSingleModeEnabled env), (isMultiModeEnabled env); cbn [app] in Hin;
    repeat (apply elem_of_cons in Hin as [->|Hin]; [try discriminate Hh|]);
    try (apply not_elem_of_nil in Hin; contradiction).
  all: split; reflexivity.
Qed.

Lemma first_match_skip r rs m path :
  (if bool_decide (route_method r = m) then match_path (route_path r) path else None) = None →
  first_match (r :: rs) m path = first_match rs m path.
Proof. intros H. cbn [first_match]. rewrite H. reflexivity. Qed.

Lemma first_match_hit r rs m path params :
  (if bool_decide (route_method r = m) then match_path (route_path r) path else None)
  = Some params →
  first_match (r :: rs) m path = Some (route_handler r, params).
Proof. intros H. cbn [first_match]. rewrite H. reflexivity. Qed.

Lemma dispatch_history env s1 phone s3 s4 rest :
  isMultiModeEnabled env = true →
  toLowerCase s1 = "instances" → phone ≠ "" → toLowerCase s3 = "webhooks" →
  toLowerCase s4 = "history" → (rest = [] ∨ rest = [""]) →
  dispatch env GET (s1 :: phone :: s3 :: s4 :: rest)
  = Some (webhookController_getInstanceWebhook, [("phone", phone); ("id", s4)]).
Proof.
  intros Hm H1 Hp H3 H4 Hr. unfold dispatch, routes. rewrite Hm.
  assert (H4' : s4 ≠ "") by (intros ->; discriminate).
  pose proof (bool_decide_eq_false_2 _ Hp) as Hp'.
  pose proof (bool_decide_eq_false_2 _ H4') as H4''.
  destruct (isSingleModeEnabled env), Hr as [-> | ->]; cbn [app].
  all: repeat (rewrite first_match_skip
                 by (cbn [route_method route_path route match_path];
                     rewrite ?H1, ?H3, ?H4, ?Hp', ?H4''; vm_compute; reflexivity)).
  all: apply first_match_hit; cbn [route_method route_path route match_path];
    rewrite ?H1, ?H3, ?H4, ?Hp', ?H4''; vm_compute; reflexivity.
Qed.

Lemma match_history_inv path params :
  match_path [Lit "instances"; Param "phone"; Lit "webhooks"; Lit "history"] path = Some params →
  ∃ s1 phone s3 s4 rest,
    path = s1 :: phone :: s3 :: s4 :: rest
    ∧ toLowerCase s1 = "instances" ∧ phone ≠ "" ∧ toLowerCase s3 = "webhooks"
    ∧ toLowerCase s4 = "history" ∧ (rest = [] ∨ rest = [""]).
Proof.
  destruct path as [|s1 [|phone [|s3 [|s4 rest]]]]; cbn [match_path]; intros H.
  - discriminate.
  - destruct (bool_decide _); discriminate.
  - destruct (bool_decide (toLowerCase s1 = _)); [|discriminate].
    destruct (bool_decide (phone = _)); discriminate.
  - destruct (bool_decide (toLowerCase s1 = _)); [|discriminate].
    destruct (bool_decide (phone = _)); [discriminate|].
    destruct (bool_decide (toLowerCase s3 = _)); discriminate.
  - destruct (bool_decide (toLowerCase s1 = _)) eqn:H1; [|discriminate].
    destruct (bool_decide (phone = _)) eqn:Hp; [discriminate|].
    destruct (bool_decide (toLowerCase s3 = _)) eqn:H3; [|discriminate].
    destruct (bool_decide (toLowerCase s4 = _)) eqn:H4; [|discriminate].
    apply bool_decide_eq_true in H1, H3, H4. apply bool_decide_eq_false in Hp.
    exists s1, phone, s3, s4, rest. repeat split; try assumption.
    destruct rest as [|l [|? ?]]; [left; reflexivity| |discriminate].
    destruct (bool_decide (l = "")) eqn:Hl; [|discriminate].
    apply bool_decide_eq_true in Hl. subst. right. reflexivity.
Qed.

Lemma dispatch_never_history env m path params :
  dispatch env m path ≠ Some (webhookHistoryController_getInstanceHistoryByPhone, params).
Proof.
  intros Hd.
  destruct (first_match_elem _ _ _ _ _ Hd) as (r & Hin & Hmeth & Hh & Hp).
  destruct (history_route_only _ _ Hin Hh) as [Hmulti ->].
  cbn in Hmeth. subst m. cbn [route_path route] in Hp.
  destruct (match_history_inv _ _ Hp) as (s1 & ph & s3 & s4 & rest & -> & H1 & Hph & H3 & H4 & Hr).
  rewrite (dispatch_history env s1 ph s3 s4 rest) in Hd by assumption.
  discriminate.
Qed.

(** X23. With the routes of the instances registered, a GET of
    /instances/<phone>/webhooks/history is handled as the read of the
    subscription whose id is the text history, in any letter case and
    with or without a last slash, since that route is registered before
    the one of the history; no request of any method and path reaches
    the handler of the history of an instance. *)
Theorem instance_history_route_shadowed (env : option string) (s1 phone s3 s4 : string)
    (rest : list string)
    (Hmulti : isMultiModeEnabled env = true)
    (H1 : toLowerCase s1 = "instances") (Hphone : phone ≠ "")
    (H3 : toLowerCase s3 = "webhooks") (H4 : toLowerCase s4 = "history")
    (Hrest : rest = [] ∨ rest = [""]) :
  dispatch env GET (s1 :: phone :: s3 :: s4 :: rest)
  = Some (webhookController_getInstanceWebhook, [("phone", phone); ("id", s4)])
  ∧ ∀ m path params,
      dispatch env m path
      ≠ Some (webhookHistoryController_getInstanceHistoryByPhone, params).
Proof.
  split.
  - apply dispatch_history; assumption.
  - intros m path params. apply dispatch_never_history.
Qed.

Lemma instance_history_route_shadowed_witness :
  dispatch None GET ["instances"; "6281"; "webhooks"; "history"]
  = Some (webhookController_getInstanceWebhook, [("phone", "6281"); ("id", "history")]).
Proof.
  destruct (instance_history_route_shadowed None "instances" "6281" "webhooks" "history" []
              eq_refl eq_refl ltac:(discriminate) eq_refl eq_refl (or_introl eq_refl))
    as [H _].
  exact H.
Defined.

(** X24. Every other route of the table is live: some request reaches
    its handler, namely the request of its method whose path is its own
    with the text "x" for each parameter.  (Another text may be taken by
    an earlier route: GET /webhooks/history/stats is the statistics, not
    the history row "stats".)  So the route of the history of an instance
    is the only one that no request reaches. *)
Theorem routes_live (env : option string) (r : Route)
    (Hin : r ∈ routes env)
    (Hh : route_handler r ≠ webhookHistoryController_getInstanceHistoryByPhone) :
  ∃ params,
    dispatch env (route_method r) (sample (route_path r)) = Some (route_handler r, params).
Proof.
  unfold dispatch, routes in *.
  destruct (isSingleModeEnabled env), (isMultiModeEnabled env); cbn [app] in Hin;
    repeat (apply elem_of_cons in Hin as [->|Hin];
            [first [exfalso; apply Hh; reflexivity | eexists; vm_compute; reflexivity]|]);
    apply not_elem_of_nil in Hin; contradiction.
Qed.

Lemma routes_live_witness :
  ∃ params,
    dispatch None GET ["webhooks"; "history"; "stats"]
    = Some (webhookHistoryController_getGlobalStatistics, params).
Proof.
  refine (routes_live None
            (route GET [Lit "webhooks"; Lit "history"; Lit "stats"]
               webhookHistoryController_getGlobalStatistics) _ _).
  - apply list_elem_of_In. vm_compute. repeat (first [left; reflexivity | right]).
  - discriminate.
Defined.

Lemma match_path_nil_head pattern :
  pattern ≠ [] → match_path pattern [] = None.
Proof. destruct pattern as [|[?|?] ?]; [congruence|reflexivity|reflexivity]. Qed.

(** X25. The mode gates the routes: /mode is routed in every mode; when
    WHATSAPP_MODE is single no request reaches a handler of the
    instances, the subscriptions or the history, and when it is multi
    none reaches a handler of the single-instance routes. *)
Theorem mode_gates_routes (env : option string) :
  dispatch env GET ["mode"] = Some (modeController_getModeInfo, [])
  ∧ ∀ m path h params,
      dispatch env m path = Some (h, params) →
      (isMultiModeEnabled env = false →
       h = modeController_getModeInfo ∨ h ∈ legacy_handlers)
      ∧ (isSingleModeEnabled env = false → h ∉ legacy_handlers).
Proof.
  split.
  - unfold dispatch, routes. reflexivity.
  - intros m path h params Hd.
    destruct (first_match_elem _ _ _ _ _ Hd) as (r & Hin & _ & <- & _).
    unfold routes in Hin. split; intros Hoff; rewrite Hoff in Hin.
    + destruct (isSingleModeEnabled env); cbn [app] in Hin;
        repeat (apply elem_of_cons in Hin as [->|Hin];
                [first [left; reflexivity
                       | right; unfold legacy_handlers; cbn [route_handler route];
                         rewrite !elem_of_cons; tauto]|]);
        apply not_elem_of_nil in Hin; contradiction.
    + destruct (isMultiModeEnabled env); cbn [app] in Hin;
        repeat (apply elem_of_cons in Hin as [->|Hin];
                [unfold legacy_handlers; cbn [route_handler route];
                 rewrite !not_elem_of_cons; repeat split;
                 first [discriminate | apply not_elem_of_nil]|]);
        apply not_elem_of_nil in Hin; contradiction.
Qed.

Import Logs.

(** ** The log endpoint *)

Lemma slice_window {A} (l : list A) (limit : Z) :
  reverse (slice l (- limit)) = take (window limit (List.length l)) (reverse l).
Proof.
  unfold slice, window. rewrite reverse_drop.
  destruct (0 <? limit)%Z eqn:Hl.
  - apply Z.ltb_lt in Hl.
    assert (Hneg : (- limit <? 0)%Z = true) by (apply Z.ltb_lt; lia). rewrite Hneg.
    destruct (decide (Z.to_nat limit ≤ List.length l)%nat) as [Hle|Hgt].
    + f_equal. lia.
    + rewrite !take_ge by (rewrite length_reverse; lia). reflexivity.
  - apply Z.ltb_ge in Hl.
    assert (Hneg : (- limit <? 0)%Z = false) by (apply Z.ltb_ge; lia). rewrite Hneg.
    f_equal. lia.
Qed.

Lemma logLimit_bounds parseInt q :
  (logLimit parseInt q ≤ 1000)%Z ∧ logLimit parseInt q ≠ 0%Z.
Proof.
  unfold logLimit. destruct (q_limit q) as [limit|]; [destruct (parseInt limit) as [n|]|];
    try destruct (n =? 0)%Z eqn:Hn; try apply Z.eqb_neq in Hn; cbn; lia.
Qed.

Lemma filter_level_defined {Entry} (level_of : Entry → option (option string)) level logs :
  Forall (fun log => level_of log ≠ None) logs →
  filter_level level_of level logs
  = Some (List.filter (fun log => bool_decide (level_of log = Some (Some level))) logs).
Proof.
  induction 1 as [|log logs Hlog _ IH]; [reflexivity|].
  cbn [filter_level List.filter]. rewrite IH.
  destruct (level_of log) as [l|]; [|congruence].
  destruct (decide (l = Some level)) as [->|Hne].
  - rewrite !bool_decide_eq_true_2 by reflexivity. reflexivity.
  - rewrite !bool_decide_eq_false_2 by congruence. reflexivity.
Qed.

Lemma filter_level_throws {Entry} (level_of : Entry → option (option string)) level logs :
  Exists (fun log => level_of log = None) logs → filter_level level_of level logs = None.
Proof.
  induction 1 as [log logs Hlog|log logs _ IH]; cbn [filter_level].
  - rewrite Hlog. reflexivity.
  - rewrite IH. destruct (level_of log); reflexivity.
Qed.

(** X26. The log endpoint answers with entries of the newest window of
    the log file, newest first: the limit it uses is never 0 nor more
    than 1000 and a positive one bounds the window; no level or all gives
    the whole window; another level keeps of that window the entries of
    the level, and is answered 500 when an entry of the window is null. *)
Theorem getLogs_window {Entry : Type} (blank : string → bool) (parse : string → Entry)
    (level_of : Entry → option (option string)) (parseInt : string → option Z)
    (lines : list string) (q : LogQuery) :
  let limit := logLimit parseInt q in
  let level := default "all" (q_level q) in
  let all := entries blank parse lines in
  let recent := take (window limit (List.length all)) (reverse all) in
  let answer logs :=
    Answer 200 {| reply_logs := logs; reply_total := List.length logs;
                  reply_limit := limit; reply_level := level |} in
  let run := getLogs blank parse level_of parseInt (Lines lines) q in
  (limit ≤ 1000)%Z ∧ limit ≠ 0%Z
  ∧ ((0 < limit)%Z → (Z.of_nat (List.length recent) ≤ limit)%Z)
  ∧ (level = "all" → run = answer recent)
  ∧ (level ≠ "all" → Forall (fun log => level_of log ≠ None) recent →
     run = answer (List.filter (fun log => bool_decide (level_of log = Some (Some level)))
                     recent))
  ∧ (level ≠ "all" → Exists (fun log => level_of log = None) recent →
     run = Failure 500 "Failed to retrieve logs" null_level).
Proof.
  intros limit level all recent answer run.
  assert (Hlogs : (getAllLogs blank parse (Lines lines) limit).1 = recent).
  { unfold recent, all, getAllLogs. cbn [fst]. apply slice_window. }
  destruct (logLimit_bounds parseInt q) as [Hmax Hnz].
  split; [exact Hmax|]. split; [exact Hnz|]. split; [|split; [|split]].
  - intros Hpos. unfold recent, window. apply Z.ltb_lt in Hpos. rewrite Hpos.
    rewrite length_take. lia.
  - intros Hall. unfold run, getLogs. fold limit level. rewrite Hlogs.
    rewrite bool_decide_eq_true_2 by exact Hall. reflexivity.
  - intros Hne Hdef. unfold run, getLogs. fold limit level. rewrite Hlogs.
    rewrite bool_decide_eq_false_2 by exact Hne. cbn [negb].
    rewrite (filter_level_defined level_of level recent Hdef). reflexivity.
  - intros Hne Hnull. unfold run, getLogs. fold limit level. rewrite Hlogs.
    rewrite bool_decide_eq_false_2 by exact Hne. cbn [negb].
    rewrite (filter_level_throws level_of level recent Hnull). reflexivity.
Qed.

(** X27. A negative limit is not refused: the endpoint then returns all
    entries of the file but the oldest ones, as many as the limit says,
    so the bound of 1000 entries does not hold for it. *)
Theorem getLogs_negative_limit {Entry : Type} (blank : string → bool) (parse : string → Entry)
    (level_of : Entry → option (option string)) (parseInt : string → option Z)
    (lines : list string) (q : LogQuery) (limit : string) (n : Z)
    (Hq : q_limit q = Some limit) (Hn : parseInt limit = Some n) (Hneg : (n < 0)%Z)
    (Hall : default "all" (q_level q) = "all") :
  let all := entries blank parse lines in
  let logs := reverse (drop (Z.to_nat (- n)) all) in
  getLogs blank parse level_of parseInt (Lines lines) q
  = Answer 200 {| reply_logs := logs; reply_total := List.length logs;
                  reply_limit := n; reply_level := "all" |}
  ∧ List.length logs = (List.length all - Z.to_nat (- n))%nat.
Proof.
  intros all logs.
  assert (Hlim : logLimit parseInt q = n).
  { unfold logLimit. rewrite Hq, Hn.
    destruct (n =? 0)%Z eqn:Hz; [apply Z.eqb_eq in Hz; lia|lia]. }
  split.
  - unfold getLogs. rewrite Hall, Hlim.
    rewrite bool_decide_eq_true_2 by reflexivity. cbn [negb getAllLogs fst].
    assert (Hs : slice (entries blank parse lines) (- n) = drop (Z.to_nat (- n)) all).
    { unfold slice. fold all.
      assert (Hs : (- n <? 0)%Z = false) by (apply Z.ltb_ge; lia). rewrite Hs.
      destruct (decide (Z.to_nat (- n) ≤ List.length all)%nat) as [Hle|Hgt].
      - f_equal. lia.
      - rewrite !drop_ge by lia. reflexivity. }
    rewrite Hs. reflexivity.
  - unfold logs. rewrite length_reverse, length_drop. reflexivity.
Qed.

Lemma getLogs_negative_limit_witness :
  getLogs (fun line => bool_decide (line = "")) (fun line => line)
    (fun _ => Some None) (fun _ => Some (-1)%Z)
    (Lines ["a"; ""; "b"; "c"]) {| q_limit := Some "-1"; q_level := None |}
  = Answer 200 {| reply_logs := ["c"; "b"]; reply_total := 2;
                  reply_limit := (-1)%Z; reply_level := "all" |}.
Proof.
  destruct (getLogs_negative_limit (fun line => bool_decide (line = "")) (fun line => line)
              (fun _ => Some None) (fun _ => Some (-1)%Z) ["a"; ""; "b"; "c"]
              {| q_limit := Some "-1"; q_level := None |} "-1" (-1)%Z
              eq_refl eq_refl eq_refl eq_refl) as [H _].
  exact H.
Defined.

Import JsData.

(** ** Safe serialisation of any value *)

Lemma jsval_nested_ind (P : Js.jsval → Prop) :
  (∀ v, (∀ items, v ≠ Js.VArray items) → (∀ props, v ≠ Js.VObject props) →
        (∀ self result, v ≠ Js.VToJSON self result) → P v) →
  (∀ items, Forall P items → P (Js.VArray items)) →
  (∀ props, Forall (fun p => P p.2) props → P (Js.VObject props)) →
  (∀ self result, P self → P result → P (Js.VToJSON self result)) →
  ∀ v, P v.
Proof.
  intros Hleaf Harr Hobj Hjson. fix IH 1. intros v.
  destruct v as [| |b|n| |n|s|bytes|bytes|name|items|props|str| |self result];
    try (apply Hleaf; intros; discriminate).
  - apply Harr. induction items as [|x items IHitems]; constructor; [apply IH|exact IHitems].
  - apply Hobj. induction props as [|[k x] props IHprops]; constructor;
      [apply IH|exact IHprops].
  - apply Hjson; apply IH.
Qed.

Lemma json_nested_ind (P : Js.json → Prop) :
  P Js.JNull → (∀ b, P (Js.JBool b)) → (∀ n, P (Js.JNum n)) → (∀ s, P (Js.JStr s)) →
  (∀ items, Forall P items → P (Js.JArr items)) →
  (∀ props, Forall (fun p => P p.2) props → P (Js.JObj props)) →
  ∀ j, P j.
Proof.
  intros Hnull Hbool Hnum Hstr Harr Hobj. fix IH 1. intros j.
  destruct j as [|b|n|s|items|props];
    [exact Hnull|apply Hbool|apply Hnum|apply Hstr| |].
  - apply Harr. induction items as [|x items IHitems]; constructor; [apply IH|exact IHitems].
  - apply Hobj. induction props as [|[k x] props IHprops]; constructor;
      [apply IH|exact IHprops].
Qed.

Lemma serialize_array called items :
  Js.serialize called (Js.VArray items) = Js.array_of (elements items).
Proof. reflexivity. Qed.

Lemma serialize_object called props :
  Js.serialize called (Js.VObject props) = Js.object_of (members props).
Proof. reflexivity. Qed.

Lemma serialize_bytes called bytes :
  Js.serialize called (Js.VUint8Array bytes)
  = inr (Some (Js.JObj [("__type", Js.JStr "Uint8Array");
                        ("data", Js.JArr (Js.JNum <$> bytes))])).
Proof. destruct called; apply SerializeJSONProperty_bytes. Qed.

Lemma serialize_buffer called bytes :
  Js.serialize called (Js.VBuffer bytes)
  = inr (Some (Js.JObj [(if called then "__type" else "type",
                         Js.JStr (if called then "Uint8Array" else "Buffer"));
                        ("data", Js.JArr (Js.JNum <$> bytes))])).
Proof.
  destruct called.
  - apply SerializeJSONProperty_bytes.
  - change (Js.serialize false (Js.VBuffer bytes))
      with (Js.object_of
              (Js.member "type" (inr (Some (Js.JStr "Buffer")))
                 (Js.member "data" (Js.serialize_data (Js.VArray (Js.VNum <$> bytes)))
                    (inr [])))).
    rewrite serialize_data_numbers. reflexivity.
Qed.

Lemma throws_elements items :
  Forall (fun v => throws (Js.SerializeJSONProperty v) = unserialisable v) items →
  throws (elements items) = existsb unserialisable items.
Proof.
  induction 1 as [|x items Hx _ IH]; [reflexivity|].
  cbn [elements existsb]. rewrite <- Hx, <- IH. unfold Js.element.
  destruct (Js.SerializeJSONProperty x); [reflexivity|].
  destruct (elements items); reflexivity.
Qed.

Lemma throws_members props :
  Forall (fun p => throws (Js.SerializeJSONProperty p.2) = unserialisable p.2) props →
  throws (members props) = existsb (fun p => unserialisable p.2) props.
Proof.
  induction 1 as [|[k x] props Hx _ IH]; [reflexivity|].
  cbn [members existsb snd] in *. rewrite <- Hx, <- IH. unfold Js.member.
  destruct (Js.SerializeJSONProperty x); [reflexivity|].
  destruct (members props); reflexivity.
Qed.

Lemma throws_serialize v called :
  throws (Js.serialize called v) = unserialisable_from called v.
Proof.
  revert called.
  induction v as [v Ha Ho Hj|items IH|props IH|self result IHself IHresult]
    using jsval_nested_ind; intros called.
  - destruct v as [| |b|n| |n|s|bytes|bytes|name|items|props|str| |self result];
      try (destruct called; reflexivity).
    + rewrite serialize_bytes. reflexivity.
    + rewrite serialize_buffer. reflexivity.
    + exfalso. exact (Ha items eq_refl).
    + exfalso. exact (Ho props eq_refl).
    + exfalso. exact (Hj self result eq_refl).
  - rewrite serialize_array. cbn [unserialisable_from].
    assert (IH' : Forall (fun v => throws (Js.SerializeJSONProperty v) = unserialisable v) items)
      by (eapply Forall_impl; [exact IH|]; intros x Hx; apply (Hx false)).
    change (existsb (fun x => unserialisable_from false x) items)
      with (existsb unserialisable items).
    rewrite <- (throws_elements items IH'). destruct (elements items); reflexivity.
  - rewrite serialize_object. cbn [unserialisable_from].
    assert (IH' : Forall (fun p => throws (Js.SerializeJSONProperty p.2) = unserialisable p.2)
                    props)
      by (eapply Forall_impl; [exact IH|]; intros x Hx; apply (Hx false)).
    change (existsb (fun p => unserialisable_from false p.2) props)
      with (existsb (fun p => unserialisable p.2) props).
    rewrite <- (throws_members props IH'). destruct (members props); reflexivity.
  - destruct called; cbn [Js.serialize unserialisable_from]; [apply IHself|apply IHresult].
Qed.

Lemma undefined_serialize v called :
  Js.serialize called v = inr None ↔ undefined_from called v = true.
Proof.
  revert called.
  induction v as [v Ha Ho Hj|items IH|props IH|self result IHself IHresult]
    using jsval_nested_ind; intros called.
  - destruct v as [| |b|n| |n|s|bytes|bytes|name|items|props|str| |self result];
      try (destruct called; split; (reflexivity || discriminate)).
    + rewrite serialize_bytes. split; discriminate.
    + rewrite serialize_buffer. split; discriminate.
    + exfalso. exact (Ha items eq_refl).
    + exfalso. exact (Ho props eq_refl).
    + exfalso. exact (Hj self result eq_refl).
  - rewrite serialize_array. destruct (elements items); split; discriminate.
  - rewrite serialize_object. destruct (members props); split; discriminate.
  - destruct called; cbn [Js.serialize undefined_from]; [apply IHself|apply IHresult].
Qed.

Lemma undefined_root_plain obj :
  (∀ self result, obj ≠ Js.VToJSON self result) →
  undefined_root obj = true ↔ obj = Js.VUndefined.
Proof.
  intros Hj. destruct obj; split; try discriminate; try reflexivity.
  intros _. exfalso. exact (Hj _ _ eq_refl).
Qed.

(** X28. The safe serialisation gives up on the value as a whole and
    returns the record of the error, with a warning, exactly when what is
    serialised of the value is undefined or holds a BigInt or a circular
    reference at some depth; every other value is serialised, without a
    warning.  For a value without a [toJSON] method, what is serialised of
    it is undefined when it is [undefined] itself. *)
Theorem safeSerialize_fallback_iff (E : Env) (obj : Js.jsval) :
  ((∃ e, Js.parse_stringify obj = inl e
         ∧ ∀ w, safeSerialize E obj w
                = (inr (Js.fallback (error_message E) (js_toString E) obj e),
                   after (emit (LogWarn ("Failed to serialize object, using fallback: "
                                         ++ error_message E e))) w))
   ↔ undefined_root obj = true ∨ unserialisable obj = true)
  ∧ ((∃ j, Js.parse_stringify obj = inr j ∧ safeSerialize E obj = mret j)
     ↔ undefined_root obj = false ∧ unserialisable obj = false)
  ∧ ((∀ self result, obj ≠ Js.VToJSON self result) →
     undefined_root obj = true ↔ obj = Js.VUndefined).
Proof.
  pose proof (throws_serialize obj false) as Ht.
  pose proof (undefined_serialize obj false) as Hu.
  split; [|split; [|apply undefined_root_plain]].
  - unfold safeSerialize, Js.parse_stringify, Js.SerializeJSONProperty, undefined_root,
      unserialisable.
    destruct (Js.serialize false obj) as [e|[j|]] eqn:Hs; cbn [throws] in Ht.
    + split; [intros _; right; symmetry; exact Ht|].
      intros _. exists e. split; [reflexivity|]. intros w. reflexivity.
    + split; [intros (e & He & _); discriminate|].
      intros [Hun|Hb]; [|congruence]. apply (proj2 Hu) in Hun. discriminate.
    + split; [intros _; left; apply Hu; reflexivity|].
      intros _. exists Js.ParseUndefined. split; [reflexivity|]. intros w. reflexivity.
  - unfold safeSerialize, Js.parse_stringify, Js.SerializeJSONProperty, undefined_root,
      unserialisable.
    destruct (Js.serialize false obj) as [e|[j|]] eqn:Hs; cbn [throws] in Ht.
    + split; [intros (j & Hj & _); discriminate|]. intros [_ Hf]. congruence.
    + split; [|intros _; exists j; split; reflexivity].
      intros _. split; [|symmetry; exact Ht].
      destruct (undefined_from false obj) eqn:Hun; [|reflexivity].
      pose proof (proj2 Hu eq_refl) as Hbad. discriminate Hbad.
    + split; [intros (j & Hj & _); discriminate|].
      intros [Hun _]. rewrite (proj1 Hu eq_refl) in Hun. discriminate.
Qed.

Lemma elements_of_json items :
  Forall (fun j => Js.SerializeJSONProperty (Js.of_json j) = inr (Some j)) items →
  elements (Js.of_json <$> items) = inr items.
Proof.
  induction 1 as [|x items Hx _ IH]; [reflexivity|].
  cbn [fmap list_fmap elements].
  change (list_fmap _ _ Js.of_json items) with (Js.of_json <$> items).
  rewrite Hx, IH. reflexivity.
Qed.

Lemma members_of_json props :
  Forall (fun p => Js.SerializeJSONProperty (Js.of_json p.2) = inr (Some p.2)) props →
  members ((fun p => (p.1, Js.of_json p.2)) <$> props) = inr props.
Proof.
  induction 1 as [|[k x] props Hx _ IH]; [reflexivity|].
  cbn [fmap list_fmap members fst snd] in *.
  change (list_fmap _ _ ?f props) with (f <$> props).
  rewrite Hx, IH. reflexivity.
Qed.

Lemma SerializeJSONProperty_of_json j :
  Js.SerializeJSONProperty (Js.of_json j) = inr (Some j).
Proof.
  induction j as [|b|n|s|items IH|props IH] using json_nested_ind; try reflexivity.
  - cbn [Js.of_json]. rewrite SerializeJSONProperty_array, (elements_of_json items IH).
    reflexivity.
  - cbn [Js.of_json]. rewrite SerializeJSONProperty_object, (members_of_json props IH).
    reflexivity.
Qed.

(** X29. JSON data passes through the safe serialisation unchanged and
    without a warning, so serialising again what it returned, the record
    of an error included, changes nothing. *)
Theorem safeSerialize_json_fixed (E : Env) :
  (∀ j, safeSerialize E (Js.of_json j) = mret j)
  ∧ (∀ obj w j, result (safeSerialize E obj) w = inr j →
                safeSerialize E (Js.of_json j) = mret j).
Proof.
  assert (H : ∀ j, safeSerialize E (Js.of_json j) = mret j).
  { intros j. unfold safeSerialize, Js.parse_stringify.
    rewrite SerializeJSONProperty_of_json. reflexivity. }
  split; [exact H|]. intros obj w j _. apply H.
Qed.

Import Messaging.

(** ** The send endpoint *)

Lemma sendMessage_cases E trim phone body w :
  let run := Messaging.sendMessage E trim phone body w in
  (∃ status error message,
      run = (inr (Failure status error message), w) ∧ status ∈ [400; 404; 503]%nat)
  ∨ (∃ to message r inst,
        send_to body = Some to ∧ send_message body = Some (Js.JStr message)
        ∧ falsy (Some to) = false ∧ trim message ≠ ""
        ∧ instances w !! phone = Some r ∧ heap w !! r = Some inst ∧ isConnected inst = true
        ∧ run = match manager_sendMessage E phone to (trim message) w with
                | (inr messageId, w') =>
                    (inr (Answer 200 {| sent_instancePhone := phone; sent_to := to;
                                        sent_message := trim message;
                                        sent_messageId := messageId |}), w')
                | (inl error, w') =>
                    (inr (Failure 500 "Failed to send message" error),
                     after (emit (LogError ("Error sending message from instance " ++ phone
                                            ++ ": " ++ error))) w')
                end)
  ∨ (∃ error w', run = (inr (Failure 500 "Failed to send message" error), w')
               ∧ transport_sends (out w') = transport_sends (out w)).
Proof.
  cbv zeta. unfold Messaging.sendMessage.
  destruct (from_option interpolates true (send_to body)) eqn:Hint; cbn [negb].
  2:{ right. right. do 2 eexists. split.
      - unfold try_catch. run_all. reflexivity.
      - cbn. rewrite transport_sends_app. cbn. apply app_nil_r. }
  destruct (falsy (send_to body) || falsy (send_message body)) eqn:Hf.
  { left. do 3 eexists. split; [reflexivity|]. rewrite !elem_of_cons. auto. }
  apply orb_false_elim in Hf as [Hto Hmsg].
  destruct (send_to body) as [to|] eqn:Hb1; [|discriminate].
  destruct (send_message body) as [[| | |message| |]|] eqn:Hb2;
    try (left; do 3 eexists; split; [reflexivity|]; rewrite !elem_of_cons; auto; fail).
  destruct (bool_decide (trim message = "")) eqn:Ht.
  { left. do 3 eexists. split; [reflexivity|]. rewrite !elem_of_cons. auto. }
  apply bool_decide_eq_false in Ht.
  unfold Manager.getInstance.
  destruct (instances w !! phone) as [r|] eqn:Hi.
  2:{ left. do 3 eexists. split.
      - unfold try_catch. run_all. rewrite Hi. reflexivity.
      - rewrite !elem_of_cons. auto. }
  destruct (heap w !! r) as [inst|] eqn:Hr.
  2:{ right. right. do 2 eexists. split.
      - unfold try_catch. run_all. rewrite Hi. unfold this. rewrite Hr. reflexivity.
      - cbn. rewrite transport_sends_app. cbn. apply app_nil_r. }
  destruct (isConnected inst) eqn:Hc.
  - right. left. exists to, message, r, inst. repeat (split; [first [assumption|reflexivity]|]).
    unfold try_catch. run_all. rewrite Hi. unfold this. rewrite Hr, Hc. cbn.
    destruct (manager_sendMessage E phone to (trim message) w) as [[e|id] w']; reflexivity.
  - left. do 3 eexists. split.
    + unfold try_catch. run_all. rewrite Hi. unfold this. rewrite Hr, Hc. reflexivity.
    + rewrite !elem_of_cons. auto.
Qed.

Lemma manager_sendMessage_non_string E phone to message w r inst :
  (∀ s, to ≠ Js.JStr s) →
  instances w !! phone = Some r → heap w !! r = Some inst → isConnected inst = true →
  manager_sendMessage E phone to message w
  = (inl not_a_function,
     set_tbl_log (fun t => (t ++ [{| log_instanceId := row_id (instanceData inst);
                                     log_level := lvl_error;
                                     log_message := "Error sending message: "
                                                    ++ not_a_function |}])%list)
       (set_out (fun o => (o ++ [LogError ("Error sending message from "
                                           ++ row_phone (instanceData inst) ++ ": "
                                           ++ not_a_function)])%list) w)).
Proof.
  intros Hto Hi Hr Hc.
  assert (Hrun : (instance ← Manager.getInstance phone;
                  match instance with
                  | None => throw (Manager.not_found phone)
                  | Some r => sendMessage_non_string r
                  end) w
                 = (inl not_a_function,
                    set_tbl_log (fun t => (t ++ [{| log_instanceId := row_id (instanceData inst);
                                                    log_level := lvl_error;
                                                    log_message := "Error sending message: "
                                                                   ++ not_a_function |}])%list)
                      (set_out (fun o => (o ++ [LogError ("Error sending message from "
                                                          ++ row_phone (instanceData inst) ++ ": "
                                                          ++ not_a_function)])%list) w))).
  { unfold Manager.getInstance, sendMessage_non_string. run_all. rewrite Hi.
    unfold this. rewrite Hr, Hc. reflexivity. }
  destruct to; try exact Hrun. exfalso. exact (Hto _ eq_refl).
Qed.

(** X30. The send endpoint of an instance: an answer 400, 404 or 503
    leaves the system as it was, so an instance that is not connected gets
    no error row from it; an answer 200 means the recipient is a string
    and the manager sent and stored the trimmed message; a recipient that
    is not a string, such as a number, passes the checks and fails in the
    instance, which answers 500 after the error line and the error row,
    nothing being sent.  Before any check the recipient is written into a
    log line: a recipient that cannot be converted to a string, such as
    [{"toString": 1}], fails there, and the answer is 500 with the message
    of that error, without an error row. *)
Theorem controller_sendMessage_checks (E : Env) (trim : string → string) (phone : string)
    (body : SendBody) (w : World) :
  let run := Messaging.sendMessage E trim phone body in
  (∀ status error message,
      result run w = inr (Failure status error message) → status ≠ 500%nat →
      status ∈ [400; 404; 503]%nat ∧ after run w = w)
  ∧ (∀ status data,
        result run w = inr (Answer status data) →
        status = 200%nat
        ∧ ∃ recipientNumber message,
            send_to body = Some (Js.JStr recipientNumber)
            ∧ send_message body = Some (Js.JStr message)
            ∧ sent_to data = Js.JStr recipientNumber
            ∧ sent_message data = trim message ∧ trim message ≠ ""
            ∧ Manager.sendMessage E phone recipientNumber (trim message) w
              = (inr (sent_messageId data), after run w))
  ∧ (∀ to,
        send_to body = Some to → interpolates to = false →
        result run w = inr (Failure 500 "Failed to send message" cannot_convert)
        ∧ after run w
          = after (emit (LogError ("Error sending message from instance " ++ phone ++ ": "
                                   ++ cannot_convert))) w)
  ∧ (∀ to message r inst,
        send_to body = Some to → interpolates to = true →
        (∀ s, to ≠ Js.JStr s) → falsy (Some to) = false →
        send_message body = Some (Js.JStr message) → message ≠ "" → trim message ≠ "" →
        instances w !! phone = Some r → heap w !! r = Some inst → isConnected inst = true →
        result run w = inr (Failure 500 "Failed to send message" not_a_function)
        ∧ transport_sends (out (after run w)) = transport_sends (out w)
        ∧ tbl_log (after run w)
          = (tbl_log w ++ [{| log_instanceId := row_id (instanceData inst);
                              log_level := lvl_error;
                              log_message := "Error sending message: " ++ not_a_function |}])%list
        ∧ tbl_message (after run w) = tbl_message w).
Proof.
  cbv zeta. split; [|split; [|split]].
  - intros status error message Hres Hne.
    destruct (sendMessage_cases E trim phone body w)
      as [(s & e & m & Hrun & Hs)|[(to & msg & r & inst & _ & _ & _ & _ & _ & _ & _ & Hrun)
                                  |(e & w' & Hrun & _)]];
      unfold result, after in *; cbv zeta in Hrun.
    + rewrite Hrun in *. cbn [fst snd] in *. injection Hres as <- _ _. auto.
    + rewrite Hrun in Hres.
      destruct (manager_sendMessage E phone to (trim msg) w) as [[e|id] w'];
        cbn [fst] in Hres; [|discriminate].
      injection Hres as <- _ _. congruence.
    + rewrite Hrun in Hres. cbn [fst] in Hres. injection Hres as <- _ _. congruence.
  - intros status data Hres.
    destruct (sendMessage_cases E trim phone body w)
      as [(s & e & m & Hrun & Hs)|[(to & msg & r & inst & Hb1 & Hb2 & Hto & Ht & Hi & Hr & Hc
                                    & Hrun)
                                  |(e & w' & Hrun & _)]];
      unfold result, after in *; cbv zeta in Hrun.
    + rewrite Hrun in Hres. discriminate.
    + rewrite Hrun in Hres |- *.
      destruct (manager_sendMessage E phone to (trim msg) w) as [[e|id] w'] eqn:Hm;
        cbn [fst snd] in Hres |- *; [discriminate|].
      injection Hres as <- <-. split; [reflexivity|].
      assert (Hs : (∃ s, to = Js.JStr s) ∨ (∀ s, to ≠ Js.JStr s)).
      { destruct to; try (right; intros; discriminate). left. eexists. reflexivity. }
      destruct Hs as [[s ->]|Hns].
      * exists s, msg. cbn [sent_to sent_message sent_messageId].
        repeat (split; [first [assumption|reflexivity]|]). exact Hm.
      * rewrite (manager_sendMessage_non_string E phone to (trim msg) w r inst) in Hm;
          [discriminate|assumption..].
    + rewrite Hrun in Hres. discriminate.
  - intros to Hb1 Hint.
    unfold result, after, Messaging.sendMessage. rewrite Hb1. cbn [from_option].
    rewrite Hint. cbn [negb]. unfold try_catch. run_all. split; reflexivity.
  - intros to message r inst Hb1 Hint Hns Hto Hb2 Hm Ht Hi Hr Hc.
    unfold result, after, Messaging.sendMessage. rewrite Hb1, Hb2. cbn [from_option].
    rewrite Hint. cbn [negb].
    assert (Hf : falsy (Some to) || falsy (Some (Js.JStr message)) = false).
    { rewrite Hto. cbn. apply bool_decide_eq_false_2. exact Hm. }
    rewrite Hf, (bool_decide_eq_false_2 _ Ht).
    erewrite run_try_inl.
    2:{ unfold Manager.getInstance. run_def. rewrite Hi.
        rewrite (run_bind_inr _ _ _ _ _ (run_this _ _ _ Hr)). rewrite Hc. cbn [negb].
        erewrite run_bind_inl; [reflexivity|].
        apply (manager_sendMessage_non_string E phone to (trim message) w r inst);
          assumption. }
    run_all. rewrite !transport_sends_app. cbn. rewrite !app_nil_r. auto.
Qed.

Lemma controller_sendMessage_checks_witness :
  result (Messaging.sendMessage Fixture.env0 (fun s => s) Fixture.phone1
            {| send_to := Some (Js.JNum 628111); send_message := Some (Js.JStr "hi") |})
    Fixture.world0
  = inr (Failure 500 "Failed to send message" not_a_function).
Proof.
  destruct (controller_sendMessage_checks Fixture.env0 (fun s => s) Fixture.phone1
              {| send_to := Some (Js.JNum 628111); send_message := Some (Js.JStr "hi") |}
              Fixture.world0) as (_ & _ & _ & H).
  destruct (H (Js.JNum 628111) "hi" 0%nat Fixture.inst1 eq_refl eq_refl ltac:(discriminate)
              eq_refl eq_refl ltac:(discriminate) ltac:(discriminate) eq_refl eq_refl eq_refl)
    as [H1 _].
  exact H1.
Defined.

(** A recipient with an own property [toString]. *)
Example sendMessage_unprintable_recipient :
  let run := Messaging.sendMessage Fixture.env0 (fun s => s) Fixture.phone1
               {| send_to := Some (Js.JObj [("toString", Js.JNum 1)]);
                  send_message := Some (Js.JStr "hi") |} in
  result run Fixture.world0 = inr (Failure 500 "Failed to send message" cannot_convert)
  /\ tbl_log (after run Fixture.world0) = []
  /\ log_errors (out (after run Fixture.world0))
     = ["Error sending message from instance 628123456789: "
        ++ "Cannot convert object to primitive value"].
Proof. vm_compute. repeat split; reflexivity. Qed.
